(** * MCP client manager: a shallow embedding and its checked properties

    The development embeds the connection manager of [utils/mcp_client.py],
    the agent-side session table and argument filter of
    [utils/strands_mcp_agent.py] and the add-server endpoint of
    [api/mcp_routes.py].  Python objects are kept as the code has them:
    dictionaries are insertion-ordered association lists, JSON-like values
    form one untyped universe, exceptions travel in an error monad that keeps
    the mutated state, and everything the code awaits from the outside
    (subprocess start, handshake, remote call, clock, uuid) is supplied as an
    explicit outcome. *)

From Stdlib Require Import String List ZArith Bool Lia DecimalString.
Import ListNotations.
Open Scope string_scope.
Set Warnings "-register-all".

(** ** Insertion-ordered dictionaries with string keys *)

Definition dict (V : Type) : Type := list (string * V).

Fixpoint dict_get {V} (k : string) (d : dict V) : option V :=
  match d with
  | [] => None
  | (k', v) :: r => if String.eqb k k' then Some v else dict_get k r
  end.

Definition dict_mem {V} (k : string) (d : dict V) : bool :=
  match dict_get k d with Some _ => true | None => false end.

(** [d[k] = v]: an existing key keeps its position, a new key goes last. *)
Fixpoint dict_set {V} (k : string) (v : V) (d : dict V) : dict V :=
  match d with
  | [] => [(k, v)]
  | (k', v') :: r =>
      if String.eqb k k' then (k, v) :: r else (k', v') :: dict_set k v r
  end.

(** [del d[k]]: no binding of [k] is left. *)
Fixpoint dict_del {V} (k : string) (d : dict V) : dict V :=
  match d with
  | [] => []
  | (k', v') :: r =>
      if String.eqb k k' then dict_del k r else (k', v') :: dict_del k r
  end.

(** [d[k].field = ...]: a change to the object stored under [k], if any. *)
Definition dict_update {V} (k : string) (f : V -> V) (d : dict V) : dict V :=
  match dict_get k d with
  | Some v => dict_set k (f v) d
  | None => d
  end.

Definition dict_keys {V} (d : dict V) : list string := map fst d.
Definition dict_values {V} (d : dict V) : list V := map snd d.

(** ** Python values *)

(** Floating-point numbers are not interpreted: the code only formats them
    into messages, compares them with zero and stores them. *)
Class PyFloat : Type := {
  Float : Type;
  float_is_zero : Float -> bool;      (* [f == 0] *)
  float_str : Float -> string;        (* [f"{f}"] *)
  float_lit : Z -> Float              (* the literal [n.0] *)
}.

Inductive pyval `{PyFloat} : Type :=
| PNone
| PBool (b : bool)
| PInt (z : Z)
| PFloat (f : Float)
| PStr (s : string)
| PList (l : list pyval)
| PDict (d : list (string * pyval)).

(** What the interpreter and the standard library contribute: wall-clock
    readings, their ISO rendering, [uuid.uuid4()] and [str()] of values that
    are not strings.  Readings are indexed by the number of observations made
    so far. *)
Class Runtime `{PyFloat} : Type := {
  DateTime : Type;
  now_at : nat -> DateTime;                       (* [datetime.now()] *)
  isoformat : DateTime -> string;
  fromisoformat : string -> DateTime;
  total_seconds : DateTime -> DateTime -> Float;  (* [(later - earlier).total_seconds()] *)
  uuid4_at : nat -> string;                       (* [str(uuid.uuid4())] *)
  value_str : pyval -> string                     (* [str(v)] for a non-string [v] *)
}.

Section PythonValues.
Context `{PF : PyFloat}.

(** [str(v)] as used inside f-strings. *)
Definition py_str `{!Runtime} (v : pyval) : string :=
  match v with
  | PStr s => s
  | _ => value_str v
  end.

(** [v is None] *)
Definition is_None (v : pyval) : bool :=
  match v with PNone => true | _ => false end.

(** [v == 0]: true for the integer zero, a float zero and [False]. *)
Definition eq_zero (v : pyval) : bool :=
  match v with
  | PInt z => Z.eqb z 0
  | PFloat f => float_is_zero f
  | PBool b => negb b
  | _ => false
  end.

(** Truth value of a value in a condition. *)
Definition truthy (v : pyval) : bool :=
  match v with
  | PNone => false
  | PBool b => b
  | PInt z => negb (Z.eqb z 0)
  | PFloat f => negb (float_is_zero f)
  | PStr s => negb (String.eqb s "")
  | PList l => match l with [] => false | _ => true end
  | PDict d => match d with [] => false | _ => true end
  end.

(** [d.get(k, default)] *)
Definition get_default (k : string) (default : pyval) (d : dict pyval) : pyval :=
  match dict_get k d with Some v => v | None => default end.
End PythonValues.

(** ** Exceptions *)

(** The subclasses of [Exception] that the code distinguishes. *)
Inductive exn : Type :=
| TimeoutError                 (* asyncio.TimeoutError *)
| KeyError (key : string)
| OtherError (msg : string).

(** [str(e)] *)
Definition exn_str (e : exn) : string :=
  match e with
  | TimeoutError => ""
  | KeyError k => "'" ++ k ++ "'"
  | OtherError m => m
  end.

Inductive res (A : Type) : Type :=
| Ok (a : A)
| Raise (e : exn).
Arguments Ok {A} a.
Arguments Raise {A} e.

(** What an awaited external step does. *)
Inductive outcome (A : Type) : Type :=
| Done (a : A)
| TimesOut
| Fails (msg : string).
Arguments Done {A} a.
Arguments TimesOut {A}.
Arguments Fails {A} msg.

(** [str(n)] for a length. *)
Definition str_nat (n : nat) : string :=
  NilEmpty.string_of_uint (Nat.to_uint n).

(** ** The data model *)

Section DataModel.
Context {PF : PyFloat} {RT : Runtime}.

(** The dataclass [MCPServer].  Its configuration fields hold whatever the
    configuration dictionary held.  The fields [process], [stdin] and
    [stdout] are never assigned by any method and are left out.  A session
    is named by the exit stack that owns it. *)
Record MCPServer : Type := mkServer {
  id : string;
  name : pyval;
  description : pyval;
  command : pyval;
  args : pyval;
  env_vars : pyval;
  enabled : pyval;
  auto_connect : pyval;
  category : pyval;
  session : option nat;
  available_tools : list pyval;
  status : string;
  last_error : option string;
  connected_at : option DateTime
}.

(** A registered event handler: a label to recognise it in the trace, and
    what it does with the payload (return, or raise an [Exception]).
    Handlers are taken not to call back into the manager. *)
Record callback : Type := mkCallback {
  cb_name : string;
  cb_run : pyval -> res unit
}.

(** The attributes of an [MCPClientManager] instance. *)
Record MCPClientManager : Type := mkManager {
  servers : dict MCPServer;
  active_connections : dict nat;
  tool_call_history : list pyval;
  event_callbacks : dict (list callback)
}.

(** The attributes of a [StrandsMCPAgent] that the connection code uses. *)
Record StrandsMCPAgent : Type := mkAgent {
  mcp_servers : dict pyval;
  mcp_clients : dict nat;
  connected_servers : dict pyval
}.

(** Everything observable from outside, in the order it happened. *)
Inductive effect : Type :=
| Log (level msg : string)
| HandlerCalled (handler : string) (data : pyval)
| TransportLaunch (stack : nat) (server_id : string)
| SessionOpen (stack : nat)
| SessionInitialize (stack : nat)
| ListTools (stack : nat)
| StackClose (stack : nat)
| RemoteCall (session : nat) (tool_name : string) (arguments : pyval)
| ClientStarted (client : nat) (server_id : string)
| ClientStopped (client : nat).

Record World : Type := mkWorld {
  manager : MCPClientManager;
  agent : StrandsMCPAgent;
  disk : option pyval;          (* parsed content of the configuration file *)
  ticks : nat;                  (* observations of clock, uuid and allocator so far *)
  trace : list effect
}.

(** *** Field updates *)

Definition set_session v (s : MCPServer) : MCPServer :=
  mkServer (id s) (name s) (description s) (command s) (args s) (env_vars s)
    (enabled s) (auto_connect s) (category s)
    v (available_tools s) (status s) (last_error s) (connected_at s).
Definition set_available_tools v (s : MCPServer) : MCPServer :=
  mkServer (id s) (name s) (description s) (command s) (args s) (env_vars s)
    (enabled s) (auto_connect s) (category s)
    (session s) v (status s) (last_error s) (connected_at s).
Definition set_status v (s : MCPServer) : MCPServer :=
  mkServer (id s) (name s) (description s) (command s) (args s) (env_vars s)
    (enabled s) (auto_connect s) (category s)
    (session s) (available_tools s) v (last_error s) (connected_at s).
Definition set_last_error v (s : MCPServer) : MCPServer :=
  mkServer (id s) (name s) (description s) (command s) (args s) (env_vars s)
    (enabled s) (auto_connect s) (category s)
    (session s) (available_tools s) (status s) v (connected_at s).
Definition set_connected_at v (s : MCPServer) : MCPServer :=
  mkServer (id s) (name s) (description s) (command s) (args s) (env_vars s)
    (enabled s) (auto_connect s) (category s)
    (session s) (available_tools s) (status s) (last_error s) v.

Definition with_servers f (m : MCPClientManager) : MCPClientManager :=
  mkManager (f (servers m)) (active_connections m) (tool_call_history m)
    (event_callbacks m).
Definition with_active_connections f (m : MCPClientManager) : MCPClientManager :=
  mkManager (servers m) (f (active_connections m)) (tool_call_history m)
    (event_callbacks m).
Definition with_tool_call_history f (m : MCPClientManager) : MCPClientManager :=
  mkManager (servers m) (active_connections m) (f (tool_call_history m))
    (event_callbacks m).
Definition with_event_callbacks f (m : MCPClientManager) : MCPClientManager :=
  mkManager (servers m) (active_connections m) (tool_call_history m)
    (f (event_callbacks m)).

Definition with_manager f (w : World) : World :=
  mkWorld (f (manager w)) (agent w) (disk w) (ticks w) (trace w).
Definition with_agent f (w : World) : World :=
  mkWorld (manager w) (f (agent w)) (disk w) (ticks w) (trace w).
Definition with_disk v (w : World) : World :=
  mkWorld (manager w) (agent w) v (ticks w) (trace w).
Definition with_trace f (w : World) : World :=
  mkWorld (manager w) (agent w) (disk w) (ticks w) (f (trace w)).
Definition tick (w : World) : World :=
  mkWorld (manager w) (agent w) (disk w) (S (ticks w)) (trace w).

(** ** Computations: state that survives an exception *)

Definition M (A : Type) : Type := World -> res A * World.

Definition ret {A} (a : A) : M A := fun w => (Ok a, w).

Definition bind {A B} (c : M A) (k : A -> M B) : M B :=
  fun w =>
    match c w with
    | (Ok a, w') => k a w'
    | (Raise e, w') => (Raise e, w')
    end.

Definition raise {A} (e : exn) : M A := fun w => (Raise e, w).

(** [try: body / except Exception as e: handler e] *)
Definition try_except {A} (body : M A) (handler : exn -> M A) : M A :=
  fun w =>
    match body w with
    | (Ok a, w') => (Ok a, w')
    | (Raise e, w') => handler e w'
    end.

Definition get : M World := fun w => (Ok w, w).
Definition modify (f : World -> World) : M unit := fun w => (Ok tt, f w).
Definition emit (e : effect) : M unit :=
  modify (with_trace (fun t => (t ++ [e])%list)).
Definition observe : M nat := fun w => (Ok (ticks w), tick w).

(** An awaited step under [asyncio.wait_for]. *)
Definition await {A} (o : outcome A) : M A :=
  match o with
  | Done a => ret a
  | TimesOut => raise TimeoutError
  | Fails msg => raise (OtherError msg)
  end.
End DataModel.

Declare Scope py_scope.
Delimit Scope py_scope with py.
Notation "x <- c ;; k" := (bind c (fun x => k))
  (at level 61, c at next level, right associativity) : py_scope.
Notation "c ;; k" := (bind c (fun _ => k))
  (at level 61, right associativity) : py_scope.
Open Scope py_scope.

(** ** [utils/mcp_client.py]: class [MCPClientManager] *)

Module mcp_client.
Section Methods.
Context {PF : PyFloat} {RT : Runtime}.

Definition log (level msg : string) : M unit := emit (Log level msg).

(** [datetime.now()] *)
Definition now : M DateTime := n <- observe ;; ret (now_at n).

(** A call that is awaited without [wait_for]: it returns, or raises. *)
Definition run (r : option exn) : M unit :=
  match r with None => ret tt | Some e => raise e end.

Fixpoint for_each {A} (xs : list A) (body : A -> M unit) : M unit :=
  match xs with
  | [] => ret tt
  | x :: rest => body x ;; for_each rest body
  end.

(** An attribute assignment on the server object registered under
    [server_id]. *)
Definition update_server_object (server_id : string)
    (f : MCPServer -> MCPServer) : M unit :=
  modify (with_manager (with_servers (dict_update server_id f))).

(** [v.items()] / [v.get] need a dictionary. *)
Definition as_dict (v : pyval) : M (dict pyval) :=
  match v with
  | PDict d => ret d
  | _ => raise (OtherError "AttributeError")
  end.

(** [d[k]] *)
Definition subscript (k : string) (d : dict pyval) : M pyval :=
  match dict_get k d with
  | Some v => ret v
  | None => raise (KeyError k)
  end.

(** *** Events *)

Definition on_event (event_type : string) (cb : callback) : M unit :=
  modify (with_manager (with_event_callbacks (fun d =>
    let d' := if dict_mem event_type d then d else dict_set event_type [] d in
    match dict_get event_type d' with
    | Some l => dict_set event_type (l ++ [cb])%list d'
    | None => d'
    end))).

(** [callback(data)] *)
Definition invoke (cb : callback) (data : pyval) : M unit :=
  emit (HandlerCalled (cb_name cb) data) ;;
  fun w => (cb_run cb data, w).

Definition _trigger_event (event_type : string) (data : pyval) : M unit :=
  w <- get ;;
  match dict_get event_type (event_callbacks (manager w)) with
  | None => ret tt
  | Some cbs =>
      for_each cbs (fun cb =>
        try_except (invoke cb data)
          (fun e => log "ERROR" ("Event callback error: " ++ exn_str e)))
  end.

(** *** Configuration file *)

Definition server_from_config (server_id : string) (sc : dict pyval) : MCPServer :=
  mkServer server_id
    (get_default "name" (PStr "Unknown Server") sc)
    (get_default "description" (PStr "") sc)
    (get_default "command" (PList []) sc)
    (get_default "args" (PList []) sc)
    (get_default "env_vars" (PDict []) sc)
    (get_default "enabled" (PBool true) sc)
    (get_default "auto_connect" (PBool false) sc)
    (get_default "category" (PStr "General") sc)
    None [] "disconnected" None None.

Definition load_config : M unit :=
  w <- get ;;
  match disk w with
  | None => ret tt
  | Some config =>
      cfg <- as_dict config ;;
      active <- as_dict (get_default "active_servers" (PDict []) cfg) ;;
      for_each active (fun entry =>
        server_config <- as_dict (snd entry) ;;
        modify (with_manager (with_servers
          (dict_set (fst entry) (server_from_config (fst entry) server_config)))))
  end.

(** The dictionary written for one server. *)
Definition config_entry (server : MCPServer) (added_at : DateTime) : pyval :=
  PDict [("name", name server);
         ("description", description server);
         ("command", command server);
         ("args", args server);
         ("env_vars", env_vars server);
         ("enabled", enabled server);
         ("auto_connect", auto_connect server);
         ("category", category server);
         ("added_at", PStr (isoformat added_at))].

Definition settings (updated_at : DateTime) : pyval :=
  PDict [("auto_reconnect", PBool true);
         ("connection_timeout", PFloat (float_lit 30));
         ("tool_timeout", PFloat (float_lit 60));
         ("session_init_timeout", PFloat (float_lit 15));
         ("list_tools_timeout", PFloat (float_lit 10));
         ("max_concurrent_tools", PInt 5);
         ("log_tool_calls", PBool true);
         ("updated_at", PStr (isoformat updated_at))].

(** The loop of [save_config] over [self.servers.items()]. *)
Fixpoint save_entries (items : dict MCPServer) (acc : dict pyval) : M (dict pyval) :=
  match items with
  | [] => ret acc
  | (server_id, server) :: rest =>
      t <- now ;;
      save_entries rest (dict_set server_id (config_entry server t) acc)
  end.

(** [json.dump] followed by a later [json.load] is taken to give back the
    value that was written; failures of the file system are not modelled. *)
Definition save_config : M unit :=
  t <- now ;;
  w <- get ;;
  active <- save_entries (servers (manager w)) [] ;;
  modify (with_disk (Some (PDict [("active_servers", PDict active);
                                  ("settings", settings t)]))).
(** *** Connecting *)

(** One tool as listed by the session. *)
Record tool_info : Type := mkTool {
  tool_name : pyval;
  tool_description : pyval;
  tool_inputSchema : pyval
}.

(** What the outside does during one [connect_server] call, stage by
    stage; a stage is consulted only if the call gets that far. *)
Record connect_run : Type := mkConnectRun {
  sdk_import : bool;                      (* [from mcp import ...] succeeds *)
  prepare : option exn;                   (* building [env] and [StdioServerParameters] *)
  transport : outcome unit;               (* entering [stdio_client], under [timeout] *)
  client_session : outcome unit;          (* entering [ClientSession], under 10 s *)
  initialize : outcome unit;              (* [session.initialize()], under 15 s *)
  list_tools : outcome (list tool_info);  (* [session.list_tools()], under 10 s *)
  cleanup_aclose : option exn             (* [aclose()] inside a handler *)
}.

Definition tool_dict (t : tool_info) : pyval :=
  PDict [("name", tool_name t);
         ("description", tool_description t);
         ("inputSchema", tool_inputSchema t)].

(** The clean-up block shared by both handlers of [connect_server]. *)
Definition cleanup (server_id : string) (aclose : option exn) : M unit :=
  w <- get ;;
  match dict_get server_id (active_connections (manager w)) with
  | None => ret tt
  | Some stack =>
      try_except
        (emit (StackClose stack) ;;
         run aclose ;;
         modify (with_manager (with_active_connections (dict_del server_id))))
        (fun _ => ret tt)
  end.

Definition connect_server (server_id : string) (timeout : Float)
    (r : connect_run) : M bool :=
  w <- get ;;
  match dict_get server_id (servers (manager w)) with
  | None =>
      log "ERROR" ("Server " ++ server_id ++ " not found") ;;
      ret false
  | Some server =>
      try_except
        (if negb (sdk_import r) then
           log "ERROR" "MCP SDK not installed. Please install with: pip install mcp" ;;
           update_server_object server_id (set_status "error") ;;
           update_server_object server_id
             (set_last_error (Some "MCP SDK not installed")) ;;
           ret false
         else
           run (prepare r) ;;
           exit_stack <- observe ;;
           modify (with_manager (with_active_connections
             (dict_set server_id exit_stack))) ;;
           emit (TransportLaunch exit_stack server_id) ;;
           await (transport r) ;;
           emit (SessionOpen exit_stack) ;;
           await (client_session r) ;;
           emit (SessionInitialize exit_stack) ;;
           await (initialize r) ;;
           update_server_object server_id (set_session (Some exit_stack)) ;;
           update_server_object server_id (set_status "connected") ;;
           t <- now ;;
           update_server_object server_id (set_connected_at (Some t)) ;;
           emit (ListTools exit_stack) ;;
           tools <- await (list_tools r) ;;
           update_server_object server_id
             (set_available_tools (map tool_dict tools)) ;;
           log "INFO" ("Connected to MCP server: " ++ py_str (name server)
                       ++ " with " ++ str_nat (length tools) ++ " tools") ;;
           _trigger_event "server_connected"
             (PDict [("server_id", PStr server_id);
                     ("tools", PList (map tool_dict tools))]) ;;
           ret true)
        (fun e =>
           match e with
           | TimeoutError =>
               log "ERROR" ("Timeout connecting to server " ++ py_str (name server)
                            ++ " after " ++ float_str timeout ++ " seconds") ;;
               update_server_object server_id (set_status "error") ;;
               update_server_object server_id
                 (set_last_error (Some ("Connection timeout after "
                                        ++ float_str timeout ++ " seconds"))) ;;
               cleanup server_id (cleanup_aclose r) ;;
               _trigger_event "server_error"
                 (PDict [("server_id", PStr server_id);
                         ("error", PStr ("Connection timeout after "
                                         ++ float_str timeout ++ " seconds"))]) ;;
               ret false
           | _ =>
               log "ERROR" ("Failed to connect to server " ++ py_str (name server)
                            ++ ": " ++ exn_str e) ;;
               update_server_object server_id (set_status "error") ;;
               update_server_object server_id (set_last_error (Some (exn_str e))) ;;
               cleanup server_id (cleanup_aclose r) ;;
               _trigger_event "server_error"
                 (PDict [("server_id", PStr server_id);
                         ("error", PStr (exn_str e))]) ;;
               ret false
           end)
  end.

(** *** Disconnecting *)

Definition disconnect_server (server_id : string) (aclose : option exn) : M unit :=
  w <- get ;;
  match dict_get server_id (active_connections (manager w)) with
  | None => ret tt
  | Some exit_stack =>
      try_except
        (emit (StackClose exit_stack) ;;
         run aclose ;;
         modify (with_manager (with_active_connections (dict_del server_id))) ;;
         update_server_object server_id (set_status "disconnected") ;;
         update_server_object server_id (set_session None) ;;
         update_server_object server_id (set_connected_at None) ;;
         update_server_object server_id (set_available_tools []) ;;
         log "INFO" ("Disconnected from server: " ++ server_id) ;;
         _trigger_event "server_disconnected"
           (PDict [("server_id", PStr server_id)]))
        (fun e =>
           log "ERROR" ("Error disconnecting from server " ++ server_id
                        ++ ": " ++ exn_str e))
  end.

(** *** Calling a tool *)

Fixpoint list_store {A} (i : nat) (x : A) (l : list A) : list A :=
  match l, i with
  | [], _ => []
  | _ :: r, O => x :: r
  | y :: r, S j => y :: list_store j x r
  end.

(** The call record is one dictionary shared by the history and the local
    variable: an item assignment on it is written through to the history
    entry at the position where it was appended. *)
Definition store_call_record (position : nat) (call_record : dict pyval) : M unit :=
  modify (with_manager (with_tool_call_history
    (list_store position (PDict call_record)))).

Definition call_tool (server_id tool : string) (arguments : pyval)
    (timeout : Float) (remote : outcome pyval) : M pyval :=
  w <- get ;;
  match dict_get server_id (servers (manager w)) with
  | None => ret (PDict [("error", PStr ("Server " ++ server_id ++ " not found"))])
  | Some server =>
      match (if String.eqb (status server) "connected" then session server else None) with
      | None =>
          ret (PDict [("error", PStr ("Server " ++ py_str (name server)
                                      ++ " is not connected"))])
      | Some sess =>
          t <- now ;;
          let call_record :=
            [("server_id", PStr server_id);
             ("server_name", name server);
             ("tool_name", PStr tool);
             ("arguments", arguments);
             ("timestamp", PStr (isoformat t));
             ("status", PStr "executing")] in
          let position := length (tool_call_history (manager w)) in
          modify (with_manager (with_tool_call_history
            (fun h => (h ++ [PDict call_record])%list))) ;;
          _trigger_event "tool_call_start" (PDict call_record) ;;
          try_except
            (emit (RemoteCall sess tool arguments) ;;
             result <- await remote ;;
             t' <- now ;;
             let duration :=
               PFloat (total_seconds t' (fromisoformat (isoformat t))) in
             let call_record :=
               dict_set "duration" duration
                 (dict_set "result" result
                    (dict_set "status" (PStr "completed") call_record)) in
             store_call_record position call_record ;;
             _trigger_event "tool_call_complete" (PDict call_record) ;;
             ret (PDict [("success", PBool true);
                         ("result", result);
                         ("duration", duration)]))
            (fun e =>
               match e with
               | TimeoutError =>
                   log "ERROR" ("Tool execution timed out after "
                                ++ float_str timeout ++ " seconds: " ++ tool) ;;
                   let call_record :=
                     dict_set "duration" (PFloat timeout)
                       (dict_set "error"
                          (PStr ("Tool execution timed out after "
                                 ++ float_str timeout ++ " seconds"))
                          (dict_set "status" (PStr "failed") call_record)) in
                   store_call_record position call_record ;;
                   _trigger_event "tool_call_error" (PDict call_record) ;;
                   ret (PDict [("success", PBool false);
                               ("error", PStr ("Tool execution timed out after "
                                               ++ float_str timeout ++ " seconds"))])
               | _ =>
                   log "ERROR" ("Tool execution failed: " ++ exn_str e) ;;
                   t' <- now ;;
                   let call_record :=
                     dict_set "duration"
                       (PFloat (total_seconds t' (fromisoformat (isoformat t))))
                       (dict_set "error" (PStr (exn_str e))
                          (dict_set "status" (PStr "failed") call_record)) in
                   store_call_record position call_record ;;
                   _trigger_event "tool_call_error" (PDict call_record) ;;
                   ret (PDict [("success", PBool false);
                               ("error", PStr (exn_str e))])
               end)
      end
  end.
(** *** Registry operations *)

Definition add_server (server_config : dict pyval) : M string :=
  n <- observe ;;
  let server_id := uuid4_at n in
  name' <- subscript "name" server_config ;;
  command' <- subscript "command" server_config ;;
  let server :=
    mkServer server_id
      name'
      (get_default "description" (PStr "") server_config)
      command'
      (get_default "args" (PList []) server_config)
      (get_default "env_vars" (PDict []) server_config)
      (get_default "enabled" (PBool true) server_config)
      (get_default "auto_connect" (PBool false) server_config)
      (get_default "category" (PStr "General") server_config)
      None [] "disconnected" None None in
  modify (with_manager (with_servers (dict_set server_id server))) ;;
  save_config ;;
  ret server_id.

Definition update_fields (server_config : dict pyval) (s : MCPServer) : MCPServer :=
  mkServer (id s)
    (get_default "name" (name s) server_config)
    (get_default "description" (description s) server_config)
    (get_default "command" (command s) server_config)
    (get_default "args" (args s) server_config)
    (get_default "env_vars" (env_vars s) server_config)
    (get_default "enabled" (enabled s) server_config)
    (get_default "auto_connect" (auto_connect s) server_config)
    (get_default "category" (category s) server_config)
    (session s) (available_tools s) (status s) (last_error s) (connected_at s).

Definition update_server (server_id : string) (server_config : dict pyval) : M bool :=
  w <- get ;;
  if negb (dict_mem server_id (servers (manager w))) then ret false
  else
    update_server_object server_id (update_fields server_config) ;;
    save_config ;;
    ret true.

Definition option_val {A} (f : A -> pyval) (o : option A) : pyval :=
  match o with Some a => f a | None => PNone end.

Definition server_status_dict (server : MCPServer) : dict pyval :=
  [("id", PStr (id server));
   ("name", name server);
   ("description", description server);
   ("status", PStr (status server));
   ("category", category server);
   ("env_vars", env_vars server);
   ("connected_at", option_val (fun t => PStr (isoformat t)) (connected_at server));
   ("available_tools", PList (available_tools server));
   ("last_error", option_val PStr (last_error server))].

Definition get_server_status (m : MCPClientManager) (server_id : string) : dict pyval :=
  match dict_get server_id (servers m) with
  | None => [("error", PStr "Server not found")]
  | Some server => server_status_dict server
  end.

Definition get_all_servers (m : MCPClientManager) : list (dict pyval) :=
  map (get_server_status m) (dict_keys (servers m)).
(** *** Further methods of the manager *)

(** [tool[k]] on a tool descriptor. *)
Definition item (k : string) (v : pyval) : M pyval :=
  match v with
  | PDict d => subscript k d
  | _ => raise (OtherError "TypeError")
  end.

(** The dictionary [get_all_tools] builds for one tool of one server. *)
Definition tool_listing (server : MCPServer) (tool : pyval) : M pyval :=
  tool_name' <- item "name" tool ;;
  description' <- item "description" tool ;;
  d <- as_dict tool ;;
  ret (PDict [("server_id", PStr (id server));
              ("server_name", name server);
              ("tool_name", tool_name');
              ("description", description');
              ("inputSchema", get_default "inputSchema" (PDict []) d)]).

(** The inner loop of [get_all_tools], over the tools of one server. *)
Fixpoint append_tools (server : MCPServer) (server_tools tools : list pyval)
    : M (list pyval) :=
  match server_tools with
  | [] => ret tools
  | tool :: rest =>
      entry <- tool_listing server tool ;;
      append_tools server rest (tools ++ [entry])%list
  end.

(** The outer loop of [get_all_tools], over [self.servers.values()]. *)
Fixpoint collect_tools (values : list MCPServer) (tools : list pyval)
    : M (list pyval) :=
  match values with
  | [] => ret tools
  | server :: rest =>
      if String.eqb (status server) "connected" then
        tools' <- append_tools server (available_tools server) tools ;;
        collect_tools rest tools'
      else collect_tools rest tools
  end.

Definition get_all_tools : M (list pyval) :=
  w <- get ;;
  collect_tools (dict_values (servers (manager w))) [].

(** [remove_server].  [create_task] is what handing the disconnect
    coroutine to the event loop does (it raises when no loop is running);
    the result tells whether a disconnect was scheduled. *)
Definition remove_server (server_id : string) (create_task : option exn) : M bool :=
  w <- get ;;
  if dict_mem server_id (servers (manager w)) then
    scheduled <-
      (if dict_mem server_id (active_connections (manager w)) then
         run create_task ;; ret true
       else ret false) ;;
    modify (with_manager (with_servers (dict_del server_id))) ;;
    save_config ;;
    ret scheduled
  else ret false.

(** The method [cleanup] of the manager: every active connection is
    disconnected in turn, over a snapshot of the keys.  [aclose] tells what
    closing the exit stack of each id does. *)
Definition cleanup_connections (aclose : string -> option exn) : M unit :=
  w <- get ;;
  for_each (dict_keys (active_connections (manager w)))
    (fun server_id => disconnect_server server_id (aclose server_id)).
End Methods.
End mcp_client.

(** ** [utils/strands_mcp_agent.py] *)

Module strands_mcp_agent.
Section Methods.
Context {PF : PyFloat} {RT : Runtime}.

Import mcp_client.

(** *** [FilteredMCPClient] *)

(** One turn of the filtering loop. *)
Definition filter_item (filtered : dict pyval) (kv : string * pyval) : dict pyval :=
  if is_None (snd kv) then filtered
  else if String.eqb (fst kv) "offset" && eq_zero (snd kv) then filtered
  else dict_set (fst kv) (snd kv) filtered.

Definition filter_items (items : dict pyval) : dict pyval :=
  fold_left filter_item items [].

(** [super_call] stands for the parent class method. *)
Definition call_tool_sync {R} (super_call : string -> dict pyval -> M R)
    (tool : string) (kwargs : dict pyval) : M R :=
  let filtered_kwargs := filter_items kwargs in
  log "INFO" ("Filtering MCP sync call: " ++ tool) ;;
  log "INFO" ("  Original: " ++ py_str (PList (map PStr (dict_keys kwargs)))) ;;
  log "INFO" ("  Filtered: " ++ py_str (PDict filtered_kwargs)) ;;
  super_call tool filtered_kwargs.

Definition call_tool_async {R}
    (super_call : string -> string -> pyval -> dict pyval -> M R)
    (tool_use_id tool : string) (arguments : pyval) (kwargs : dict pyval) : M R :=
  filtered_arguments <-
    (if truthy arguments then
       items <- as_dict arguments ;;
       let filtered_arguments := filter_items items in
       log "INFO" ("Filtering MCP async call: " ++ tool) ;;
       log "INFO" ("  Original args: " ++ py_str (PList (map PStr (dict_keys items)))) ;;
       log "INFO" ("  Filtered args: " ++ py_str (PDict filtered_arguments)) ;;
       ret (PDict filtered_arguments)
     else ret arguments) ;;
  super_call tool_use_id tool filtered_arguments kwargs.

(** *** [StrandsMCPAgent] *)

Definition load_mcp_server_configs : M unit :=
  w <- get ;;
  match disk w with
  | None =>
      log "WARNING" "MCP config file not found: data/mcp_servers.json"
  | Some config =>
      try_except
        (cfg <- as_dict config ;;
         servers' <- as_dict (get_default "active_servers" (PDict []) cfg) ;;
         log "INFO" ("Loaded " ++ str_nat (length servers')
                     ++ " MCP server configurations") ;;
         for_each servers' (fun entry =>
           server_config <- as_dict (snd entry) ;;
           if truthy (get_default "enabled" (PBool true) server_config) then
             modify (with_agent (fun a =>
               mkAgent (dict_set (fst entry) (snd entry) (mcp_servers a))
                 (mcp_clients a) (connected_servers a))) ;;
             log "INFO" ("Loaded config for: "
                         ++ py_str (get_default "name" (PStr (fst entry)) server_config))
           else ret tt))
        (fun e => log "ERROR" ("Failed to load MCP server configs: " ++ exn_str e))
  end.

(** What the outside does during one agent-side connect. *)
Record client_run : Type := mkClientRun {
  prepare_env : option exn;      (* [env.update(env_vars)] *)
  client_start : option exn;     (* entering [with mcp_client] *)
  tools_listed : res nat         (* [len(tools) if tools else 0], or an exception *)
}.

Definition set_connected_server (server_id : string) (info : pyval) : M unit :=
  modify (with_agent (fun a =>
    mkAgent (mcp_servers a) (mcp_clients a)
      (dict_set server_id info (connected_servers a)))).

Definition connect_server (server_id : string) (r : client_run) : M bool :=
  w <- get ;;
  match dict_get server_id (mcp_servers (agent w)) with
  | None =>
      log "ERROR" ("Server " ++ server_id ++ " not found in configuration") ;;
      ret false
  | Some server_config =>
      if dict_mem server_id (mcp_clients (agent w)) then
        log "INFO" ("Server " ++ server_id ++ " already connected") ;;
        ret true
      else
        try_except
          (cfg <- as_dict server_config ;;
           if negb (truthy (get_default "command" (PList []) cfg)) then
             log "ERROR" ("No command specified for server " ++ server_id) ;;
             ret false
           else
             run (prepare_env r) ;;
             mcp_client <- observe ;;
             emit (ClientStarted mcp_client server_id) ;;
             run (client_start r) ;;
             tool_count <-
               try_except (fun w => (tools_listed r, w))
                 (fun e => emit (ClientStopped mcp_client) ;; raise e) ;;
             emit (ClientStopped mcp_client) ;;
             modify (with_agent (fun a =>
               mkAgent (mcp_servers a)
                 (dict_set server_id mcp_client (mcp_clients a))
                 (connected_servers a))) ;;
             set_connected_server server_id
               (PDict [("name", get_default "name" (PStr ("Server " ++ server_id)) cfg);
                       ("description", get_default "description" (PStr "") cfg);
                       ("status", PStr "connected");
                       ("tools_count", PInt (Z.of_nat tool_count))]) ;;
             log "INFO" ("Connected to "
                         ++ py_str (get_default "name" (PStr server_id) cfg) ++ ": "
                         ++ str_nat tool_count ++ " tools available") ;;
             ret true)
          (fun e =>
             log "ERROR" ("Failed to connect to " ++ server_id ++ ": " ++ exn_str e) ;;
             cfg <- as_dict server_config ;;
             set_connected_server server_id
               (PDict [("name", get_default "name" (PStr ("Server " ++ server_id)) cfg);
                       ("status", PStr "error");
                       ("error", PStr (exn_str e))]) ;;
             ret false)
  end.
(** *** Further methods of the agent *)

Definition disconnect_server (server_id : string) : M bool :=
  w <- get ;;
  if dict_mem server_id (mcp_clients (agent w)) then
    try_except
      (modify (with_agent (fun a =>
         mkAgent (mcp_servers a) (dict_del server_id (mcp_clients a))
           (connected_servers a))) ;;
       w' <- get ;;
       (if dict_mem server_id (connected_servers (agent w')) then
          modify (with_agent (fun a =>
            mkAgent (mcp_servers a) (mcp_clients a)
              (dict_del server_id (connected_servers a))))
        else ret tt) ;;
       log "INFO" ("Disconnected from server " ++ server_id) ;;
       ret true)
      (fun e =>
         log "ERROR" ("Error disconnecting from " ++ server_id ++ ": " ++ exn_str e) ;;
         ret false)
  else ret true.

(** [get_server_status].  The status of all servers, returned when no
    server id (or an empty one) is given, is not part of this model and is
    passed in as [all_servers]. *)
Definition get_server_status (all_servers : M pyval) (server_id : option string)
    : M pyval :=
  match server_id with
  | None => all_servers
  | Some sid =>
      if String.eqb sid "" then all_servers
      else
        w <- get ;;
        match dict_get sid (connected_servers (agent w)) with
        | Some info => ret info
        | None =>
            match dict_get sid (mcp_servers (agent w)) with
            | Some config =>
                cfg <- as_dict config ;;
                ret (PDict [("name", get_default "name" (PStr sid) cfg);
                            ("status", PStr "disconnected")])
            | None => ret (PDict [("error", PStr "Server not found")])
            end
        end
  end.

(** *** The conversation history of [chat] *)

(** The attributes of the agent that [chat] reads and writes, with the
    clock observations and the log lines of the call. *)
Record ChatState : Type := mkChat {
  conversation_history : list pyval;
  chat_ticks : nat;
  chat_log : list string
}.

(** The separator of the prompt: two newlines. *)
Definition blank_line : string :=
  String (Ascii.ascii_of_nat 10) (String (Ascii.ascii_of_nat 10) "").

(** [history[-10:] if len(history) > 10 else history] *)
Definition recent_history (h : list pyval) : list pyval :=
  if Nat.ltb 10 (length h) then skipn (length h - 10) h else h.

(** The prompt line of one history item. *)
Definition history_line (entry : pyval) : res string :=
  match entry with
  | PDict d =>
      match dict_get "role" d with
      | None => Raise (KeyError "role")
      | Some role =>
          match dict_get "content" d with
          | None => Raise (KeyError "content")
          | Some content =>
              Ok ((match role with
                   | PStr r => if String.eqb r "user" then "User: " else "Assistant: "
                   | _ => "Assistant: "
                   end) ++ py_str content)
          end
      end
  | _ => Raise (OtherError "TypeError")
  end.

Fixpoint history_lines (entries : list pyval) : res (list string) :=
  match entries with
  | [] => Ok []
  | entry :: rest =>
      match history_line entry with
      | Raise e => Raise e
      | Ok line =>
          match history_lines rest with
          | Raise e => Raise e
          | Ok lines => Ok (line :: lines)
          end
      end
  end.

Definition history_entry (role content : string) (t : DateTime) : pyval :=
  PDict [("role", PStr role);
         ("content", PStr content);
         ("timestamp", PStr (isoformat t))].

(** [history[-40:]] once the history has more than 50 entries. *)
Definition trim_history (h : list pyval) : list pyval :=
  if Nat.ltb 50 (length h) then skipn (length h - 40) h else h.

(** [chat].  [agent_call] stands for building the agent (with or without
    tools) and running it on the prompt: it returns the response, [None]
    for an empty one, or raises.  [tool_guidance] is the fixed guidance
    text.  The model parameters set on the Bedrock model are not tracked. *)
Definition chat (agent_call : string -> res (option string))
    (tool_guidance message : string) (system_prompt : option string)
    (st : ChatState) : pyval * ChatState :=
  let n := chat_ticks st in
  let failure (e : exn) :=
    (PDict [("success", PBool false);
            ("error", PStr (exn_str e));
            ("timestamp", PStr (isoformat (now_at n)))],
     mkChat (conversation_history st) (S n)
       (chat_log st ++ [("Chat error: " ++ exn_str e)%string])%list) in
  let system :=
    match system_prompt with
    | Some p =>
        if String.eqb p "" then "System: " ++ tool_guidance
        else "System: " ++ p ++ blank_line ++ tool_guidance
    | None => "System: " ++ tool_guidance
    end in
  match history_lines (recent_history (conversation_history st)) with
  | Raise e => failure e
  | Ok lines =>
      let full_conversation :=
        String.concat blank_line
          (system :: lines ++ [("User: " ++ message)%string])%list in
      match agent_call full_conversation with
      | Raise e => failure e
      | Ok response =>
          let response_text :=
            match response with
            | Some text => text
            | None => "No response generated"
            end in
          let h :=
            (conversation_history st
             ++ [history_entry "user" message (now_at n);
                 history_entry "assistant" response_text (now_at (S n))])%list in
          (PDict [("success", PBool true);
                  ("content", PStr response_text);
                  ("timestamp", PStr (isoformat (now_at (S (S n)))))],
           mkChat (trim_history h) (S (S (S n))) (chat_log st))
      end
  end.

Definition clear_history (st : ChatState) : ChatState :=
  mkChat [] (chat_ticks st)
    (chat_log st ++ ["Conversation history cleared"])%list.

(** [sum(1 for msg in history if msg['role'] == role)] of
    [get_conversation_stats]. *)
Fixpoint count_role (role : string) (h : list pyval) : res nat :=
  match h with
  | [] => Ok 0
  | PDict d :: rest =>
      match dict_get "role" d with
      | None => Raise (KeyError "role")
      | Some r =>
          match count_role role rest with
          | Raise e => Raise e
          | Ok n =>
              Ok (match r with
                  | PStr r' => if String.eqb r' role then S n else n
                  | _ => n
                  end)
          end
      end
  | _ :: _ => Raise (OtherError "TypeError")
  end.
End Methods.
End strands_mcp_agent.

(** ** [api/mcp_routes.py]: the add-server endpoint *)

Module mcp_routes.
Section Routes.
Context {PF : PyFloat} {RT : Runtime}.

Import mcp_client.

(** The loop over [required_fields]: the first field that is missing. *)
Fixpoint first_missing (required_fields : list string) (data : dict pyval)
    : option string :=
  match required_fields with
  | [] => None
  | field :: rest =>
      if negb (dict_mem field data) then Some field else first_missing rest data
  end.

(** The view function returns the JSON body and the HTTP status. *)
Definition add_server (data : dict pyval) : M (pyval * nat) :=
  try_except
    (match first_missing ["name"; "command"] data with
     | Some field =>
         ret (PDict [("success", PBool false);
                     ("error", PStr ("Missing required field: " ++ field))], 400)
     | None =>
         server_id <- mcp_client.add_server data ;;
         strands_mcp_agent.load_mcp_server_configs ;;
         name' <- subscript "name" data ;;
         ret (PDict [("success", PBool true);
                     ("server_id", PStr server_id);
                     ("message", PStr ("Server '" ++ py_str name'
                                       ++ "' added successfully"))], 200)
     end)
    (fun e =>
       log "ERROR" ("Error adding server: " ++ exn_str e) ;;
       ret (PDict [("success", PBool false); ("error", PStr (exn_str e))], 500)).
(** [PUT /servers/<server_id>] *)
Definition update_server (server_id : string) (data : dict pyval) : M (pyval * nat) :=
  try_except
    (match first_missing ["name"; "command"] data with
     | Some field =>
         ret (PDict [("success", PBool false);
                     ("error", PStr ("Missing required field: " ++ field))], 400)
     | None =>
         success <- mcp_client.update_server server_id data ;;
         if negb success then
           ret (PDict [("success", PBool false);
                       ("error", PStr "Server not found")], 404)
         else
           strands_mcp_agent.load_mcp_server_configs ;;
           name' <- subscript "name" data ;;
           ret (PDict [("success", PBool true);
                       ("message", PStr ("Server '" ++ py_str name'
                                         ++ "' updated successfully"))], 200)
     end)
    (fun e =>
       log "ERROR" ("Error updating server: " ++ exn_str e) ;;
       ret (PDict [("success", PBool false); ("error", PStr (exn_str e))], 500)).

(** [run_async_safely]: [asyncio.run] either cannot run the coroutine
    ([asyncio_run] is the exception it then raises, for instance inside a
    running event loop) or runs it; an exception of either is logged and
    raised again.  [timeout] is the printed limit. *)
Definition run_async_safely {A} (asyncio_run : option exn) (timeout : string)
    (coro : M A) : M A :=
  try_except (run asyncio_run ;; coro)
    (fun e =>
       match e with
       | TimeoutError =>
           log "ERROR" ("Async operation timed out after " ++ timeout ++ " seconds")
       | _ => log "ERROR" ("Async operation failed: " ++ exn_str e)
       end ;;
       raise e).

(** [DELETE /servers/<server_id>].  [create_task] is what scheduling the
    manager's disconnect does, as in [mcp_client.remove_server]. *)
Definition remove_server (asyncio_run create_task : option exn)
    (server_id : string) : M (pyval * nat) :=
  try_except
    (w <- get ;;
     (if dict_mem server_id (mcp_clients (agent w)) then
        run_async_safely asyncio_run "30.0"
          (strands_mcp_agent.disconnect_server server_id) ;;
        ret tt
      else ret tt) ;;
     mcp_client.remove_server server_id create_task ;;
     strands_mcp_agent.load_mcp_server_configs ;;
     ret (PDict [("success", PBool true);
                 ("message", PStr "Server removed successfully")], 200))
    (fun e =>
       log "ERROR" ("Error removing server: " ++ exn_str e) ;;
       ret (PDict [("success", PBool false); ("error", PStr (exn_str e))], 500)).

(** [GET /servers/<server_id>/status]; the path segment is never empty. *)
Definition get_server_status (all_servers : M pyval) (server_id : string)
    : M (pyval * nat) :=
  try_except
    (status' <- strands_mcp_agent.get_server_status all_servers (Some server_id) ;;
     match status' with
     | PDict d =>
         match dict_get "error" d with
         | Some err =>
             ret (PDict [("success", PBool false); ("error", err)], 404)
         | None =>
             ret (PDict [("success", PBool true); ("status", status')], 200)
         end
     | _ => raise (OtherError "TypeError")
     end)
    (fun e =>
       log "ERROR" ("Error getting server status: " ++ exn_str e) ;;
       ret (PDict [("success", PBool false); ("error", PStr (exn_str e))], 500)).

(** [GET /history]: the last 50 calls and the total. *)
Definition get_tool_history : M (pyval * nat) :=
  try_except
    (w <- get ;;
     let history := tool_call_history (manager w) in
     let recent_history :=
       if Nat.ltb 50 (length history) then skipn (length history - 50) history
       else history in
     ret (PDict [("success", PBool true);
                 ("history", PList recent_history);
                 ("total_calls", PInt (Z.of_nat (length history)))], 200))
    (fun e =>
       log "ERROR" ("Error getting tool history: " ++ exn_str e) ;;
       ret (PDict [("success", PBool false); ("error", PStr (exn_str e))], 500)).
End Routes.
End mcp_routes.

(** ** A sample runtime, for running the model on concrete inputs *)

Definition sample_float : PyFloat :=
  {| Float := Z;
     float_is_zero := Z.eqb 0;
     float_str := fun z => str_nat (Z.to_nat z) ++ ".0";
     float_lit := fun z => z |}.

Definition sample_runtime : @Runtime sample_float :=
  {| DateTime := nat;
     now_at := fun n => n;
     isoformat := str_nat;
     fromisoformat := fun s =>
       match NilEmpty.uint_of_string s with
       | Some u => Nat.of_uint u
       | None => 0
       end;
     total_seconds := fun later earlier =>
       ((Z.of_nat later - Z.of_nat earlier)%Z : @Float sample_float);
     uuid4_at := fun n => "uuid-" ++ str_nat n;
     value_str := fun _ => "<value>" |}.

Module Samples.
#[local] Existing Instance sample_float.
#[local] Existing Instance sample_runtime.
Import mcp_client.

Definition secs (z : Z) : @Float sample_float := z.

Definition ui_handler : callback :=
  mkCallback "ui" (fun _ => Ok tt).
Definition faulty_handler : callback :=
  mkCallback "faulty" (fun _ => Raise (OtherError "socket closed")).

Definition demo_server : MCPServer :=
  mkServer "s1" (PStr "demo") (PStr "") (PList [PStr "node"]) (PList [])
    (PDict []) (PBool true) (PBool false) (PStr "General")
    None [] "disconnected" None None.

(** One registered, disconnected server; the UI listens to disconnects. *)
Definition world0 : World :=
  mkWorld
    (mkManager [("s1", demo_server)] [] []
       [("server_disconnected", [ui_handler])])
    (mkAgent [] [] []) None 0 [].

Definition echo_tool : tool_info :=
  mkTool (PStr "echo") (PStr "repeats its input") (PDict []).

(** Every stage succeeds. *)
Definition run_ok : connect_run :=
  mkConnectRun true None (Done tt) (Done tt) (Done tt) (Done [echo_tool]) None.
(** The session initializes, then listing the tools times out. *)
Definition run_list_tools_timeout : connect_run :=
  mkConnectRun true None (Done tt) (Done tt) (Done tt) TimesOut None.
(** The subprocess does not come up in time. *)
Definition run_transport_timeout : connect_run :=
  mkConnectRun true None TimesOut (Done tt) (Done tt) (Done []) None.
(** The subprocess cannot be started. *)
Definition run_spawn_fails : connect_run :=
  mkConnectRun true None (Fails "spawn failed") (Done tt) (Done tt) (Done []) None.

(** [s1] connected with one tool. *)
Definition world_connected : World :=
  snd (connect_server "s1" (secs 30) run_ok world0).
(** [s1] in state [error] after a transport timeout. *)
Definition world_error : World :=
  snd (connect_server "s1" (secs 30) run_transport_timeout world0).

(** The registry entry of [s1] in [world_connected]. *)
Definition connected_server : MCPServer :=
  mkServer "s1" (PStr "demo") (PStr "") (PList [PStr "node"]) (PList [])
    (PDict []) (PBool true) (PBool false) (PStr "General")
    (Some 0) [tool_dict echo_tool] "connected" None (Some 1).

(** An empty registry. *)
Definition world_empty : World :=
  mkWorld (mkManager [] [] [] []) (mkAgent [] [] []) None 0 [].

(** A descriptor with all eight fields. *)
Definition full_descriptor : dict pyval :=
  [("name", PStr "files");
   ("description", PStr "file system access");
   ("command", PList [PStr "npx"]);
   ("args", PList [PStr "-y"; PStr "server-filesystem"]);
   ("env_vars", PDict [("ROOT", PStr "/tmp")]);
   ("enabled", PBool true);
   ("auto_connect", PBool true);
   ("category", PStr "Files")].

(** A configuration dictionary without a name. *)
Definition nameless_config : dict pyval :=
  [("command", PList [PStr "node"])].

Definition sample_arguments : dict pyval :=
  [("path", PStr "/tmp"); ("offset", PInt 0); ("limit", PNone);
   ("depth", PInt 0)].
End Samples.

(** * Vocabulary of the properties *)

Section Vocabulary.
Context {PF : PyFloat} {RT : Runtime}.
Import mcp_client.

Definition add_trace (es : list effect) (w : World) : World :=
  with_trace (fun t => (t ++ es)%list) w.

(** [post c w Q]: running [c] from [w] ends in a result and a world
    related by [Q]. *)
Definition post {A} (c : M A) (w : World) (Q : res A -> World -> Prop) : Prop :=
  Q (fst (c w)) (snd (c w)).

(** What delivering [data] to the handlers [cbs] leaves in the trace. *)
Fixpoint delivery (cbs : list callback) (data : pyval) : list effect :=
  match cbs with
  | [] => []
  | cb :: rest =>
      (HandlerCalled (cb_name cb) data ::
       match cb_run cb data with
       | Ok _ => []
       | Raise e => [Log "ERROR" ("Event callback error: " ++ exn_str e)]
       end ++ delivery rest data)%list
  end.

(** The handlers subscribed to an event type. *)
Definition registered (event_type : string) (w : World) : list callback :=
  match dict_get event_type (event_callbacks (manager w)) with
  | Some cbs => cbs
  | None => []
  end.

(** The handler invocations recorded in a trace, in order. *)
Fixpoint handler_calls (t : list effect) : list (string * pyval) :=
  match t with
  | [] => []
  | HandlerCalled h d :: rest => (h, d) :: handler_calls rest
  | _ :: rest => handler_calls rest
  end.

(** The registry entry of a server id, and single fields of it. *)
Definition server_of (server_id : string) (w : World) : option MCPServer :=
  dict_get server_id (servers (manager w)).

Definition last_error_of (server_id : string) (w : World) : option (option string) :=
  option_map last_error (server_of server_id w).

(** The timeout message of [call_tool]. *)
Definition tool_timeout_message (timeout : Float) : string :=
  "Tool execution timed out after " ++ float_str timeout ++ " seconds".

(** The invocation record as appended at call start, and as it stands
    after a timeout. *)
Definition executing_record (server_id : string) (server : MCPServer)
    (tool : string) (arguments : pyval) (started : DateTime) : dict pyval :=
  [("server_id", PStr server_id);
   ("server_name", name server);
   ("tool_name", PStr tool);
   ("arguments", arguments);
   ("timestamp", PStr (isoformat started));
   ("status", PStr "executing")].

Definition timed_out_record (server_id : string) (server : MCPServer)
    (tool : string) (arguments : pyval) (started : DateTime)
    (timeout : Float) : dict pyval :=
  [("server_id", PStr server_id);
   ("server_name", name server);
   ("tool_name", PStr tool);
   ("arguments", arguments);
   ("timestamp", PStr (isoformat started));
   ("status", PStr "failed");
   ("error", PStr (tool_timeout_message timeout));
   ("duration", PFloat timeout)].

(** The runtime fields as [disconnect_server] leaves them. *)
Definition disconnected_state (s : MCPServer) : MCPServer :=
  set_available_tools []
    (set_connected_at None (set_session None (set_status "disconnected" s))).

Definition server_disconnected_event (server_id : string) : pyval :=
  PDict [("server_id", PStr server_id)].

(** The arguments that [FilteredMCPClient] lets through: not [None], and
    not an [offset] equal to zero. *)
Definition kept (kv : string * pyval) : bool :=
  negb (is_None (snd kv))
  && negb (String.eqb (fst kv) "offset" && eq_zero (snd kv)).

(** The eight configuration fields of a registry entry. *)
Definition descriptor (s : MCPServer) : list pyval :=
  [name s; description s; command s; args s; env_vars s; enabled s;
   auto_connect s; category s].

(** The descriptor set of a registry: every id with its configuration. *)
Definition descriptors (d : dict MCPServer) : list (string * list pyval) :=
  map (fun kv => (fst kv, descriptor (snd kv))) d.

(** The entry [add_server] builds from a configuration dictionary. *)
Definition added_server (server_id : string) (server_config : dict pyval)
    (name' command' : pyval) : MCPServer :=
  mkServer server_id name'
    (get_default "description" (PStr "") server_config)
    command'
    (get_default "args" (PList []) server_config)
    (get_default "env_vars" (PDict []) server_config)
    (get_default "enabled" (PBool true) server_config)
    (get_default "auto_connect" (PBool false) server_config)
    (get_default "category" (PStr "General") server_config)
    None [] "disconnected" None None.

(** A new process: a manager with empty tables over the same disk. *)
Definition restart (w : World) : World :=
  mkWorld (mkManager [] [] [] []) (agent w) (disk w) (ticks w) (trace w).

(** The persisted entries of a registry whose first entry is stamped with
    the [n]-th clock reading. *)
Fixpoint stamped (items : dict MCPServer) (n : nat) : dict pyval :=
  match items with
  | [] => []
  | (k, s) :: rest => (k, mcp_client.config_entry s (now_at n)) :: stamped rest (S n)
  end.

(** What [load_config] reads back for an entry. *)
Definition reloaded (kv : string * MCPServer) : string * MCPServer :=
  (fst kv,
   mkServer (fst kv) (name (snd kv)) (description (snd kv)) (command (snd kv))
     (args (snd kv)) (env_vars (snd kv)) (enabled (snd kv))
     (auto_connect (snd kv)) (category (snd kv))
     None [] "disconnected" None None).

Definition advance (n : nat) (w : World) : World :=
  mkWorld (manager w) (agent w) (disk w) (n + ticks w) (trace w).

(** The invariant that the data model states for a registry entry. *)
Definition registry_invariant (s : MCPServer) : Prop :=
  (available_tools s <> [] -> status s = "connected")
  /\ (connected_at s <> None <-> status s = "connected").

(** The exception an awaited stage ends in, if any. *)
Definition stage_failure {A} (o : outcome A) : option exn :=
  match o with
  | Done _ => None
  | TimesOut => Some TimeoutError
  | Fails msg => Some (OtherError msg)
  end.

(** The first exception of a connect attempt whose SDK import succeeded. *)
Definition first_failure (r : mcp_client.connect_run) : option exn :=
  match mcp_client.prepare r with
  | Some e => Some e
  | None =>
  match stage_failure (mcp_client.transport r) with
  | Some e => Some e
  | None =>
  match stage_failure (mcp_client.client_session r) with
  | Some e => Some e
  | None =>
  match stage_failure (mcp_client.initialize r) with
  | Some e => Some e
  | None => stage_failure (mcp_client.list_tools r)
  end end end end.

(** The message a connect attempt fails with; [None] when it succeeds. *)
Definition connect_failure_message (timeout : Float)
    (r : mcp_client.connect_run) : option string :=
  if negb (mcp_client.sdk_import r) then Some "MCP SDK not installed"
  else
    match first_failure r with
    | None => None
    | Some TimeoutError =>
        Some ("Connection timeout after " ++ float_str timeout ++ " seconds")
    | Some e => Some (exn_str e)
    end.
End Vocabulary.

(** ** Further vocabulary *)

Section FurtherVocabulary.
Context {PF : PyFloat} {RT : Runtime}.

(** A property of every binding of the registry. *)
Definition every_entry (P : MCPServer -> Prop) (w : World) : Prop :=
  Forall (fun kv => P (snd kv)) (servers (manager w)).

(** What the runtime fields of an entry look like between operations. *)
Definition entry_consistent (s : MCPServer) : Prop :=
  (status s = "connected" /\ session s <> None /\ connected_at s <> None)
  \/ (status s = "disconnected" /\ session s = None /\ connected_at s = None
      /\ available_tools s = [])
  \/ status s = "error".

(** A tool descriptor that [get_all_tools] can read. *)
Definition well_formed_tool (tool : pyval) : Prop :=
  exists d n de,
    tool = PDict d /\ dict_get "name" d = Some n
    /\ dict_get "description" d = Some de.

Definition tools_well_formed (s : MCPServer) : Prop :=
  Forall well_formed_tool (available_tools s).

(** The entry of [get_all_tools] for a tool of a server. *)
Definition listed_tool (server : MCPServer) (tool : pyval) : pyval :=
  match tool with
  | PDict d =>
      PDict [("server_id", PStr (id server));
             ("server_name", name server);
             ("tool_name", get_default "name" PNone d);
             ("description", get_default "description" PNone d);
             ("inputSchema", get_default "inputSchema" (PDict []) d)]
  | _ => PNone
  end.

(** The tools that connected servers offer, in registry order. *)
Definition offered_tools (values : list MCPServer) : list pyval :=
  flat_map (fun server =>
    if String.eqb (status server) "connected"
    then map (listed_tool server) (available_tools server)
    else []) values.

(** How a connect attempt may leave the entry it works on. *)
Definition connect_effect (s s' : MCPServer) : Prop :=
  (status s' = "error" /\ available_tools s' = available_tools s)
  \/ (status s' = "connected" /\ session s' <> None /\ connected_at s' <> None
      /\ exists tools, available_tools s' = map mcp_client.tool_dict tools).

(** The first exception of an agent-side connect, if any. *)
Definition agent_failure (r : strands_mcp_agent.client_run) : option exn :=
  match strands_mcp_agent.prepare_env r with
  | Some e => Some e
  | None =>
      match strands_mcp_agent.client_start r with
      | Some e => Some e
      | None =>
          match strands_mcp_agent.tools_listed r with
          | Raise e => Some e
          | Ok _ => None
          end
      end
  end.

(** What the agent records for a server it has connected, and for one it
    failed to connect. *)
Definition connected_info (server_id : string) (cfg : dict pyval) (tool_count : nat)
    : pyval :=
  PDict [("name", get_default "name" (PStr ("Server " ++ server_id)) cfg);
         ("description", get_default "description" (PStr "") cfg);
         ("status", PStr "connected");
         ("tools_count", PInt (Z.of_nat tool_count))].

Definition error_info (server_id : string) (cfg : dict pyval) (e : exn) : pyval :=
  PDict [("name", get_default "name" (PStr ("Server " ++ server_id)) cfg);
         ("status", PStr "error");
         ("error", PStr (exn_str e))].

(** An entry of the configuration file that the agent takes over: a
    dictionary whose [enabled] is true or absent. *)
Definition enabled_config (v : pyval) : bool :=
  match v with
  | PDict cfg => truthy (get_default "enabled" (PBool true) cfg)
  | _ => false
  end.

Definition load_step (acc : dict pyval) (entry : string * pyval) : dict pyval :=
  if enabled_config (snd entry) then dict_set (fst entry) (snd entry) acc else acc.

(** Two worlds that differ at most in the agent's configurations and the
    trace, the later one knowing every id the earlier one knows. *)
Definition configs_extended (w w' : World) : Prop :=
  manager w' = manager w
  /\ disk w' = disk w
  /\ mcp_clients (agent w') = mcp_clients (agent w)
  /\ connected_servers (agent w') = connected_servers (agent w)
  /\ forall server_id,
       dict_get server_id (mcp_servers (agent w)) <> None ->
       dict_get server_id (mcp_servers (agent w')) <> None.

(** A conversation history made of whole exchanges: a user entry followed
    by the assistant's entry, and so on. *)
Inductive exchanges : list pyval -> Prop :=
| exchanges_nil : exchanges []
| exchanges_cons (message response : string) (t1 t2 : DateTime) (rest : list pyval) :
    exchanges rest ->
    exchanges (strands_mcp_agent.history_entry "user" message t1
               :: strands_mcp_agent.history_entry "assistant" response t2
               :: rest).

Definition chat_invariant (st : strands_mcp_agent.ChatState) : Prop :=
  exchanges (strands_mcp_agent.conversation_history st)
  /\ length (strands_mcp_agent.conversation_history st) <= 50.
End FurtherVocabulary.

(** ** Further sample inputs *)

Module MoreSamples.
#[local] Existing Instance sample_float.
#[local] Existing Instance sample_runtime.
Import Samples.

(** The configuration the agent has loaded for [s1]. *)
Definition agent_config : dict pyval :=
  [("name", PStr "demo"); ("command", PList [PStr "node"]);
   ("enabled", PBool true)].

(** [s1] registered with the manager and configured in the agent. *)
Definition world_agent : World :=
  mkWorld (mkManager [("s1", demo_server)] [] [] [])
    (mkAgent [("s1", PDict agent_config)] [] []) None 0 [].

(** The client starts and lists two tools. *)
Definition client_ok : strands_mcp_agent.client_run :=
  strands_mcp_agent.mkClientRun None None (Ok 2).

(** A new conversation, and an agent that always answers. *)
Definition chat_start : strands_mcp_agent.ChatState :=
  strands_mcp_agent.mkChat [] 0 [].

Definition greeting_agent (prompt : string) : res (option string) :=
  Ok (Some "hello").

(** A body for [PUT /servers/s1] that disables the server. *)
Definition disabling_update : dict pyval :=
  [("name", PStr "demo"); ("command", PList [PStr "node"]);
   ("enabled", PBool false)].
End MoreSamples.

(** * Properties *)

#[local] Arguments String.append : simpl never.
#[local] Arguments str_nat : simpl never.
#[local] Arguments add_trace : simpl never.
#[local] Arguments post : simpl never.

(** ** Dictionaries *)

Lemma dict_get_set_same {V} (k : string) (v : V) (d : dict V) :
  dict_get k (dict_set k v d) = Some v.
Proof.
  induction d as [|[k' v'] r IH]; simpl.
  - now rewrite String.eqb_refl.
  - destruct (String.eqb k k') eqn:E; simpl; now rewrite ?String.eqb_refl, ?E.
Qed.

Lemma dict_get_set_other {V} (k k' : string) (v : V) (d : dict V) :
  k <> k' -> dict_get k' (dict_set k v d) = dict_get k' d.
Proof.
  intros Hne. induction d as [|[k0 v0] r IH]; simpl.
  - destruct (String.eqb_spec k' k); [congruence|reflexivity].
  - destruct (String.eqb_spec k k0); simpl.
    + subst k0. destruct (String.eqb_spec k' k); [congruence|reflexivity].
    + destruct (String.eqb k' k0); [reflexivity|exact IH].
Qed.

Lemma dict_get_del_same {V} (k : string) (d : dict V) :
  dict_get k (dict_del k d) = None.
Proof.
  induction d as [|[k' v'] r IH]; simpl; [reflexivity|].
  destruct (String.eqb k k') eqn:E; simpl; now rewrite ?E.
Qed.

Lemma dict_get_del_other {V} (k k' : string) (d : dict V) :
  k <> k' -> dict_get k' (dict_del k d) = dict_get k' d.
Proof.
  intros Hne. induction d as [|[k0 v0] r IH]; simpl; [reflexivity|].
  destruct (String.eqb_spec k k0); simpl.
  - subst k0. destruct (String.eqb_spec k' k); [congruence|exact IH].
  - destruct (String.eqb k' k0); [reflexivity|exact IH].
Qed.

Lemma dict_del_absent {V} (k : string) (d : dict V) :
  dict_get k d = None -> dict_del k d = d.
Proof.
  induction d as [|[k' v'] r IH]; simpl; [reflexivity|].
  destruct (String.eqb k k'); [discriminate|].
  intros H. now rewrite IH.
Qed.

Lemma dict_get_update_same {V} (k : string) (f : V -> V) (d : dict V) :
  dict_get k (dict_update k f d) = option_map f (dict_get k d).
Proof.
  unfold dict_update. destruct (dict_get k d) eqn:E; simpl.
  - apply dict_get_set_same.
  - exact E.
Qed.

Lemma dict_get_update_other {V} (k k' : string) (f : V -> V) (d : dict V) :
  k <> k' -> dict_get k' (dict_update k f d) = dict_get k' d.
Proof.
  intros Hne. unfold dict_update. destruct (dict_get k d); [|reflexivity].
  now apply dict_get_set_other.
Qed.

(** ** Rules for running computations *)

Section Rules.
Context {PF : PyFloat} {RT : Runtime}.
Import mcp_client.

Lemma add_trace_nil (w : World) : add_trace [] w = w.
Proof. destruct w; unfold add_trace, with_trace; simpl. now rewrite app_nil_r. Qed.

Lemma add_trace_app (a b : list effect) (w : World) :
  add_trace b (add_trace a w) = add_trace (a ++ b) w.
Proof. unfold add_trace, with_trace; simpl. now rewrite app_assoc. Qed.

Lemma emit_run (e : effect) (w : World) : emit e w = (Ok tt, add_trace [e] w).
Proof. reflexivity. Qed.

Lemma post_ret {A} (a : A) w (Q : res A -> World -> Prop) :
  Q (Ok a) w -> post (ret a) w Q.
Proof. exact (fun H => H). Qed.

Lemma post_raise {A} (e : exn) w (Q : res A -> World -> Prop) :
  Q (Raise e) w -> post (raise e) w Q.
Proof. exact (fun H => H). Qed.

Lemma post_bind {A B} (c : M A) (k : A -> M B) w (Q : res B -> World -> Prop) :
  post c w (fun r w' =>
    match r with
    | Ok a => post (k a) w' Q
    | Raise e => Q (Raise e) w'
    end) ->
  post (bind c k) w Q.
Proof. unfold post, bind. destruct (c w) as [[a|e] w']; simpl; auto. Qed.

Lemma post_try {A} (body : M A) (handler : exn -> M A) w
    (Q : res A -> World -> Prop) :
  post body w (fun r w' =>
    match r with
    | Ok a => Q (Ok a) w'
    | Raise e => post (handler e) w' Q
    end) ->
  post (try_except body handler) w Q.
Proof. unfold post, try_except. destruct (body w) as [[a|e] w']; simpl; auto. Qed.

Lemma post_get w (Q : res World -> World -> Prop) :
  Q (Ok w) w -> post get w Q.
Proof. exact (fun H => H). Qed.

Lemma post_modify f w (Q : res unit -> World -> Prop) :
  Q (Ok tt) (f w) -> post (modify f) w Q.
Proof. exact (fun H => H). Qed.

Lemma post_emit e w (Q : res unit -> World -> Prop) :
  Q (Ok tt) (add_trace [e] w) -> post (emit e) w Q.
Proof. exact (fun H => H). Qed.

Lemma post_log level msg w (Q : res unit -> World -> Prop) :
  Q (Ok tt) (add_trace [Log level msg] w) -> post (log level msg) w Q.
Proof. exact (fun H => H). Qed.

Lemma post_observe w (Q : res nat -> World -> Prop) :
  Q (Ok (ticks w)) (tick w) -> post observe w Q.
Proof. exact (fun H => H). Qed.

Lemma post_now w (Q : res DateTime -> World -> Prop) :
  Q (Ok (now_at (ticks w))) (tick w) -> post now w Q.
Proof. exact (fun H => H). Qed.

Lemma post_run (r : option exn) w (Q : res unit -> World -> Prop) :
  match r with None => Q (Ok tt) w | Some e => Q (Raise e) w end ->
  post (run r) w Q.
Proof. destruct r; exact (fun H => H). Qed.

Lemma post_await {A} (o : outcome A) w (Q : res A -> World -> Prop) :
  match o with
  | Done a => Q (Ok a) w
  | TimesOut => Q (Raise TimeoutError) w
  | Fails msg => Q (Raise (OtherError msg)) w
  end ->
  post (await o) w Q.
Proof. destruct o; exact (fun H => H). Qed.

Lemma post_update_server_object server_id f w (Q : res unit -> World -> Prop) :
  Q (Ok tt) (with_manager (with_servers (dict_update server_id f)) w) ->
  post (update_server_object server_id f) w Q.
Proof. exact (fun H => H). Qed.

(** The registry entry of an id across the elementary world changes. *)
Lemma server_of_add_trace id es w : server_of id (add_trace es w) = server_of id w.
Proof. reflexivity. Qed.

Lemma server_of_tick id w : server_of id (tick w) = server_of id w.
Proof. reflexivity. Qed.

Lemma server_of_active id f w :
  server_of id (with_manager (with_active_connections f) w) = server_of id w.
Proof. reflexivity. Qed.

Lemma server_of_history id f w :
  server_of id (with_manager (with_tool_call_history f) w) = server_of id w.
Proof. reflexivity. Qed.

Lemma server_of_update_same id f w :
  server_of id (with_manager (with_servers (dict_update id f)) w)
  = option_map f (server_of id w).
Proof. apply dict_get_update_same. Qed.

Lemma server_of_update_other id k f w :
  k <> id ->
  server_of id (with_manager (with_servers (dict_update k f)) w) = server_of id w.
Proof. apply dict_get_update_other. Qed.

Lemma post_eq {A} (c : M A) w (Q : res A -> World -> Prop) r w' :
  c w = (r, w') -> Q r w' -> post c w Q.
Proof. unfold post. intros ->. exact (fun H => H). Qed.

Lemma post_mono {A} (c : M A) w (Q Q' : res A -> World -> Prop) :
  post c w Q -> (forall r w', Q r w' -> Q' r w') -> post c w Q'.
Proof. unfold post. auto. Qed.
End Rules.

(** ** The event bus *)

Section EventBus.
Context {PF : PyFloat} {RT : Runtime}.
Import mcp_client.

Lemma deliver_run (cbs : list callback) (data : pyval) (w : World) :
  for_each cbs (fun cb =>
    try_except (invoke cb data)
      (fun e => log "ERROR" ("Event callback error: " ++ exn_str e))) w
  = (Ok tt, add_trace (delivery cbs data) w).
Proof.
  revert w. induction cbs as [|cb rest IH]; intros w; simpl.
  - now rewrite add_trace_nil.
  - unfold bind at 1, try_except, invoke, bind at 1.
    rewrite emit_run.
    destruct (cb_run cb data) as [[]|e].
    + rewrite IH, add_trace_app. reflexivity.
    + unfold log. rewrite emit_run, IH, !add_trace_app. reflexivity.
Qed.

Lemma trigger_event_run (event_type : string) (data : pyval) (w : World) :
  _trigger_event event_type data w
  = (Ok tt, add_trace (delivery (registered event_type w) data) w).
Proof.
  unfold _trigger_event, registered, bind, get.
  destruct (dict_get event_type (event_callbacks (manager w))) as [cbs|].
  - apply deliver_run.
  - unfold ret. simpl. now rewrite add_trace_nil.
Qed.

Lemma post_trigger_event event_type data w (Q : res unit -> World -> Prop) :
  Q (Ok tt) (add_trace (delivery (registered event_type w) data) w) ->
  post (_trigger_event event_type data) w Q.
Proof. intros H. eapply post_eq; [apply trigger_event_run|exact H]. Qed.

Lemma handler_calls_app (a b : list effect) :
  handler_calls (a ++ b) = (handler_calls a ++ handler_calls b)%list.
Proof.
  induction a as [|e a IH]; simpl; [reflexivity|].
  destruct e; simpl; now rewrite ?IH.
Qed.

Lemma handler_calls_delivery (cbs : list callback) (data : pyval) :
  handler_calls (delivery cbs data) = map (fun cb => (cb_name cb, data)) cbs.
Proof.
  induction cbs as [|cb rest IH]; simpl; [reflexivity|].
  rewrite handler_calls_app, IH.
  destruct (cb_run cb data); reflexivity.
Qed.

Lemma delivery_logs (cbs : list callback) (data : pyval) (cb : callback) (e : exn) :
  In cb cbs -> cb_run cb data = Raise e ->
  In (Log "ERROR" ("Event callback error: " ++ exn_str e)) (delivery cbs data).
Proof.
  induction cbs as [|c rest IH]; simpl; [tauto|].
  intros [->|Hin] Hrun.
  - right. apply in_or_app. left. rewrite Hrun. now left.
  - right. apply in_or_app. right. now apply IH.
Qed.

(** C7.  Publishing an event returns normally whatever the handlers do; the
    handlers registered for the type are each invoked once, in registration
    order and with the payload, also after one of them has raised; every
    exception a handler raises is logged; and apart from the trace the
    world is left as it was. *)
Theorem trigger_event_delivers_to_all (event_type : string) (data : pyval) (w : World) :
  exists new : list effect,
    _trigger_event event_type data w = (Ok tt, add_trace new w)
    /\ handler_calls new
       = map (fun cb => (cb_name cb, data)) (registered event_type w)
    /\ forall cb e,
         In cb (registered event_type w) -> cb_run cb data = Raise e ->
         In (Log "ERROR" ("Event callback error: " ++ exn_str e)) new.
Proof.
  exists (delivery (registered event_type w) data).
  split; [apply trigger_event_run|].
  split; [apply handler_calls_delivery|].
  intros cb e. apply delivery_logs.
Qed.
End EventBus.

Create Rewrite HintDb world.
#[local] Hint Rewrite @server_of_add_trace @server_of_tick @server_of_active
  @server_of_history @server_of_update_same : world.

(** ** Stepping through a method *)

Ltac wp_step :=
  lazymatch goal with
  | |- post (bind _ _) _ _ => apply post_bind
  | |- post (try_except _ _) _ _ => apply post_try
  | |- post get _ _ => apply post_get
  | |- post (modify _) _ _ => apply post_modify
  | |- post (emit _) _ _ => apply post_emit
  | |- post (mcp_client.log _ _) _ _ => apply post_log
  | |- post observe _ _ => apply post_observe
  | |- post mcp_client.now _ _ => apply post_now
  | |- post (mcp_client._trigger_event _ _) _ _ => apply post_trigger_event
  | |- post (mcp_client.update_server_object _ _) _ _ =>
      apply post_update_server_object
  | |- post (ret _) _ _ => apply post_ret
  | |- post (raise _) _ _ => apply post_raise
  | |- post (mcp_client.run _) _ _ => apply post_run
  | |- post (await _) _ _ => apply post_await
  | |- post (mcp_client.store_call_record _ _) _ _ =>
      unfold mcp_client.store_call_record
  | |- post (let _ := _ in _) _ _ => cbv zeta
  end; cbv beta iota.

Ltac wp := repeat wp_step.

Lemma post_result `{RT : Runtime} {A} (c : M A) (w : World) (r : res A) (w' : World) :
  post c w (fun r0 w0 => r0 = r /\ w0 = w') -> c w = (r, w').
Proof. unfold post. destruct (c w) as [r0 w0]; simpl. now intros [-> ->]. Qed.

Lemma list_store_last {A} (h : list A) (x y : A) :
  mcp_client.list_store (length h) y (h ++ [x]) = (h ++ [y])%list.
Proof. induction h as [|a h IH]; simpl; [reflexivity|now rewrite IH]. Qed.

(** ** The invocation gateway *)

Section Invocation.
Context {PF : PyFloat} {RT : Runtime}.
Import mcp_client.

(** C4.  A call on a server id that is not registered, or whose status is
    not "connected", returns at once a dictionary holding only an error
    message, "Server <id> not found" in the first case and
    "Server <name> is not connected" in the second, and leaves the whole
    world as it was: nothing is appended to the call history, no transport
    or session effect and no log line is produced. *)
Theorem call_tool_rejected_without_effect
    (server_id tool : string) (arguments : pyval) (timeout : Float)
    (remote : outcome pyval) (w : World)
    (Hnot : server_of server_id w = None
            \/ exists server, server_of server_id w = Some server
                              /\ status server <> "connected") :
  exists msg,
    call_tool server_id tool arguments timeout remote w
      = (Ok (PDict [("error", PStr msg)]), w)
    /\ (server_of server_id w = None ->
        msg = "Server " ++ server_id ++ " not found")
    /\ (forall server, server_of server_id w = Some server ->
        msg = "Server " ++ py_str (name server) ++ " is not connected").
Proof.
  unfold server_of in *. unfold call_tool, bind, get.
  destruct Hnot as [Hnone | (server & Hsome & Hstatus)].
  - rewrite Hnone. eexists. split; [reflexivity|].
    split; [reflexivity|discriminate].
  - rewrite Hsome.
    destruct (String.eqb_spec (status server) "connected") as [E|_];
      [contradiction|].
    eexists. split; [reflexivity|].
    split; [discriminate|]. now intros s [= <-].
Qed.

(** C5.  When the remote call of a connected server runs into the timeout,
    [call_tool] returns [{success: False, error}] with the message
    "Tool execution timed out after <timeout> seconds"; the record it had
    appended to the history in status "executing" is, in place, the record
    with status "failed", that message as error and the timeout value
    itself as duration; and the handlers of [tool_call_error] are called
    with that record, after those of [tool_call_start], the remote call
    and the log line. *)
Theorem call_tool_timeout_recorded
    (server_id tool : string) (arguments : pyval) (timeout : Float)
    (w : World) (server : MCPServer) (sess : nat)
    (Hserver : server_of server_id w = Some server)
    (Hstatus : status server = "connected")
    (Hsession : session server = Some sess) :
  let started := now_at (ticks w) in
  let failed := timed_out_record server_id server tool arguments started timeout in
  call_tool server_id tool arguments timeout TimesOut w
  = (Ok (PDict [("success", PBool false);
                ("error", PStr (tool_timeout_message timeout))]),
     add_trace
       (delivery (registered "tool_call_start" w)
          (PDict (executing_record server_id server tool arguments started))
        ++ [RemoteCall sess tool arguments;
            Log "ERROR" ("Tool execution timed out after "
                         ++ float_str timeout ++ " seconds: " ++ tool)]
        ++ delivery (registered "tool_call_error" w) (PDict failed))
       (with_manager
          (with_tool_call_history (fun h => (h ++ [PDict failed])%list))
          (tick w))).
Proof.
  intros started failed. apply post_result.
  unfold server_of in Hserver. unfold call_tool.
  wp. rewrite Hserver, Hstatus, Hsession, String.eqb_refl.
  wp. simpl. wp.
  split; [reflexivity|].
  destruct w as [[sv ac h ec] ag dk tk tr].
  cbv [registered add_trace with_trace with_manager with_tool_call_history
       tick manager agent disk ticks trace servers active_connections
       tool_call_history event_callbacks timed_out_record executing_record
       tool_timeout_message failed started].
  cbn [dict_set String.eqb Ascii.eqb Bool.eqb].
  rewrite list_store_last, <- !app_assoc. reflexivity.
Qed.
End Invocation.

(** ** Disconnecting *)

Section Disconnect.
Context {PF : PyFloat} {RT : Runtime}.
Import mcp_client.

Lemma disconnect_without_connection (server_id : string) (aclose : option exn)
    (w : World) :
  dict_get server_id (active_connections (manager w)) = None ->
  disconnect_server server_id aclose w = (Ok tt, w).
Proof.
  intros Hnone. unfold disconnect_server, bind, get. now rewrite Hnone.
Qed.

(** C6 (as the code has it).  [disconnect_server] never raises.  For an id
    without an active connection, registered or not, it changes nothing at
    all.  For an id with an active connection it closes the exit stack;
    when closing returns, the connection is forgotten, the registry entry
    (if any) gets status "disconnected" with session, timestamp and tool
    list cleared, other entries are untouched, the handlers of
    [server_disconnected] are called, and any further disconnect of the id
    changes nothing; when closing raises, the exception is logged and
    swallowed and manager state is left as it was. *)
Theorem disconnect_server_total (server_id : string) (aclose : option exn)
    (w : World) :
  exists w',
    disconnect_server server_id aclose w = (Ok tt, w')
    /\ match dict_get server_id (active_connections (manager w)), aclose with
       | None, _ => w' = w
       | Some stack, None =>
           trace w' =
             (trace w
              ++ [StackClose stack;
                  Log "INFO" ("Disconnected from server: " ++ server_id)]
              ++ delivery (registered "server_disconnected" w)
                   (server_disconnected_event server_id))%list
           /\ dict_get server_id (active_connections (manager w')) = None
           /\ server_of server_id w'
              = option_map disconnected_state (server_of server_id w)
           /\ (forall other, other <> server_id ->
                 server_of other w' = server_of other w)
           /\ (forall again, disconnect_server server_id again w' = (Ok tt, w'))
       | Some stack, Some e =>
           w' = add_trace
                  [StackClose stack;
                   Log "ERROR" ("Error disconnecting from server " ++ server_id
                                ++ ": " ++ exn_str e)] w
       end.
Proof.
  destruct (dict_get server_id (active_connections (manager w)))
    as [stack|] eqn:Hactive.
  2:{ exists w. split; [now apply disconnect_without_connection|reflexivity]. }
  destruct aclose as [e|].
  - eexists. split; [|reflexivity].
    apply post_result. unfold disconnect_server. wp. rewrite Hactive. wp.
    split; [reflexivity|]. now rewrite add_trace_app.
  - eexists. split.
    + apply post_result. unfold disconnect_server. wp. rewrite Hactive. wp.
      split; reflexivity.
    + cbv beta iota. repeat split.
      * unfold add_trace, with_trace, registered; simpl.
        now rewrite <- !app_assoc.
      * simpl. apply dict_get_del_same.
      * unfold server_of; simpl. rewrite !dict_get_update_same.
        destruct (dict_get server_id (servers (manager w))); reflexivity.
      * intros other Hne. unfold server_of; simpl.
        now rewrite !dict_get_update_other by congruence.
      * intros again. apply disconnect_without_connection.
        simpl. apply dict_get_del_same.
Qed.
End Disconnect.

(** ** Connecting *)

Ltac wp_case :=
  lazymatch goal with
  | |- post (match ?x with _ => _ end) _ _ => destruct x eqn:?
  | |- match ?x with _ => _ end => destruct x eqn:?
  end; cbv beta iota.

Ltac wp_all := repeat (wp_step || wp_case).

Section Connect.
Context {PF : PyFloat} {RT : Runtime}.
Import mcp_client.

(** The clean-up block returns normally and touches only the table of
    active connections and the trace. *)
Lemma cleanup_run (server_id : string) (aclose : option exn) (w : World) :
  exists f es,
    cleanup server_id aclose w
    = (Ok tt, add_trace es (with_manager (with_active_connections f) w)).
Proof.
  unfold cleanup, bind, get.
  destruct (dict_get server_id (active_connections (manager w))) as [stack|].
  - destruct aclose as [e|].
    + exists (fun d => d), [StackClose stack]. destruct w as [[] ? ? ? ?]. reflexivity.
    + exists (dict_del server_id), [StackClose stack]. reflexivity.
  - exists (fun d => d), []. rewrite add_trace_nil. destruct w as [[] ? ? ? ?]. reflexivity.
Qed.

Lemma post_cleanup server_id aclose w (Q : res unit -> World -> Prop) :
  (forall f es,
     Q (Ok tt) (add_trace es (with_manager (with_active_connections f) w))) ->
  post (cleanup server_id aclose) w Q.
Proof.
  intros HQ. destruct (cleanup_run server_id aclose w) as (f & es & E).
  eapply post_eq; [exact E|apply HQ].
Qed.

Lemma connect_server_unknown (server_id : string) (timeout : Float)
    (r : connect_run) (w : World) :
  server_of server_id w = None ->
  connect_server server_id timeout r w
  = (Ok false, add_trace [Log "ERROR" ("Server " ++ server_id ++ " not found")] w).
Proof.
  unfold server_of. intros Hnone. unfold connect_server, bind, get.
  now rewrite Hnone.
Qed.

Ltac wp_connect :=
  repeat (wp_step || wp_case ||
          lazymatch goal with
          | |- post (cleanup _ _) _ _ => apply post_cleanup; intros ? ?
          end).

(** A connect attempt on a registered id returns whether no stage failed;
    the stored error of the id becomes the failure message if there is one
    and stays as it was otherwise; the stored errors of other ids stay. *)
Lemma connect_server_last_error (server_id : string) (timeout : Float)
    (r : connect_run) (w : World) (server : MCPServer) :
  server_of server_id w = Some server ->
  post (connect_server server_id timeout r) w (fun res w' =>
    match connect_failure_message timeout r with
    | Some msg => res = Ok false /\ last_error_of server_id w' = Some (Some msg)
    | None => res = Ok true /\ last_error_of server_id w' = last_error_of server_id w
    end
    /\ forall other, other <> server_id ->
         last_error_of other w' = last_error_of other w).
Proof.
  intros Hserver. unfold connect_server.
  wp_step. wp_step. fold (server_of server_id w). rewrite Hserver. cbv beta iota.
  wp_connect.
  all: split;
    [ unfold connect_failure_message, first_failure;
      repeat match goal with
             | H : _ = _ :> bool |- _ => rewrite H
             | H : _ = _ :> option exn |- _ => rewrite H
             | H : _ = _ :> outcome _ |- _ => rewrite H
             end;
      cbv beta iota delta [stage_failure];
      (split; [reflexivity|]); unfold last_error_of;
      autorewrite with world; rewrite Hserver; reflexivity
    | intros other Hne; unfold last_error_of;
      repeat first [rewrite server_of_update_other by congruence
                   |progress autorewrite with world];
      reflexivity ].
Qed.

Lemma disconnect_keeps_last_error (server_id other : string)
    (aclose : option exn) (w : World) :
  last_error_of other (snd (disconnect_server server_id aclose w))
  = last_error_of other w.
Proof.
  change (post (disconnect_server server_id aclose) w
            (fun _ w' => last_error_of other w' = last_error_of other w)).
  unfold disconnect_server. wp_all; try reflexivity.
  unfold last_error_of.
  destruct (String.eqb_spec server_id other) as [<-|Hne].
  - autorewrite with world.
    destruct (server_of server_id w); reflexivity.
  - repeat first [rewrite server_of_update_other by exact Hne
                 |progress autorewrite with world].
    reflexivity.
Qed.

Lemma call_tool_keeps_servers (server_id tool : string) (arguments : pyval)
    (timeout : Float) (remote : outcome pyval) (w : World) :
  servers (manager (snd (call_tool server_id tool arguments timeout remote w)))
  = servers (manager w).
Proof.
  change (post (call_tool server_id tool arguments timeout remote) w
            (fun _ w' => servers (manager w') = servers (manager w))).
  unfold call_tool. wp_all; reflexivity.
Qed.

(** C3 (as the code has it).  The stored error message of a server is left
    as it is by [disconnect_server] and [call_tool] on any id and by
    [connect_server] on another id.  A [connect_server] on the server itself
    always returns a boolean: [True] when no stage fails, and then the stored
    message stays as it was; [False] when a stage fails, and then the stored
    message is the message of that failure. *)
Theorem last_error_changed_only_by_failed_connect (observed : string) (w : World) :
  (forall server_id aclose,
      last_error_of observed (snd (disconnect_server server_id aclose w))
      = last_error_of observed w)
  /\ (forall server_id tool arguments timeout remote,
      last_error_of observed
        (snd (call_tool server_id tool arguments timeout remote w))
      = last_error_of observed w)
  /\ (forall server_id timeout r,
      server_id <> observed ->
      last_error_of observed (snd (connect_server server_id timeout r w))
      = last_error_of observed w)
  /\ (forall timeout r,
      server_of observed w <> None ->
      exists w',
        connect_server observed timeout r w
        = (Ok (match connect_failure_message timeout r with
               | Some _ => false
               | None => true
               end), w')
        /\ last_error_of observed w'
           = match connect_failure_message timeout r with
             | Some msg => Some (Some msg)
             | None => last_error_of observed w
             end).
Proof.
  split; [|split; [|split]].
  - intros. apply disconnect_keeps_last_error.
  - intros. unfold last_error_of, server_of.
    now rewrite call_tool_keeps_servers.
  - intros server_id timeout r Hne.
    destruct (server_of server_id w) as [server|] eqn:Hserver.
    + pose proof (connect_server_last_error _ timeout r _ _ Hserver) as Hpost.
      unfold post in Hpost. destruct Hpost as [_ Hother]. now apply Hother.
    + now rewrite connect_server_unknown by exact Hserver.
  - intros timeout r Hreg.
    destruct (server_of observed w) as [server|] eqn:Hserver; [|contradiction].
    pose proof (connect_server_last_error _ timeout r _ _ Hserver) as Hpost.
    unfold post in Hpost.
    destruct (connect_server observed timeout r w) as [res w'].
    simpl in Hpost. destruct Hpost as [Hmsg _]. exists w'.
    destruct (connect_failure_message timeout r) as [msg|];
      destruct Hmsg as [-> Hle]; split; [reflexivity|exact Hle| |]; auto.
Qed.
End Connect.

(** ** The argument filter *)

Lemma dict_set_fresh {V} (k : string) (v : V) (d : dict V) :
  ~ In k (dict_keys d) -> dict_set k v d = (d ++ [(k, v)])%list.
Proof.
  induction d as [|[k' v'] r IH]; simpl; [reflexivity|].
  intros Hnotin. destruct (String.eqb_spec k k') as [->|Hne].
  - exfalso. apply Hnotin. now left.
  - rewrite IH; [reflexivity|]. intros Hin. apply Hnotin. now right.
Qed.

Lemma dict_keys_app {V} (a b : dict V) :
  dict_keys (a ++ b)%list = (dict_keys a ++ dict_keys b)%list.
Proof. apply map_app. Qed.

Section Filter.
Context {PF : PyFloat} {RT : Runtime}.
Import mcp_client strands_mcp_agent.

Lemma filter_item_kept (filtered : dict pyval) (kv : string * pyval) :
  ~ In (fst kv) (dict_keys filtered) ->
  filter_item filtered kv
  = (filtered ++ (if kept kv then [kv] else []))%list.
Proof.
  intros Hfresh. unfold filter_item, kept.
  destruct (is_None (snd kv)); simpl; [now rewrite app_nil_r|].
  destruct (String.eqb (fst kv) "offset" && eq_zero (snd kv)); simpl;
    [now rewrite app_nil_r|].
  rewrite dict_set_fresh by exact Hfresh. now destruct kv.
Qed.

Lemma fold_filter_item (items filtered : dict pyval) :
  NoDup (dict_keys items) ->
  (forall k, In k (dict_keys items) -> ~ In k (dict_keys filtered)) ->
  fold_left filter_item items filtered = (filtered ++ filter kept items)%list.
Proof.
  revert filtered. induction items as [|kv rest IH]; intros filtered Hnd Hdisj; simpl.
  - now rewrite app_nil_r.
  - inversion Hnd as [|k ks Hnotin Hnd' E]; subst.
    rewrite filter_item_kept by (apply Hdisj; now left).
    rewrite IH; [destruct (kept kv); simpl; now rewrite <- app_assoc|exact Hnd'|].
    intros k Hk. rewrite dict_keys_app, in_app_iff. intros [Hin|Hin].
    + revert Hin. apply Hdisj. now right.
    + destruct (kept kv); simpl in Hin; [|exact Hin].
      destruct Hin as [<-|[]]. contradiction.
Qed.

Lemma filter_items_kept (items : dict pyval) :
  NoDup (dict_keys items) -> filter_items items = filter kept items.
Proof.
  intros Hnd. unfold filter_items. rewrite fold_filter_item; auto.
Qed.

Lemma kept_iff (k : string) (v : pyval) :
  kept (k, v) = true <-> v <> PNone /\ ~ (k = "offset" /\ eq_zero v = true).
Proof.
  unfold kept; simpl. rewrite andb_true_iff, !negb_true_iff, andb_false_iff.
  split.
  - intros [Hnone Hzero]. split.
    + intros ->. discriminate.
    + intros [-> Hz]. destruct Hzero as [E|E]; [discriminate|congruence].
  - intros [Hnone Hzero]. split.
    + destruct v; simpl; congruence.
    + destruct (String.eqb_spec k "offset") as [->|_]; [|now left].
      right. destruct (eq_zero v); [exfalso; now apply Hzero|reflexivity].
Qed.

(** C10.  Both entry points of the filtered client hand to the parent
    method exactly the arguments that pass the filter, in their original
    order and with their values untouched: an argument is passed on if and
    only if its value is not [None] and it is not an [offset] equal to
    zero.  An empty or absent argument object of the asynchronous entry
    point is passed on as it is. *)
Theorem filtered_client_drops_none_and_zero_offset
    (R : Type) (super_sync : string -> dict pyval -> M R)
    (super_async : string -> string -> pyval -> dict pyval -> M R)
    (tool_use_id tool : string) (items kwargs : dict pyval) (w : World)
    (Hdict : NoDup (dict_keys items)) :
  call_tool_sync super_sync tool items w
    = super_sync tool (filter kept items)
        (add_trace
           [Log "INFO" ("Filtering MCP sync call: " ++ tool);
            Log "INFO" ("  Original: " ++ py_str (PList (map PStr (dict_keys items))));
            Log "INFO" ("  Filtered: " ++ py_str (PDict (filter kept items)))] w)
  /\ call_tool_async super_async tool_use_id tool (PDict items) kwargs w
    = super_async tool_use_id tool (PDict (filter kept items)) kwargs
        (match items with
         | [] => w
         | _ =>
           add_trace
             [Log "INFO" ("Filtering MCP async call: " ++ tool);
              Log "INFO" ("  Original args: "
                          ++ py_str (PList (map PStr (dict_keys items))));
              Log "INFO" ("  Filtered args: "
                          ++ py_str (PDict (filter kept items)))] w
         end)
  /\ call_tool_async super_async tool_use_id tool PNone kwargs w
    = super_async tool_use_id tool PNone kwargs w
  /\ forall k v,
       In (k, v) (filter kept items)
       <-> In (k, v) items /\ v <> PNone /\ ~ (k = "offset" /\ eq_zero v = true).
Proof.
  split; [|split; [|split; [reflexivity|intros k v; split]]].
  - unfold call_tool_sync. rewrite filter_items_kept by exact Hdict.
    unfold bind, log. rewrite !emit_run, !add_trace_app. reflexivity.
  - pose proof (filter_items_kept _ Hdict) as E.
    unfold call_tool_async. destruct items as [|kv rest]; [reflexivity|].
    cbn [truthy]. unfold bind, as_dict, log, ret. rewrite !emit_run, E.
    now rewrite !add_trace_app.
  - intros Hin. apply filter_In in Hin. destruct Hin as [Hin Hk].
    split; [exact Hin|]. now apply kept_iff.
  - intros (Hin & Hk). apply filter_In. split; [exact Hin|]. now apply kept_iff.
Qed.
End Filter.

(** ** The registry and its persisted configuration *)

Lemma dict_keys_set_present {V} (k : string) (v : V) (d : dict V) :
  In k (dict_keys d) -> dict_keys (dict_set k v d) = dict_keys d.
Proof.
  induction d as [|[k' v'] r IH]; simpl; [tauto|].
  intros Hin. destruct (String.eqb_spec k k') as [->|Hne]; simpl; [reflexivity|].
  f_equal. apply IH. destruct Hin as [E|Hin]; [congruence|exact Hin].
Qed.

Lemma dict_set_keeps_NoDup {V} (k : string) (v : V) (d : dict V) :
  NoDup (dict_keys d) -> NoDup (dict_keys (dict_set k v d)).
Proof.
  intros Hnd. destruct (in_dec string_dec k (dict_keys d)) as [Hin|Hnotin].
  - now rewrite dict_keys_set_present.
  - rewrite dict_set_fresh, dict_keys_app by exact Hnotin. simpl.
    apply NoDup_app; [exact Hnd|repeat constructor; auto|].
    intros a Ha [<-|[]]. contradiction.
Qed.

Lemma dict_get_In_keys {V} (k : string) (d : dict V) (v : V) :
  dict_get k d = Some v -> In k (dict_keys d).
Proof.
  induction d as [|[k' v'] r IH]; simpl; [discriminate|].
  destruct (String.eqb_spec k k') as [->|Hne]; [now left|].
  intros H. right. now apply IH.
Qed.

Section Registry.
Context {PF : PyFloat} {RT : Runtime}.
Import mcp_client.

Lemma advance_tick (n : nat) (w : World) : advance n (tick w) = advance (S n) w.
Proof. unfold advance, tick; simpl. now rewrite Nat.add_succ_r. Qed.

Lemma stamped_keys (items : dict MCPServer) (n : nat) :
  dict_keys (stamped items n) = dict_keys items.
Proof.
  revert n. induction items as [|[k s] rest IH]; intros n; simpl;
    [reflexivity|now rewrite IH].
Qed.

Lemma save_entries_run (items : dict MCPServer) (acc : dict pyval) (w : World) :
  NoDup (dict_keys items) ->
  (forall k, In k (dict_keys items) -> ~ In k (dict_keys acc)) ->
  save_entries items acc w
  = (Ok (acc ++ stamped items (ticks w))%list, advance (length items) w).
Proof.
  revert acc w. induction items as [|[k s] rest IH]; intros acc w Hnd Hdisj; simpl.
  - rewrite app_nil_r. destruct w; reflexivity.
  - inversion Hnd as [|k0 ks Hnotin Hnd' E]; subst.
    unfold bind at 1, now, bind at 1, observe, ret at 1.
    rewrite IH.
    + rewrite dict_set_fresh by (apply Hdisj; now left).
      rewrite <- app_assoc, advance_tick. reflexivity.
    + exact Hnd'.
    + intros k' Hk'.
      rewrite dict_set_fresh, dict_keys_app, in_app_iff
        by (apply Hdisj; now left).
      intros [Hin|[<-|[]]]; [|contradiction].
      revert Hin. apply Hdisj. now right.
Qed.

Lemma save_config_run (w : World) :
  NoDup (dict_keys (servers (manager w))) ->
  save_config w
  = (Ok tt,
     with_disk
       (Some (PDict [("active_servers",
                      PDict (stamped (servers (manager w)) (S (ticks w))));
                     ("settings", settings (now_at (ticks w)))]))
       (advance (S (length (servers (manager w)))) w)).
Proof.
  intros Hnd. unfold save_config.
  unfold bind at 1, now, bind at 1, observe, ret at 1.
  unfold bind at 1, get. unfold bind at 1.
  change (servers (manager (tick w))) with (servers (manager w)).
  rewrite save_entries_run by (auto; intros k _ []).
  rewrite advance_tick. reflexivity.
Qed.

(** The loop of [load_config] over persisted entries. *)
Lemma load_entries_run (items : dict MCPServer) (n : nat) (w : World) :
  NoDup (dict_keys items) ->
  (forall k, In k (dict_keys items) -> ~ In k (dict_keys (servers (manager w)))) ->
  for_each (stamped items n) (fun entry =>
    server_config <- as_dict (snd entry) ;;
    modify (with_manager (with_servers
      (dict_set (fst entry) (server_from_config (fst entry) server_config))))) w
  = (Ok tt,
     with_manager (with_servers (fun d => (d ++ map reloaded items)%list)) w).
Proof.
  revert n w. induction items as [|[k s] rest IH]; intros n w Hnd Hdisj; simpl.
  - destruct w as [[] ? ? ? ?]; unfold ret, with_manager, with_servers; simpl.
    now rewrite app_nil_r.
  - inversion Hnd as [|k0 ks Hnotin Hnd' E]; subst.
    unfold bind at 1, bind at 1, ret at 1, modify.
    rewrite IH.
    + unfold with_manager, with_servers; simpl.
      rewrite dict_set_fresh by (apply Hdisj; now left).
      rewrite <- app_assoc. reflexivity.
    + exact Hnd'.
    + intros k' Hk'. simpl.
      rewrite dict_set_fresh, dict_keys_app, in_app_iff
        by (apply Hdisj; now left).
      intros [Hin|[<-|[]]]; [|contradiction].
      revert Hin. apply Hdisj. now right.
Qed.

Lemma descriptors_reloaded (items : dict MCPServer) :
  descriptors (map reloaded items) = descriptors items.
Proof.
  unfold descriptors. rewrite map_map. apply map_ext. now intros [k s].
Qed.

(** Saving a registry and loading it in a new process gives back the same
    ids with the same configuration fields. *)
Lemma save_then_reload (w : World) :
  NoDup (dict_keys (servers (manager w))) ->
  exists w1 w2,
    save_config w = (Ok tt, w1)
    /\ manager w1 = manager w
    /\ load_config (restart w1) = (Ok tt, w2)
    /\ descriptors (servers (manager w2)) = descriptors (servers (manager w)).
Proof.
  intros Hnd. eexists. eexists. split; [now apply save_config_run|].
  split; [reflexivity|].
  unfold load_config, restart. unfold bind at 1, get. cbn [disk with_disk].
  unfold bind at 1, as_dict, ret at 1. unfold bind at 1.
  cbn [get_default dict_get String.eqb Ascii.eqb Bool.eqb].
  unfold ret at 1.
  rewrite load_entries_run by (auto; intros k _ []).
  split; [reflexivity|]. cbn. apply descriptors_reloaded.
Qed.

Lemma add_server_run (server_config : dict pyval) (name' command' : pyval)
    (w : World) :
  dict_get "name" server_config = Some name' ->
  dict_get "command" server_config = Some command' ->
  add_server server_config w
  = let server_id := uuid4_at (ticks w) in
    match save_config
            (with_manager
               (with_servers
                  (dict_set server_id
                     (added_server server_id server_config name' command')))
               (tick w)) with
    | (Ok _, w1) => (Ok server_id, w1)
    | (Raise e, w1) => (Raise e, w1)
    end.
Proof.
  intros Hname Hcommand. unfold add_server.
  unfold bind at 1, observe. unfold bind at 1, subscript. rewrite Hname.
  unfold ret at 1. unfold bind at 1. rewrite Hcommand. unfold ret at 1.
  unfold bind at 1, modify. unfold bind, ret. reflexivity.
Qed.

(** C8 (as the code has it).  Adding a descriptor that has a name and a
    command registers, under the generated id, an entry holding the
    descriptor's eight fields (absent optional fields take their
    defaults).  The listing then contains the status entry of that server:
    it shows the id, name, description, category and env_vars of the
    descriptor and has no command, args, enabled or auto_connect key.
    Loading the persisted configuration in a new process gives the same
    ids with the same eight fields as the registry that was saved. *)
Theorem add_server_round_trip (server_config : dict pyval)
    (name' command' : pyval) (w : World)
    (Hname : dict_get "name" server_config = Some name')
    (Hcommand : dict_get "command" server_config = Some command')
    (Hregistry : NoDup (dict_keys (servers (manager w)))) :
  let server_id := uuid4_at (ticks w) in
  let server := added_server server_id server_config name' command' in
  let entry := server_status_dict server in
  exists w1 w2,
    add_server server_config w = (Ok server_id, w1)
    /\ server_of server_id w1 = Some server
    /\ In entry (get_all_servers (manager w1))
    /\ map (fun field => dict_get field entry)
         ["id"; "name"; "description"; "category"; "env_vars"]
       = [Some (PStr server_id); Some name';
          Some (get_default "description" (PStr "") server_config);
          Some (get_default "category" (PStr "General") server_config);
          Some (get_default "env_vars" (PDict []) server_config)]
    /\ map (fun field => dict_get field entry)
         ["command"; "args"; "enabled"; "auto_connect"]
       = [None; None; None; None]
    /\ load_config (restart w1) = (Ok tt, w2)
    /\ descriptors (servers (manager w2)) = descriptors (servers (manager w1)).
Proof.
  intros server_id server entry.
  set (w0 := with_manager (with_servers (dict_set server_id server)) (tick w)).
  assert (Hnd : NoDup (dict_keys (servers (manager w0))))
    by (apply dict_set_keeps_NoDup; exact Hregistry).
  destruct (save_then_reload w0 Hnd) as (w1 & w2 & Hsave & Hmgr & Hload & Hdesc).
  assert (Hget : dict_get server_id (servers (manager w1)) = Some server)
    by (rewrite Hmgr; apply dict_get_set_same).
  exists w1, w2. split.
  { rewrite (add_server_run _ _ _ _ Hname Hcommand). cbv zeta.
    fold server_id. fold server. fold w0. now rewrite Hsave. }
  split; [exact Hget|].
  split.
  { unfold get_all_servers. apply in_map_iff. exists server_id. split.
    - unfold get_server_status. now rewrite Hget.
    - eapply dict_get_In_keys. exact Hget. }
  split; [reflexivity|]. split; [reflexivity|].
  split; [exact Hload|]. now rewrite Hmgr.
Qed.

(** C9 (as the code has it).  For a configuration dictionary without a
    name or without a command, the HTTP endpoint answers with status 400
    and the message "Missing required field: <field>", naming the first
    missing field, and calls nothing: the world is left as it was.  The
    manager's own [add_server], called with the same dictionary, raises
    [KeyError] for that field; it has drawn an id but registered and saved
    nothing. *)
Theorem add_server_missing_field (data : dict pyval) (w : World)
    (Hmissing : dict_get "name" data = None \/ dict_get "command" data = None) :
  exists field,
    In field ["name"; "command"]
    /\ dict_get field data = None
    /\ mcp_routes.add_server data w
       = (Ok (PDict [("success", PBool false);
                     ("error", PStr ("Missing required field: " ++ field))],
              400), w)
    /\ mcp_client.add_server data w = (Raise (KeyError field), tick w).
Proof.
  unfold mcp_routes.add_server, try_except, add_server, mcp_routes.first_missing,
    dict_mem, bind, observe, subscript.
  destruct (dict_get "name" data) as [n|] eqn:Hname.
  - destruct Hmissing as [Hm|Hm]; [discriminate|].
    exists "command". rewrite Hm. simpl. auto 6.
  - exists "name". simpl. auto 6.
Qed.
End Registry.

(** ** The agent-side session table *)

Section Agent.
Context {PF : PyFloat} {RT : Runtime}.
Import strands_mcp_agent.

(** [StrandsMCPAgent.connect_server] on an id that already has a client
    returns [True] and starts nothing. *)
Lemma agent_connect_is_idempotent (server_id : string) (r : client_run)
    (w : World) (server_config : pyval) :
  dict_get server_id (mcp_servers (agent w)) = Some server_config ->
  dict_mem server_id (mcp_clients (agent w)) = true ->
  connect_server server_id r w
  = (Ok true,
     add_trace [Log "INFO" ("Server " ++ server_id ++ " already connected")] w).
Proof.
  intros Hcfg Hclient. unfold connect_server, bind, get.
  now rewrite Hcfg, Hclient.
Qed.
End Agent.

(** * Concrete runs *)

Section Concrete.
#[local] Existing Instance sample_float.
#[local] Existing Instance sample_runtime.
Import mcp_client Samples.

(** C1.  A connect attempt whose tool listing times out leaves the entry
    in status "error" with its connected-at timestamp and session set; a
    failed reconnect of a connected server leaves it in status "error"
    with its tool list still filled.  Both entries break the invariant,
    which the initial entry satisfies. *)
Theorem failed_connect_breaks_registry_invariant :
  registry_invariant demo_server
  /\ (exists s,
        connect_server "s1" (secs 30) run_list_tools_timeout world0
        = (Ok false, snd (connect_server "s1" (secs 30) run_list_tools_timeout world0))
        /\ server_of "s1"
             (snd (connect_server "s1" (secs 30) run_list_tools_timeout world0))
           = Some s
        /\ status s = "error"
        /\ connected_at s = Some 1
        /\ session s = Some 0
        /\ ~ registry_invariant s)
  /\ (exists s,
        server_of "s1"
          (snd (connect_server "s1" (secs 30) run_transport_timeout world_connected))
        = Some s
        /\ status s = "error"
        /\ available_tools s = [tool_dict echo_tool]
        /\ connected_at s = Some 1
        /\ ~ registry_invariant s).
Proof.
  split; [|split].
  - split; [intros H; now elim H|split; intros H; [now elim H|discriminate]].
  - eexists. split; [vm_compute; reflexivity|].
    split; [vm_compute; reflexivity|].
    repeat (split; [reflexivity|]).
    intros [_ [Hat _]]. simpl in Hat.
    assert (E : "error" = "connected") by (apply Hat; discriminate).
    discriminate.
  - eexists. split; [vm_compute; reflexivity|].
    repeat (split; [reflexivity|]).
    intros [Htools _]. simpl in Htools.
    assert (E : "error" = "connected") by (apply Htools; discriminate).
    discriminate.
Qed.

(** C2.  [MCPClientManager.connect_server] on a server that is already
    connected returns [True] after launching a second transport and
    session on a new exit stack; the table of active connections then
    names only the new stack, and the first stack is never closed. *)
Theorem reconnect_launches_second_transport :
  option_map status (server_of "s1" world_connected) = Some "connected"
  /\ active_connections (manager world_connected) = [("s1", 0)]
  /\ exists w,
       connect_server "s1" (secs 30) run_ok world_connected = (Ok true, w)
       /\ trace w
          = (trace world_connected
             ++ [TransportLaunch 2 "s1"; SessionOpen 2; SessionInitialize 2;
                 ListTools 2;
                 Log "INFO" "Connected to MCP server: demo with 1 tools"])%list
       /\ trace world_connected
          = [TransportLaunch 0 "s1"; SessionOpen 0; SessionInitialize 0;
             ListTools 0;
             Log "INFO" "Connected to MCP server: demo with 1 tools"]
       /\ active_connections (manager w) = [("s1", 2)]
       /\ option_map session (server_of "s1" w) = Some (Some 2).
Proof.
  split; [vm_compute; reflexivity|]. split; [vm_compute; reflexivity|].
  eexists. split; [vm_compute; reflexivity|].
  repeat split; vm_compute; reflexivity.
Qed.

(** C3, counterexample.  A server in state "error" is connected
    successfully and still carries the message of the earlier failure; a
    failed connect, which is no successful connect attempt, replaces the
    message. *)
Lemma successful_connect_keeps_stale_error :
  last_error_of "s1" world_error
    = Some (Some "Connection timeout after 30.0 seconds")
  /\ option_map status (server_of "s1" world_error) = Some "error"
  /\ (exists w,
        connect_server "s1" (secs 30) run_ok world_error = (Ok true, w)
        /\ option_map status (server_of "s1" w) = Some "connected"
        /\ last_error_of "s1" w
           = Some (Some "Connection timeout after 30.0 seconds"))
  /\ (exists w,
        connect_server "s1" (secs 30) run_spawn_fails world_error = (Ok false, w)
        /\ last_error_of "s1" w = Some (Some "spawn failed")).
Proof.
  split; [vm_compute; reflexivity|]. split; [vm_compute; reflexivity|].
  split; eexists; (split; [vm_compute; reflexivity|]);
    repeat split; vm_compute; reflexivity.
Qed.

(** C6, counterexample.  With a live session whose exit stack raises on
    closing, [disconnect_server] returns normally but the entry stays
    "connected" with timestamp, tools and active connection in place, and
    the subscribed [server_disconnected] handler is not called. *)
Lemma disconnect_with_failing_close_changes_nothing :
  dict_get "s1" (active_connections (manager world_connected)) = Some 0
  /\ registered "server_disconnected" world_connected = [ui_handler]
  /\ exists w,
       disconnect_server "s1" (Some (OtherError "boom")) world_connected
         = (Ok tt, w)
       /\ server_of "s1" w = Some connected_server
       /\ status connected_server = "connected"
       /\ dict_get "s1" (active_connections (manager w)) = Some 0
       /\ handler_calls (trace w) = [].
Proof.
  split; [vm_compute; reflexivity|]. split; [vm_compute; reflexivity|].
  eexists. split; [vm_compute; reflexivity|].
  repeat split; vm_compute; reflexivity.
Qed.

(** C8, counterexample.  After adding a descriptor with all eight fields,
    the only entry of the listing has no command, args, enabled or
    auto_connect key. *)
Lemma listing_entry_lacks_command :
  exists w entry,
    add_server full_descriptor world_empty = (Ok "uuid-0", w)
    /\ get_all_servers (manager w) = [entry]
    /\ dict_get "command" full_descriptor = Some (PList [PStr "npx"])
    /\ dict_get "command" entry = None
    /\ dict_get "args" entry = None
    /\ dict_get "enabled" entry = None
    /\ dict_get "auto_connect" entry = None.
Proof.
  eexists. eexists. split; [vm_compute; reflexivity|].
  split; [vm_compute; reflexivity|].
  repeat split; vm_compute; reflexivity.
Qed.

(** C9, counterexample.  The manager's [add_server] raises [KeyError] on a
    dictionary without a name. *)
Lemma manager_add_server_raises_KeyError :
  dict_get "name" nameless_config = None
  /\ add_server nameless_config world_empty
     = (Raise (KeyError "name"), tick world_empty).
Proof. split; vm_compute; reflexivity. Qed.

(** Registration order is delivery order, and the fault of the first
    handler does not keep the second from being called. *)
Example faulty_handler_does_not_stop_delivery :
  let w := snd (on_event "server_error" ui_handler
                  (snd (on_event "server_error" faulty_handler world_empty))) in
  _trigger_event "server_error" (PStr "x") w
  = (Ok tt,
     add_trace [HandlerCalled "faulty" (PStr "x");
                Log "ERROR" "Event callback error: socket closed";
                HandlerCalled "ui" (PStr "x")] w).
Proof. vm_compute. reflexivity. Qed.

(** A successful call completes its record in place. *)
Example call_tool_success_recorded :
  exists w,
    call_tool "s1" "echo" (PDict []) (secs 60) (Done (PStr "hi")) world_connected
    = (Ok (PDict [("success", PBool true); ("result", PStr "hi");
                  ("duration", PFloat (secs 1))]), w)
    /\ tool_call_history (manager w)
       = [PDict [("server_id", PStr "s1"); ("server_name", PStr "demo");
                 ("tool_name", PStr "echo"); ("arguments", PDict []);
                 ("timestamp", PStr "2"); ("status", PStr "completed");
                 ("result", PStr "hi"); ("duration", PFloat (secs 1))]].
Proof. eexists. split; vm_compute; reflexivity. Qed.

(** *** The general theorems at concrete inputs *)

(** C4 on a registered server that is not connected. *)
Lemma call_tool_rejected_without_effect_witness :
  (server_of "s1" world0 = None
   \/ exists server, server_of "s1" world0 = Some server
                     /\ status server <> "connected")
  /\ exists msg,
       call_tool "s1" "echo" (PDict []) (secs 60) (Done PNone) world0
         = (Ok (PDict [("error", PStr msg)]), world0)
       /\ (server_of "s1" world0 = None -> msg = "Server " ++ "s1" ++ " not found")
       /\ (forall server, server_of "s1" world0 = Some server ->
           msg = "Server " ++ py_str (name server) ++ " is not connected").
Proof.
  assert (H : server_of "s1" world0 = None
              \/ exists server, server_of "s1" world0 = Some server
                                /\ status server <> "connected").
  { right. exists demo_server. split; [reflexivity|discriminate]. }
  split; [exact H|].
  exact (call_tool_rejected_without_effect "s1" "echo" (PDict []) (secs 60)
           (Done PNone) world0 H).
Defined.

(** C5 on the connected sample server. *)
Lemma call_tool_timeout_recorded_witness :
  server_of "s1" world_connected = Some connected_server
  /\ status connected_server = "connected"
  /\ session connected_server = Some 0
  /\ call_tool "s1" "echo" (PDict []) (secs 60) TimesOut world_connected
     = (Ok (PDict [("success", PBool false);
                   ("error", PStr (tool_timeout_message (secs 60)))]),
        add_trace
          (delivery (registered "tool_call_start" world_connected)
             (PDict (executing_record "s1" connected_server "echo" (PDict [])
                       (now_at (ticks world_connected))))
           ++ [RemoteCall 0 "echo" (PDict []);
               Log "ERROR" ("Tool execution timed out after "
                            ++ float_str (secs 60) ++ " seconds: " ++ "echo")]
           ++ delivery (registered "tool_call_error" world_connected)
                (PDict (timed_out_record "s1" connected_server "echo" (PDict [])
                          (now_at (ticks world_connected)) (secs 60))))
          (with_manager
             (with_tool_call_history (fun h =>
                (h ++ [PDict (timed_out_record "s1" connected_server "echo"
                                (PDict []) (now_at (ticks world_connected))
                                (secs 60))])%list))
             (tick world_connected))).
Proof.
  assert (H : server_of "s1" world_connected = Some connected_server)
    by (vm_compute; reflexivity).
  split; [exact H|]. split; [reflexivity|]. split; [reflexivity|].
  exact (call_tool_timeout_recorded "s1" "echo" (PDict []) (secs 60)
           world_connected connected_server 0 H eq_refl eq_refl).
Defined.

(** C8 on the full descriptor. *)
Lemma add_server_round_trip_witness :
  dict_get "name" full_descriptor = Some (PStr "files")
  /\ dict_get "command" full_descriptor = Some (PList [PStr "npx"])
  /\ NoDup (dict_keys (servers (manager world0)))
  /\ exists w1 w2,
       add_server full_descriptor world0 = (Ok "uuid-0", w1)
       /\ server_of "uuid-0" w1
          = Some (added_server "uuid-0" full_descriptor (PStr "files")
                    (PList [PStr "npx"]))
       /\ load_config (restart w1) = (Ok tt, w2)
       /\ descriptors (servers (manager w2)) = descriptors (servers (manager w1)).
Proof.
  assert (Hnd : NoDup (dict_keys (servers (manager world0))))
    by (repeat constructor; intros []).
  split; [reflexivity|]. split; [reflexivity|]. split; [exact Hnd|].
  destruct (add_server_round_trip full_descriptor (PStr "files")
              (PList [PStr "npx"]) world0 eq_refl eq_refl Hnd)
    as (w1 & w2 & Hadd & Hentry & _ & _ & _ & Hload & Hdesc).
  exists w1, w2. repeat split; assumption.
Defined.

(** C9 on a dictionary without a name. *)
Lemma add_server_missing_field_witness :
  (dict_get "name" nameless_config = None
   \/ dict_get "command" nameless_config = None)
  /\ exists field,
       In field ["name"; "command"]
       /\ dict_get field nameless_config = None
       /\ mcp_routes.add_server nameless_config world_empty
          = (Ok (PDict [("success", PBool false);
                        ("error", PStr ("Missing required field: " ++ field))],
                 400), world_empty)
       /\ add_server nameless_config world_empty
          = (Raise (KeyError field), tick world_empty).
Proof.
  assert (H : dict_get "name" nameless_config = None
              \/ dict_get "command" nameless_config = None)
    by (left; reflexivity).
  split; [exact H|].
  exact (add_server_missing_field nameless_config world_empty H).
Defined.

(** C10 on arguments with a zero offset and a [None] limit. *)
Lemma filtered_client_witness :
  NoDup (dict_keys sample_arguments)
  /\ strands_mcp_agent.call_tool_sync (fun _ a => ret (PDict a)) "list_directory"
       sample_arguments world_empty
     = (Ok (PDict [("path", PStr "/tmp"); ("depth", PInt 0)]),
        add_trace
          [Log "INFO" "Filtering MCP sync call: list_directory";
           Log "INFO" "  Original: <value>";
           Log "INFO" "  Filtered: <value>"] world_empty).
Proof.
  assert (Hnd : NoDup (dict_keys sample_arguments)).
  { repeat constructor; simpl; intuition discriminate. }
  split; [exact Hnd|].
  destruct (filtered_client_drops_none_and_zero_offset pyval
              (fun _ a => ret (PDict a)) (fun _ _ a _ => ret a)
              "call-1" "list_directory" sample_arguments [] world_empty Hnd)
    as (Hsync & _).
  rewrite Hsync. reflexivity.
Defined.
End Concrete.


(** * Further properties of the manager *)

Lemma dict_set_set {V} (k : string) (v v' : V) (d : dict V) :
  dict_set k v' (dict_set k v d) = dict_set k v' d.
Proof.
  induction d as [|[k0 v0] r IH]; simpl.
  - now rewrite String.eqb_refl.
  - destruct (String.eqb k k0) eqn:E; simpl; rewrite ?String.eqb_refl, ?E;
      [reflexivity|now rewrite IH].
Qed.

Lemma dict_update_fuse {V} (k : string) (f g : V -> V) (d : dict V) :
  dict_update k g (dict_update k f d) = dict_update k (fun v => g (f v)) d.
Proof.
  unfold dict_update at 1. rewrite dict_get_update_same.
  unfold dict_update. destruct (dict_get k d) as [v|] eqn:E; simpl.
  - apply dict_set_set.
  - reflexivity.
Qed.

Lemma Forall_dict_set {V} (P : string * V -> Prop) (k : string) (v : V) (d : dict V) :
  Forall P d -> P (k, v) -> Forall P (dict_set k v d).
Proof.
  intros Hd Hv. induction d as [|[k0 v0] r IH]; simpl.
  - now constructor.
  - inversion Hd; subst. destruct (String.eqb k k0); constructor; auto.
Qed.

Lemma Forall_dict_del {V} (P : string * V -> Prop) (k : string) (d : dict V) :
  Forall P d -> Forall P (dict_del k d).
Proof.
  intros Hd. induction d as [|[k0 v0] r IH]; simpl; [constructor|].
  inversion Hd; subst. destruct (String.eqb k k0); [auto|constructor; auto].
Qed.

Lemma dict_get_In {V} (k : string) (d : dict V) (v : V) :
  dict_get k d = Some v -> In (k, v) d.
Proof.
  induction d as [|[k0 v0] r IH]; simpl; [discriminate|].
  destruct (String.eqb_spec k k0) as [->|Hne].
  - intros [= ->]. now left.
  - intros H. right. now apply IH.
Qed.

Lemma Forall_dict_update {V} (P : V -> Prop) (k : string) (f : V -> V) (d : dict V) :
  Forall (fun kv => P (snd kv)) d ->
  (forall v, P v -> P (f v)) ->
  Forall (fun kv => P (snd kv)) (dict_update k f d).
Proof.
  intros Hd Hf. unfold dict_update.
  destruct (dict_get k d) as [v|] eqn:E; [|exact Hd].
  apply Forall_dict_set; [exact Hd|]. simpl. apply Hf.
  apply dict_get_In in E. rewrite Forall_forall in Hd. exact (Hd _ E).
Qed.

Section RegistryInvariants.
Context {PF : PyFloat} {RT : Runtime}.
Import mcp_client.

Ltac registry_normal_form :=
  cbv [servers manager with_manager with_servers add_trace with_trace tick
       with_active_connections with_tool_call_history ticks agent disk trace];
  rewrite ?dict_update_fuse.

(** A connect attempt changes the registry only at the entry of its id,
    and leaves that entry either in state "error" with its tools as they
    were, or connected with session, timestamp and the listed tools. *)
Lemma connect_server_registry (server_id : string) (timeout : Float)
    (r : connect_run) (w : World) :
  exists F,
    servers (manager (snd (connect_server server_id timeout r w)))
    = dict_update server_id F (servers (manager w))
    /\ forall s, connect_effect s (F s).
Proof.
  destruct (server_of server_id w) as [server|] eqn:Hserver.
  - change (post (connect_server server_id timeout r) w (fun _ w' =>
      exists F,
        servers (manager w') = dict_update server_id F (servers (manager w))
        /\ forall s, connect_effect s (F s))).
    unfold connect_server.
    wp_step. wp_step. fold (server_of server_id w). rewrite Hserver. cbv beta iota.
    repeat (wp_step || wp_case ||
            lazymatch goal with
            | |- post (cleanup _ _) _ _ => apply post_cleanup; intros ? ?
            end).
    all: eexists; split; [registry_normal_form; reflexivity|].
    all: intros [? ? ? ? ? ? ? ? ? ? ? ? ? ?]; unfold connect_effect;
      cbv [set_status set_last_error set_session set_connected_at
           set_available_tools status available_tools session connected_at
           id name description command args env_vars enabled auto_connect
           category last_error];
      first [ left; split; reflexivity
            | right; split; [reflexivity|];
              split; [discriminate|]; split; [discriminate|];
              eexists; reflexivity ].
  - rewrite connect_server_unknown by exact Hserver.
    exists (set_status "error"). split.
    + cbv [snd]. unfold dict_update. unfold server_of in Hserver.
      cbv [servers manager add_trace with_trace] in *. fold (servers (manager w)).
      now rewrite Hserver.
    + intros s. left. destruct s; split; reflexivity.
Qed.

(** A disconnect leaves the registry as it was or resets the entry of its
    id. *)
Lemma disconnect_server_registry (server_id : string) (aclose : option exn)
    (w : World) :
  servers (manager (snd (disconnect_server server_id aclose w)))
    = servers (manager w)
  \/ servers (manager (snd (disconnect_server server_id aclose w)))
     = dict_update server_id disconnected_state (servers (manager w)).
Proof.
  change (post (disconnect_server server_id aclose) w (fun _ w' =>
    servers (manager w') = servers (manager w)
    \/ servers (manager w')
       = dict_update server_id disconnected_state (servers (manager w)))).
  unfold disconnect_server. wp_all; try (left; reflexivity).
  right. registry_normal_form. reflexivity.
Qed.

(** Saving never fails and changes only the disk and the clock. *)
Lemma save_entries_returns (items : dict MCPServer) (acc : dict pyval) (w : World) :
  exists acc', save_entries items acc w = (Ok acc', advance (length items) w).
Proof.
  revert acc w. induction items as [|[k s] rest IH]; intros acc w; simpl.
  - exists acc. destruct w; reflexivity.
  - unfold bind at 1, now, bind at 1, observe, ret at 1.
    destruct (IH (dict_set k (config_entry s (now_at (ticks w))) acc) (tick w))
      as (acc' & E).
    exists acc'. rewrite E, advance_tick. reflexivity.
Qed.

Lemma save_config_returns (w : World) :
  exists content,
    save_config w
    = (Ok tt, with_disk (Some content) (advance (S (length (servers (manager w)))) w)).
Proof.
  unfold save_config.
  unfold bind at 1, now, bind at 1, observe, ret at 1.
  unfold bind at 1, get. unfold bind at 1.
  change (servers (manager (tick w))) with (servers (manager w)).
  destruct (save_entries_returns (servers (manager w)) [] (tick w)) as (acc & E).
  rewrite E, advance_tick. eexists. reflexivity.
Qed.

Lemma update_server_registry (server_id : string) (server_config : dict pyval)
    (w : World) :
  servers (manager (snd (update_server server_id server_config w)))
  = dict_update server_id (update_fields server_config) (servers (manager w)).
Proof.
  unfold update_server, bind at 1, get.
  destruct (dict_mem server_id (servers (manager w))) eqn:Hmem; cbv [negb].
  - unfold bind, update_server_object, modify.
    destruct (save_config_returns
                (with_manager (with_servers
                   (dict_update server_id (update_fields server_config))) w))
      as (content & E).
    rewrite E. reflexivity.
  - unfold ret. cbv [snd]. unfold dict_update. unfold dict_mem in Hmem.
    destruct (dict_get server_id (servers (manager w))); [discriminate|reflexivity].
Qed.

Lemma entry_consistent_after_connect (s s' : MCPServer) :
  connect_effect s s' -> entry_consistent s'.
Proof.
  intros [[Herr _]|(Hst & Hse & Hat & _)].
  - right. right. exact Herr.
  - left. auto.
Qed.

(** The invariant of the data model holds for every consistent entry that
    is not in state "error". *)
Lemma consistent_entry_invariant (s : MCPServer) :
  entry_consistent s -> status s <> "error" -> registry_invariant s.
Proof.
  intros [(Hst & _ & Hat)|[(Hst & _ & Hat & Htools)|Herr]] Hne;
    [| |contradiction]; unfold registry_invariant; rewrite Hst.
  - split; [reflexivity|]. split; [reflexivity|intros _; exact Hat].
  - rewrite Hat, Htools. split; [intros H; now elim H|].
    split; [intros H; now elim H|discriminate].
Qed.

(** X1.  Between operations every registry entry is connected with a
    session and a timestamp, or disconnected with session, timestamp and
    tool list cleared, or in state "error": if that holds of every entry,
    it holds again after any [connect_server], [disconnect_server],
    [call_tool] or [update_server], whatever the outside does.  No entry
    ever gets another status, and every entry that is not in state "error"
    satisfies the invariant of the data model. *)
Theorem entries_stay_consistent (w : World)
    (Hw : every_entry entry_consistent w) :
  (forall server_id timeout r,
      every_entry entry_consistent (snd (connect_server server_id timeout r w)))
  /\ (forall server_id aclose,
      every_entry entry_consistent (snd (disconnect_server server_id aclose w)))
  /\ (forall server_id tool arguments timeout remote,
      every_entry entry_consistent
        (snd (call_tool server_id tool arguments timeout remote w)))
  /\ (forall server_id server_config,
      every_entry entry_consistent
        (snd (update_server server_id server_config w)))
  /\ (forall s, entry_consistent s -> status s <> "error" -> registry_invariant s).
Proof.
  unfold every_entry in *. split; [|split; [|split; [|split]]].
  - intros server_id timeout r.
    destruct (connect_server_registry server_id timeout r w) as (F & -> & HF).
    unfold dict_update.
    destruct (dict_get server_id (servers (manager w))) as [s|]; [|exact Hw].
    apply Forall_dict_set; [exact Hw|]. simpl.
    eapply entry_consistent_after_connect. apply HF.
  - intros server_id aclose.
    destruct (disconnect_server_registry server_id aclose w) as [->| ->];
      [exact Hw|].
    unfold dict_update.
    destruct (dict_get server_id (servers (manager w))) as [s|]; [|exact Hw].
    apply Forall_dict_set; [exact Hw|]. simpl.
    right. left. destruct s. repeat split.
  - intros. now rewrite call_tool_keeps_servers.
  - intros server_id server_config. rewrite update_server_registry.
    apply Forall_dict_update; [exact Hw|].
    intros s Hs. destruct s. exact Hs.
  - exact consistent_entry_invariant.
Qed.

Lemma tool_dict_well_formed (t : tool_info) : well_formed_tool (tool_dict t).
Proof. destruct t. repeat eexists. Qed.

Lemma tool_listing_run (server : MCPServer) (tool : pyval) (w : World) :
  well_formed_tool tool ->
  tool_listing server tool w = (Ok (listed_tool server tool), w).
Proof.
  intros (d & n & de & -> & Hn & Hde).
  unfold tool_listing, bind, item, subscript, as_dict, listed_tool, get_default.
  rewrite Hn, Hde. reflexivity.
Qed.

Lemma append_tools_run (server : MCPServer) (server_tools tools : list pyval)
    (w : World) :
  Forall well_formed_tool server_tools ->
  append_tools server server_tools tools w
  = (Ok (tools ++ map (listed_tool server) server_tools)%list, w).
Proof.
  intros Hwf. revert tools.
  induction Hwf as [|tool rest Htool _ IH]; intros tools; simpl.
  - now rewrite app_nil_r.
  - unfold bind. rewrite tool_listing_run by exact Htool.
    rewrite IH, <- app_assoc. reflexivity.
Qed.

Lemma collect_tools_run (values : list MCPServer) (tools : list pyval) (w : World) :
  Forall tools_well_formed values ->
  collect_tools values tools w = (Ok (tools ++ offered_tools values)%list, w).
Proof.
  intros Hwf. revert tools.
  induction Hwf as [|server rest Hserver _ IH]; intros tools; simpl.
  - now rewrite app_nil_r.
  - destruct (String.eqb (status server) "connected").
    + unfold bind. rewrite append_tools_run by exact Hserver.
      rewrite IH, <- app_assoc. reflexivity.
    + apply IH.
Qed.

(** X2.  When the tool descriptors held in the registry are readable (each
    is a dictionary with a name and a description, as [connect_server]
    builds them), [get_all_tools] returns, in registry order, one entry for
    every tool of every server whose status is "connected", tagged with the
    id and name of its server; servers in any other status contribute
    nothing, whatever their tool list holds.  The world is not changed. *)
Theorem get_all_tools_lists_connected_only (w : World)
    (Hw : every_entry tools_well_formed w) :
  get_all_tools w
  = (Ok (offered_tools (dict_values (servers (manager w)))), w).
Proof.
  unfold get_all_tools, bind, get.
  rewrite collect_tools_run; [reflexivity|].
  unfold every_entry in Hw. unfold dict_values.
  now apply Forall_map.
Qed.

(** X3.  The tool descriptors of the registry stay readable: if they are
    before a [connect_server], [disconnect_server], [call_tool] or
    [update_server], they are afterwards, so that [get_all_tools] keeps
    returning normally. *)
Theorem tools_stay_well_formed (w : World)
    (Hw : every_entry tools_well_formed w) :
  (forall server_id timeout r,
      every_entry tools_well_formed (snd (connect_server server_id timeout r w)))
  /\ (forall server_id aclose,
      every_entry tools_well_formed (snd (disconnect_server server_id aclose w)))
  /\ (forall server_id tool arguments timeout remote,
      every_entry tools_well_formed
        (snd (call_tool server_id tool arguments timeout remote w)))
  /\ (forall server_id server_config,
      every_entry tools_well_formed
        (snd (update_server server_id server_config w))).
Proof.
  unfold every_entry in *. split; [|split; [|split]].
  - intros server_id timeout r.
    destruct (connect_server_registry server_id timeout r w) as (F & -> & HF).
    apply Forall_dict_update; [exact Hw|].
    intros s Hs. unfold tools_well_formed in *.
    destruct (HF s) as [[_ ->]|(_ & _ & _ & tools & ->)]; [exact Hs|].
    apply Forall_map, Forall_forall. intros t _. apply tool_dict_well_formed.
  - intros server_id aclose.
    destruct (disconnect_server_registry server_id aclose w) as [->| ->];
      [exact Hw|].
    apply Forall_dict_update; [exact Hw|].
    intros s _. destruct s. constructor.
  - intros. now rewrite call_tool_keeps_servers.
  - intros server_id server_config. rewrite update_server_registry.
    apply Forall_dict_update; [exact Hw|].
    intros s Hs. destruct s. exact Hs.
Qed.
End RegistryInvariants.

Lemma dict_del_keys_subset {V} (k k' : string) (d : dict V) :
  In k' (dict_keys (dict_del k d)) -> In k' (dict_keys d).
Proof.
  induction d as [|[k0 v0] r IH]; simpl; [tauto|].
  destruct (String.eqb k k0); simpl; intuition.
Qed.

Lemma dict_del_keeps_NoDup {V} (k : string) (d : dict V) :
  NoDup (dict_keys d) -> NoDup (dict_keys (dict_del k d)).
Proof.
  induction d as [|[k0 v0] r IH]; simpl; [auto|].
  intros Hnd. inversion Hnd as [|? ? Hnotin Hnd']; subst.
  destruct (String.eqb k k0); [auto|]. simpl. constructor; [|auto].
  intros Hin. apply Hnotin. eapply dict_del_keys_subset. exact Hin.
Qed.

Lemma dict_update_keeps_NoDup {V} (k : string) (f : V -> V) (d : dict V) :
  NoDup (dict_keys d) -> NoDup (dict_keys (dict_update k f d)).
Proof.
  intros Hnd. unfold dict_update. destruct (dict_get k d); [|exact Hnd].
  now apply dict_set_keeps_NoDup.
Qed.

Section RegistryOperations.
Context {PF : PyFloat} {RT : Runtime}.
Import mcp_client.

(** [update_server] on an id that is not registered returns [False]
    and changes nothing: nothing is registered and nothing is written. *)
Lemma update_server_unknown_id (server_id : string) (server_config : dict pyval)
    (w : World)
    (Hunknown : server_of server_id w = None) :
  update_server server_id server_config w = (Ok false, w).
Proof.
  unfold server_of in Hunknown.
  unfold update_server, bind, get, dict_mem. now rewrite Hunknown.
Qed.

(** X4.  [update_server] on a registered id returns [True]; each of the
    eight configuration fields of the entry takes the value given in the
    dictionary, or keeps its value when the dictionary has no such key;
    the id and the runtime fields (session, tools, status, last error,
    connected-at) stay as they were, so a connected server stays connected
    under its new configuration; other entries and the active connections
    are untouched; and the configuration is persisted: loading it in a new
    process gives the updated descriptor set. *)
Theorem update_server_merges_fields (server_id : string)
    (server_config : dict pyval) (w : World) (s : MCPServer)
    (Hserver : server_of server_id w = Some s)
    (Hregistry : NoDup (dict_keys (servers (manager w)))) :
  exists w1 w2 s',
    update_server server_id server_config w = (Ok true, w1)
    /\ server_of server_id w1 = Some s'
    /\ descriptor s'
       = [get_default "name" (name s) server_config;
          get_default "description" (description s) server_config;
          get_default "command" (command s) server_config;
          get_default "args" (args s) server_config;
          get_default "env_vars" (env_vars s) server_config;
          get_default "enabled" (enabled s) server_config;
          get_default "auto_connect" (auto_connect s) server_config;
          get_default "category" (category s) server_config]
    /\ (id s', session s', available_tools s', status s', last_error s',
        connected_at s')
       = (id s, session s, available_tools s, status s, last_error s,
          connected_at s)
    /\ (forall other, other <> server_id -> server_of other w1 = server_of other w)
    /\ active_connections (manager w1) = active_connections (manager w)
    /\ load_config (restart w1) = (Ok tt, w2)
    /\ descriptors (servers (manager w2)) = descriptors (servers (manager w1)).
Proof.
  set (w0 := with_manager (with_servers
               (dict_update server_id (update_fields server_config))) w).
  assert (Hnd : NoDup (dict_keys (servers (manager w0))))
    by (apply dict_update_keeps_NoDup; exact Hregistry).
  destruct (save_then_reload w0 Hnd) as (w1 & w2 & Hsave & Hmgr & Hload & Hdesc).
  exists w1, w2, (update_fields server_config s).
  split.
  { unfold server_of in Hserver.
    unfold update_server, bind at 1, get, dict_mem. rewrite Hserver. cbv [negb].
    unfold bind, update_server_object, modify. fold w0. now rewrite Hsave. }
  split.
  { unfold server_of. rewrite Hmgr. unfold w0; simpl.
    rewrite dict_get_update_same. unfold server_of in Hserver.
    now rewrite Hserver. }
  split; [reflexivity|]. split; [reflexivity|].
  split.
  { intros other Hne. unfold server_of. rewrite Hmgr. unfold w0; simpl.
    now apply dict_get_update_other. }
  split; [now rewrite Hmgr|].
  split; [exact Hload|]. now rewrite Hmgr.
Qed.

(** X5.  [remove_server] on an id that is not registered returns without
    touching anything, and when scheduling the disconnect of a connected
    server raises, the exception leaves the method before anything is
    removed or written. *)
Theorem remove_server_without_effect (server_id : string)
    (create_task : option exn) (w : World) :
  (server_of server_id w = None ->
   remove_server server_id create_task w = (Ok false, w))
  /\ (forall e,
        server_of server_id w <> None ->
        dict_get server_id (active_connections (manager w)) <> None ->
        create_task = Some e ->
        remove_server server_id create_task w = (Raise e, w)).
Proof.
  unfold server_of, remove_server, bind, get, dict_mem. split.
  - intros Hnone. now rewrite Hnone.
  - intros e Hreg Hactive ->.
    destruct (dict_get server_id (servers (manager w))); [|contradiction].
    destruct (dict_get server_id (active_connections (manager w)));
      [reflexivity|contradiction].
Qed.

(** X6.  [remove_server] on a registered id whose disconnect, if one is
    needed, can be scheduled: the id is no longer registered, the other
    entries are as they were, a disconnect is scheduled exactly when the id
    has an active connection (which is still in the table when the method
    returns), and the configuration is persisted without the id: loading
    it in a new process gives the remaining descriptor set. *)
Theorem remove_server_removes (server_id : string) (create_task : option exn)
    (w : World) (s : MCPServer)
    (Hserver : server_of server_id w = Some s)
    (Htask : dict_get server_id (active_connections (manager w)) = None
             \/ create_task = None)
    (Hregistry : NoDup (dict_keys (servers (manager w)))) :
  exists w1 w2,
    remove_server server_id create_task w
      = (Ok (dict_mem server_id (active_connections (manager w))), w1)
    /\ server_of server_id w1 = None
    /\ (forall other, other <> server_id -> server_of other w1 = server_of other w)
    /\ active_connections (manager w1) = active_connections (manager w)
    /\ load_config (restart w1) = (Ok tt, w2)
    /\ descriptors (servers (manager w2))
       = descriptors (dict_del server_id (servers (manager w))).
Proof.
  set (w0 := with_manager (with_servers (dict_del server_id)) w).
  assert (Hnd : NoDup (dict_keys (servers (manager w0))))
    by (apply dict_del_keeps_NoDup; exact Hregistry).
  destruct (save_then_reload w0 Hnd) as (w1 & w2 & Hsave & Hmgr & Hload & Hdesc).
  exists w1, w2. split.
  { unfold server_of in Hserver.
    unfold remove_server, bind at 1, get. unfold dict_mem at 1. rewrite Hserver.
    unfold dict_mem.
    destruct (dict_get server_id (active_connections (manager w))) as [stack|].
    - destruct Htask as [Hno| ->]; [discriminate|].
      unfold bind, run, ret, modify. fold w0. now rewrite Hsave.
    - unfold bind, ret, modify. fold w0. now rewrite Hsave. }
  split.
  { unfold server_of. rewrite Hmgr. unfold w0; simpl. apply dict_get_del_same. }
  split.
  { intros other Hne. unfold server_of. rewrite Hmgr. unfold w0; simpl.
    now apply dict_get_del_other. }
  split; [now rewrite Hmgr|].
  split; [exact Hload|]. rewrite Hdesc. reflexivity.
Qed.
End RegistryOperations.

Lemma dict_mem_del {V} (k k' : string) (d : dict V) :
  dict_mem k' (dict_del k d) = if String.eqb k k' then false else dict_mem k' d.
Proof.
  unfold dict_mem. destruct (String.eqb_spec k k') as [->|Hne].
  - now rewrite dict_get_del_same.
  - now rewrite dict_get_del_other.
Qed.

Lemma dict_mem_keys {V} (k : string) (d : dict V) :
  existsb (String.eqb k) (dict_keys d) = dict_mem k d.
Proof.
  unfold dict_mem. induction d as [|[k0 v0] r IH]; simpl; [reflexivity|].
  destruct (String.eqb k k0); [reflexivity|exact IH].
Qed.

Lemma dict_del_key_gone {V} (k k' : string) (d : dict V) :
  In k' (dict_keys (dict_del k d)) -> k' <> k /\ In k' (dict_keys d).
Proof.
  induction d as [|[k0 v0] r IH]; simpl; [tauto|].
  destruct (String.eqb_spec k k0) as [->|Hne]; simpl.
  - intros H. destruct (IH H). auto.
  - intros [<-|H]; [auto|]. destruct (IH H). auto.
Qed.

Lemma delete_all_keys {V} (ks : list string) (d : dict V) :
  (forall k, In k (dict_keys d) -> In k ks) ->
  fold_left (fun acc k => dict_del k acc) ks d = [].
Proof.
  revert d. induction ks as [|k ks IH]; intros d Hsub; simpl.
  - destruct d as [|[k0 v0] r]; [reflexivity|]. exfalso. apply (Hsub k0). now left.
  - apply IH. intros k' Hk'. apply dict_del_key_gone in Hk'.
    destruct Hk' as [Hne Hin]. destruct (Hsub k' Hin) as [<-|H]; [congruence|exact H].
Qed.

Section Cleanup.
Context {PF : PyFloat} {RT : Runtime}.
Import mcp_client.

Lemma disconnect_server_returns (server_id : string) (aclose : option exn)
    (w : World) :
  exists w', disconnect_server server_id aclose w = (Ok tt, w').
Proof.
  assert (H : post (disconnect_server server_id aclose) w (fun r _ => r = Ok tt)).
  { unfold disconnect_server. wp_all; reflexivity. }
  unfold post in H. destruct (disconnect_server server_id aclose w) as [r w'].
  simpl in H. subst r. now exists w'.
Qed.

(** A disconnect whose close returns: what it does to the two tables. *)
Lemma disconnect_closed_effect (server_id : string) (w : World) :
  exists w',
    disconnect_server server_id None w = (Ok tt, w')
    /\ active_connections (manager w')
       = dict_del server_id (active_connections (manager w))
    /\ servers (manager w')
       = (if dict_mem server_id (active_connections (manager w))
          then dict_update server_id disconnected_state (servers (manager w))
          else servers (manager w)).
Proof.
  unfold dict_mem.
  destruct (dict_get server_id (active_connections (manager w))) as [stack|] eqn:E.
  - eexists. split; [|split].
    + apply post_result. unfold disconnect_server. wp. rewrite E. wp.
      split; reflexivity.
    + reflexivity.
    + cbv [servers manager with_manager with_servers add_trace with_trace
           with_active_connections ticks agent disk trace].
      now rewrite !dict_update_fuse.
  - exists w. split; [now apply disconnect_without_connection|].
    split; [now rewrite dict_del_absent|reflexivity].
Qed.

Lemma disconnect_each_returns (aclose : string -> option exn) (ks : list string)
    (w : World) :
  exists w',
    for_each ks (fun server_id => disconnect_server server_id (aclose server_id)) w
    = (Ok tt, w').
Proof.
  revert w. induction ks as [|k ks IH]; intros w; simpl.
  - now exists w.
  - unfold bind.
    destruct (disconnect_server_returns k (aclose k) w) as (w1 & ->).
    apply IH.
Qed.

Lemma disconnect_each_closed (ks : list string) (w : World) :
  exists w',
    for_each ks (fun server_id => disconnect_server server_id None) w = (Ok tt, w')
    /\ active_connections (manager w')
       = fold_left (fun acc k => dict_del k acc) ks (active_connections (manager w))
    /\ forall server_id,
         server_of server_id w'
         = if existsb (String.eqb server_id) ks
              && dict_mem server_id (active_connections (manager w))
           then option_map disconnected_state (server_of server_id w)
           else server_of server_id w.
Proof.
  revert w. induction ks as [|k ks IH]; intros w; simpl.
  - exists w. repeat split.
  - unfold bind.
    destruct (disconnect_closed_effect k w) as (w1 & -> & Hactive & Hservers).
    destruct (IH w1) as (w' & Hrun & Hactive' & Hservers').
    exists w'. split; [exact Hrun|]. split; [now rewrite Hactive', Hactive|].
    intros server_id. rewrite Hservers', Hactive, dict_mem_del.
    unfold server_of. rewrite Hservers.
    rewrite (String.eqb_sym server_id k).
    destruct (String.eqb_spec k server_id) as [->|Hne]; simpl.
    + rewrite andb_false_r.
      destruct (dict_mem server_id (active_connections (manager w)));
        [apply dict_get_update_same|reflexivity].
    + destruct (dict_mem k (active_connections (manager w)));
        [rewrite dict_get_update_other by exact Hne|]; reflexivity.
Qed.

(** X7.  The manager's [cleanup] never raises, whatever closing the exit
    stacks does.  When every close returns, no active connection is left
    afterwards, every registered server that had one is in the state a
    disconnect leaves (status "disconnected", no session, timestamp or
    tools), and the other entries are as they were. *)
Theorem cleanup_disconnects_everything (aclose : string -> option exn) (w : World) :
  exists w',
    cleanup_connections aclose w = (Ok tt, w')
    /\ ((forall server_id, aclose server_id = None) ->
        active_connections (manager w') = []
        /\ forall server_id,
             server_of server_id w'
             = if dict_mem server_id (active_connections (manager w))
               then option_map disconnected_state (server_of server_id w)
               else server_of server_id w).
Proof.
  unfold cleanup_connections, bind, get.
  destruct (disconnect_each_returns aclose
              (dict_keys (active_connections (manager w))) w) as (w' & Hrun).
  exists w'. split; [exact Hrun|].
  intros Hclose.
  destruct (disconnect_each_closed (dict_keys (active_connections (manager w))) w)
    as (w'' & Hrun' & Hactive & Hservers).
  assert (Hext : forall ks w0,
             for_each ks (fun server_id => disconnect_server server_id (aclose server_id)) w0
             = for_each ks (fun server_id => disconnect_server server_id None) w0).
  { induction ks as [|k ks IH]; intros w0; simpl; [reflexivity|].
    unfold bind. rewrite Hclose.
    destruct (disconnect_server k None w0) as [[[]|e] w1]; [apply IH|reflexivity]. }
  rewrite Hext, Hrun' in Hrun. injection Hrun as <-.
  split.
  - rewrite Hactive. now apply delete_all_keys.
  - intros server_id. rewrite Hservers, dict_mem_keys.
    now destruct (dict_mem server_id (active_connections (manager w))).
Qed.
End Cleanup.

Lemma dict_get_of_key {V} (k : string) (d : dict V) :
  In k (dict_keys d) -> exists v, dict_get k d = Some v.
Proof.
  induction d as [|[k0 v0] r IH]; simpl; [tauto|].
  destruct (String.eqb_spec k k0) as [->|Hne]; [eauto|].
  intros [E|Hin]; [congruence|auto].
Qed.

Lemma dict_get_NoDup {V} (k : string) (v : V) (d : dict V) :
  NoDup (dict_keys d) -> In (k, v) d -> dict_get k d = Some v.
Proof.
  induction d as [|[k0 v0] r IH]; simpl; [tauto|].
  intros Hnd. inversion Hnd as [|? ? Hnotin Hnd']; subst.
  intros [[= -> ->]|Hin].
  - now rewrite String.eqb_refl.
  - destruct (String.eqb_spec k k0) as [->|Hne]; [|auto].
    exfalso. apply Hnotin. change k0 with (fst (k0, v)). now apply in_map.
Qed.

Section Listing.
Context {PF : PyFloat} {RT : Runtime}.
Import mcp_client.

(** X8.  Registering a handler appends it to the handlers of its event
    type and touches nothing else: the handlers of other types and the
    rest of the manager stay as they were, and publishing an event of the
    type afterwards delivers to the earlier handlers first and to the new
    one last. *)
Theorem on_event_appends_handler (event_type : string) (cb : callback) (w : World) :
  exists w1,
    on_event event_type cb w = (Ok tt, w1)
    /\ registered event_type w1 = (registered event_type w ++ [cb])%list
    /\ (forall other, other <> event_type ->
          registered other w1 = registered other w)
    /\ (servers (manager w1), active_connections (manager w1),
        tool_call_history (manager w1))
       = (servers (manager w), active_connections (manager w),
          tool_call_history (manager w))
    /\ forall data,
         _trigger_event event_type data w1
         = (Ok tt,
            add_trace (delivery (registered event_type w ++ [cb]) data) w1).
Proof.
  eexists. split; [reflexivity|].
  assert (Hreg : registered event_type
                   (with_manager (with_event_callbacks (fun d =>
                      let d' := if dict_mem event_type d then d
                                else dict_set event_type [] d in
                      match dict_get event_type d' with
                      | Some l => dict_set event_type (l ++ [cb])%list d'
                      | None => d'
                      end)) w)
                 = (registered event_type w ++ [cb])%list).
  { unfold registered, dict_mem; simpl.
    destruct (dict_get event_type (event_callbacks (manager w))) as [l|] eqn:E.
    - rewrite E. now rewrite dict_get_set_same.
    - rewrite dict_get_set_same. rewrite dict_set_set.
      now rewrite dict_get_set_same. }
  split; [exact Hreg|]. split.
  { intros other Hne. unfold registered, dict_mem; simpl.
    destruct (dict_get event_type (event_callbacks (manager w))) as [l|] eqn:E.
    - rewrite E. now rewrite dict_get_set_other by congruence.
    - rewrite dict_get_set_same, dict_set_set.
      now rewrite dict_get_set_other by congruence. }
  split; [reflexivity|].
  intros data. rewrite trigger_event_run. now rewrite Hreg.
Qed.

(** X9.  On a registry without duplicate ids, the listing of all servers
    has exactly one status entry per registered server, in registration
    order; it never contains the "Server not found" answer. *)
Theorem get_all_servers_lists_registry (m : MCPClientManager)
    (Hregistry : NoDup (dict_keys (servers m))) :
  get_all_servers m = map (fun kv => server_status_dict (snd kv)) (servers m)
  /\ Forall (fun entry => dict_get "error" entry = None) (get_all_servers m).
Proof.
  assert (E : get_all_servers m
              = map (fun kv => server_status_dict (snd kv)) (servers m)).
  { unfold get_all_servers, dict_keys. rewrite map_map.
    apply map_ext_in. intros [k s] Hin. unfold get_server_status; simpl.
    now rewrite (dict_get_NoDup k s (servers m) Hregistry Hin). }
  split; [exact E|]. rewrite E.
  apply Forall_map, Forall_forall. intros [k s] _. reflexivity.
Qed.

(** Saving and loading in a new process: the registry that comes back. *)
Lemma save_then_reload_servers (w : World) :
  NoDup (dict_keys (servers (manager w))) ->
  exists w1 w2,
    save_config w = (Ok tt, w1)
    /\ load_config (restart w1) = (Ok tt, w2)
    /\ servers (manager w2) = map reloaded (servers (manager w))
    /\ active_connections (manager w2) = []
    /\ tool_call_history (manager w2) = [].
Proof.
  intros Hnd. eexists. eexists. split; [now apply save_config_run|].
  unfold load_config, restart. unfold bind at 1, get. cbn [disk with_disk].
  unfold bind at 1, as_dict, ret at 1. unfold bind at 1.
  cbn [get_default dict_get String.eqb Ascii.eqb Bool.eqb].
  unfold ret at 1.
  split; [apply load_entries_run; [exact Hnd|intros k _ []]|].
  repeat split.
Qed.

(** X10.  A restart forgets all runtime state.  After saving the
    configuration and loading it in a new process, the same ids are
    registered in the same order, and every entry, also of a server that was
    connected or in state "error", is "disconnected" with no session, no
    tools, no stored error and no timestamp, under an id field equal to its
    key; there are no active connections and the call history is empty. *)
Theorem restart_forgets_runtime_state (w : World)
    (Hregistry : NoDup (dict_keys (servers (manager w)))) :
  exists w1 w2,
    save_config w = (Ok tt, w1)
    /\ load_config (restart w1) = (Ok tt, w2)
    /\ dict_keys (servers (manager w2)) = dict_keys (servers (manager w))
    /\ Forall (fun kv =>
         id (snd kv) = fst kv
         /\ status (snd kv) = "disconnected"
         /\ session (snd kv) = None
         /\ available_tools (snd kv) = []
         /\ last_error (snd kv) = None
         /\ connected_at (snd kv) = None) (servers (manager w2))
    /\ active_connections (manager w2) = []
    /\ tool_call_history (manager w2) = [].
Proof.
  destruct (save_then_reload_servers w Hregistry)
    as (w1 & w2 & Hsave & Hload & Hservers & Hactive & Hhistory).
  exists w1, w2. split; [exact Hsave|]. split; [exact Hload|].
  rewrite Hservers. split.
  { unfold dict_keys. rewrite map_map. apply map_ext. now intros [k s]. }
  split; [|split; [exact Hactive|exact Hhistory]].
  apply Forall_map, Forall_forall. intros [k s] _. repeat split.
Qed.
End Listing.

Section InvocationRecords.
Context {PF : PyFloat} {RT : Runtime}.
Import mcp_client.

(** X11.  Every call that is accepted (registered server, status
    "connected", a session) returns a result dictionary and never raises,
    whatever the remote call does.  It appends exactly one record to the
    history and leaves the earlier records as they were; when it returns,
    that record is in a final status, "completed" if the remote call
    returned and "failed" if it timed out or raised, and carries a
    duration, so no record stays in status "executing".  The [success]
    flag of the result agrees with the status, and the registry and the
    active connections are not touched. *)
Theorem call_tool_leaves_terminal_record
    (server_id tool : string) (arguments : pyval) (timeout : Float)
    (remote : outcome pyval) (w : World) (server : MCPServer) (sess : nat)
    (Hserver : server_of server_id w = Some server)
    (Hstatus : status server = "connected")
    (Hsession : session server = Some sess) :
  exists fields record w',
    call_tool server_id tool arguments timeout remote w = (Ok (PDict fields), w')
    /\ dict_get "success" fields
       = Some (PBool (match remote with Done _ => true | _ => false end))
    /\ tool_call_history (manager w')
       = (tool_call_history (manager w) ++ [PDict record])%list
    /\ dict_get "status" record
       = Some (PStr (match remote with Done _ => "completed" | _ => "failed" end))
    /\ (exists d, dict_get "duration" record = Some (PFloat d))
    /\ dict_get "tool_name" record = Some (PStr tool)
    /\ dict_get "arguments" record = Some arguments
    /\ servers (manager w') = servers (manager w)
    /\ active_connections (manager w') = active_connections (manager w).
Proof.
  unfold server_of in Hserver.
  destruct remote as [result| |msg]; eexists; eexists; eexists.
  all: split;
    [ apply post_result; unfold call_tool;
      wp; rewrite Hserver, Hstatus, Hsession, String.eqb_refl;
      wp; simpl; wp; split; reflexivity | ].
  all: split; [reflexivity|].
  all: split;
    [ destruct w as [[sv ac h ec] ag dk tk tr];
      cbv [add_trace with_trace with_manager with_tool_call_history tick
           manager tool_call_history registered event_callbacks];
      rewrite list_store_last; reflexivity | ].
  all: repeat split; try reflexivity; eexists; reflexivity.
Qed.
End InvocationRecords.

Section ConnectOutcomes.
Context {PF : PyFloat} {RT : Runtime}.
Import mcp_client.

(** A run without failure has an importable SDK and every stage done. *)
Lemma successful_run (timeout : Float) (r : connect_run) :
  connect_failure_message timeout r = None ->
  sdk_import r = true /\ prepare r = None /\ transport r = Done tt
  /\ client_session r = Done tt /\ initialize r = Done tt
  /\ exists tools, list_tools r = Done tools.
Proof.
  unfold connect_failure_message, first_failure.
  destruct r as [imp prep tr cs ini lt cl]; simpl.
  destruct imp; [|discriminate]. simpl.
  destruct prep as [[]|]; try discriminate.
  destruct tr as [[]| |]; try discriminate.
  destruct cs as [[]| |]; try discriminate.
  destruct ini as [[]| |]; try discriminate.
  destruct lt as [tools| |]; try discriminate.
  intros _. repeat split. now exists tools.
Qed.

(** X12.  A connect attempt on a registered server in which no stage
    fails returns [True] and leaves the entry connected: status
    "connected", the session of the exit stack it has just created, the
    clock reading as connected-at and the listed tools as tool cache, with
    id, configuration and stored error as before.  The new exit stack is
    the active connection of the id, other entries are untouched, the
    status listing of the id shows the new state, and the handlers of
    [server_connected] receive the id and the tools after the four
    transport steps and the log line. *)
Theorem connect_server_success_state (server_id : string) (timeout : Float)
    (r : connect_run) (w : World) (s : MCPServer) (tools : list tool_info)
    (Hserver : server_of server_id w = Some s)
    (Hok : connect_failure_message timeout r = None)
    (Htools : list_tools r = Done tools) :
  exists w' s',
    connect_server server_id timeout r w = (Ok true, w')
    /\ server_of server_id w' = Some s'
    /\ (status s', session s', connected_at s', available_tools s')
       = ("connected", Some (ticks w), Some (now_at (S (ticks w))),
          map tool_dict tools)
    /\ (id s', descriptor s', last_error s') = (id s, descriptor s, last_error s)
    /\ dict_get server_id (active_connections (manager w')) = Some (ticks w)
    /\ (forall other, other <> server_id -> server_of other w' = server_of other w)
    /\ get_server_status (manager w') server_id = server_status_dict s'
    /\ trace w'
       = (trace w
          ++ [TransportLaunch (ticks w) server_id; SessionOpen (ticks w);
              SessionInitialize (ticks w); ListTools (ticks w);
              Log "INFO" ("Connected to MCP server: " ++ py_str (name s)
                          ++ " with " ++ str_nat (length tools) ++ " tools")]
          ++ delivery (registered "server_connected" w)
               (PDict [("server_id", PStr server_id);
                       ("tools", PList (map tool_dict tools))]))%list.
Proof.
  destruct (successful_run timeout r Hok)
    as (Himp & Hprep & Htr & Hcs & Hini & _).
  assert (Hrun : exists w',
    connect_server server_id timeout r w = (Ok true, w')
    /\ servers (manager w')
       = dict_update server_id
           (fun v => set_available_tools (map tool_dict tools)
              (set_connected_at (Some (now_at (S (ticks w))))
                 (set_status "connected" (set_session (Some (ticks w)) v))))
           (servers (manager w))
    /\ active_connections (manager w')
       = dict_set server_id (ticks w) (active_connections (manager w))
    /\ trace w'
       = (trace w
          ++ [TransportLaunch (ticks w) server_id; SessionOpen (ticks w);
              SessionInitialize (ticks w); ListTools (ticks w);
              Log "INFO" ("Connected to MCP server: " ++ py_str (name s)
                          ++ " with " ++ str_nat (length tools) ++ " tools")]
          ++ delivery (registered "server_connected" w)
               (PDict [("server_id", PStr server_id);
                       ("tools", PList (map tool_dict tools))]))%list).
  { eexists. split.
    - apply post_result. unfold connect_server.
      wp_step. wp_step. fold (server_of server_id w). rewrite Hserver.
      cbv beta iota. rewrite Himp, Hprep, Htr, Hcs, Hini, Htools.
      cbv [negb]. wp. split; reflexivity.
    - split; [|split].
      + cbv [servers manager with_manager with_servers add_trace with_trace tick
             with_active_connections ticks agent disk trace].
        now rewrite !dict_update_fuse.
      + reflexivity.
      + destruct w as [[sv ac h ec] ag dk tk tr0].
        cbv [add_trace with_trace with_manager with_servers tick
             with_active_connections manager trace registered event_callbacks
             ticks].
        now rewrite <- !app_assoc. }
  destruct Hrun as (w' & Hrun & Hservers & Hactive & Htrace).
  unfold server_of in Hserver.
  assert (Hs' : dict_get server_id (servers (manager w'))
                = Some (set_available_tools (map tool_dict tools)
                          (set_connected_at (Some (now_at (S (ticks w))))
                             (set_status "connected"
                                (set_session (Some (ticks w)) s)))))
    by (rewrite Hservers, dict_get_update_same, Hserver; reflexivity).
  eexists w', _. split; [exact Hrun|]. split; [exact Hs'|].
  split; [reflexivity|]. split; [reflexivity|].
  split; [rewrite Hactive; apply dict_get_set_same|].
  split.
  { intros other Hne. unfold server_of. rewrite Hservers.
    apply dict_get_update_other. congruence. }
  split; [unfold get_server_status; now rewrite Hs'|exact Htrace].
Qed.




End ConnectOutcomes.


(** * Further properties of the agent *)

Section AgentSessions.
Context {PF : PyFloat} {RT : Runtime}.
Import mcp_client.

Lemma post_const {A} (x : res A) w (Q : res A -> World -> Prop) :
  Q x w -> post (fun w0 => (x, w0)) w Q.
Proof. exact (fun H => H). Qed.

Ltac wp_agent :=
  repeat (wp_step || wp_case ||
          lazymatch goal with
          | |- post (fun w0 => (_, w0)) _ _ => apply post_const
          | |- post (as_dict _) _ _ => unfold as_dict
          | |- post (strands_mcp_agent.set_connected_server _ _) _ _ =>
              unfold strands_mcp_agent.set_connected_server
          end).

(** An agent-side connect of a configured server that has no client yet
    and a non-empty command. *)
Lemma agent_connect_run (server_id : string) (r : strands_mcp_agent.client_run)
    (w : World) (cfg : dict pyval) :
  dict_get server_id (mcp_servers (agent w)) = Some (PDict cfg) ->
  dict_get server_id (mcp_clients (agent w)) = None ->
  truthy (get_default "command" (PList []) cfg) = true ->
  exists w',
    strands_mcp_agent.connect_server server_id r w
    = (Ok (match agent_failure r with None => true | Some _ => false end), w')
    /\ manager w' = manager w
    /\ mcp_servers (agent w') = mcp_servers (agent w)
    /\ match agent_failure r with
       | None =>
           exists n,
             strands_mcp_agent.tools_listed r = Ok n
             /\ mcp_clients (agent w')
                = dict_set server_id (ticks w) (mcp_clients (agent w))
             /\ connected_servers (agent w')
                = dict_set server_id (connected_info server_id cfg n)
                    (connected_servers (agent w))
             /\ trace w'
                = (trace w
                   ++ [ClientStarted (ticks w) server_id;
                       ClientStopped (ticks w);
                       Log "INFO" ("Connected to "
                                   ++ py_str (get_default "name" (PStr server_id) cfg)
                                   ++ ": " ++ str_nat n ++ " tools available")])%list
       | Some e =>
           mcp_clients (agent w') = mcp_clients (agent w)
           /\ connected_servers (agent w')
              = dict_set server_id (error_info server_id cfg e)
                  (connected_servers (agent w))
       end.
Proof.
  intros Hcfg Hnew Hcmd.
  assert (Hpost : post (strands_mcp_agent.connect_server server_id r) w
    (fun res w' =>
      res = Ok (match agent_failure r with None => true | Some _ => false end)
      /\ manager w' = manager w
      /\ mcp_servers (agent w') = mcp_servers (agent w)
      /\ match agent_failure r with
         | None =>
             exists n,
               strands_mcp_agent.tools_listed r = Ok n
               /\ mcp_clients (agent w')
                  = dict_set server_id (ticks w) (mcp_clients (agent w))
               /\ connected_servers (agent w')
                  = dict_set server_id (connected_info server_id cfg n)
                      (connected_servers (agent w))
               /\ trace w'
                  = (trace w
                     ++ [ClientStarted (ticks w) server_id;
                         ClientStopped (ticks w);
                         Log "INFO" ("Connected to "
                                     ++ py_str (get_default "name" (PStr server_id) cfg)
                                     ++ ": " ++ str_nat n ++ " tools available")])%list
         | Some e =>
             mcp_clients (agent w') = mcp_clients (agent w)
             /\ connected_servers (agent w')
                = dict_set server_id (error_info server_id cfg e)
                    (connected_servers (agent w))
         end)).
  { destruct w as [mg [ms mc cs] dk tk tr]. simpl in Hcfg, Hnew.
    unfold strands_mcp_agent.connect_server.
    wp_step. wp_step. cbn [agent mcp_servers mcp_clients].
    rewrite Hcfg. unfold dict_mem. rewrite Hnew. cbv beta iota.
    wp_step. wp_step. unfold as_dict at 1. wp_step. rewrite Hcmd. cbv [negb].
    unfold agent_failure.
    destruct r as [pe cstart tl]; cbn [strands_mcp_agent.prepare_env
      strands_mcp_agent.client_start strands_mcp_agent.tools_listed].
    destruct pe as [e1|]; [|destruct cstart as [e2|]; [|destruct tl as [n|e3]]].
    all: wp_agent.
    all: split; [reflexivity|]; split; [reflexivity|]; split; [reflexivity|].
    all: try (split; reflexivity).
    exists n. split; [reflexivity|]. split; [reflexivity|]. split; [reflexivity|].
    cbv [add_trace with_trace with_agent trace]. now rewrite <- !app_assoc. }
  unfold post in Hpost.
  destruct (strands_mcp_agent.connect_server server_id r w) as [res w'].
  simpl in Hpost. destruct Hpost as (-> & Hm & Hs & Hrest).
  exists w'. auto.
Qed.

(** X14.  The agent's [connect_server] on a configured server that has no
    client yet and a non-empty command returns [True] exactly when
    preparing the environment, starting the client and listing the tools
    all succeed.  On success the id gets a client and a "connected" record
    with the tool count, and the client that was started for the test has
    been stopped again.  On failure the id gets no client and an "error"
    record with the exception text.  The records and clients of other ids,
    the configurations and the manager are untouched either way. *)
Theorem agent_connect_outcomes (server_id : string)
    (r : strands_mcp_agent.client_run) (w : World) (cfg : dict pyval)
    (Hconfigured : dict_get server_id (mcp_servers (agent w)) = Some (PDict cfg))
    (Hnew : dict_get server_id (mcp_clients (agent w)) = None)
    (Hcommand : truthy (get_default "command" (PList []) cfg) = true) :
  exists w',
    strands_mcp_agent.connect_server server_id r w
    = (Ok (match agent_failure r with None => true | Some _ => false end), w')
    /\ manager w' = manager w
    /\ mcp_servers (agent w') = mcp_servers (agent w)
    /\ (forall other, other <> server_id ->
          dict_get other (mcp_clients (agent w'))
          = dict_get other (mcp_clients (agent w))
          /\ dict_get other (connected_servers (agent w'))
             = dict_get other (connected_servers (agent w)))
    /\ match agent_failure r with
       | None =>
           exists n,
             strands_mcp_agent.tools_listed r = Ok n
             /\ dict_get server_id (mcp_clients (agent w')) = Some (ticks w)
             /\ dict_get server_id (connected_servers (agent w'))
                = Some (connected_info server_id cfg n)
             /\ trace w'
                = (trace w
                   ++ [ClientStarted (ticks w) server_id;
                       ClientStopped (ticks w);
                       Log "INFO" ("Connected to "
                                   ++ py_str (get_default "name" (PStr server_id) cfg)
                                   ++ ": " ++ str_nat n ++ " tools available")])%list
       | Some e =>
           dict_get server_id (mcp_clients (agent w')) = None
           /\ dict_get server_id (connected_servers (agent w'))
              = Some (error_info server_id cfg e)
       end.
Proof.
  destruct (agent_connect_run server_id r w cfg Hconfigured Hnew Hcommand)
    as (w' & Hrun & Hm & Hs & Hrest).
  exists w'. split; [exact Hrun|]. split; [exact Hm|]. split; [exact Hs|].
  destruct (agent_failure r) as [e|].
  - destruct Hrest as (Hclients & Hconn). rewrite Hclients, Hconn. split.
    + intros other Hne. split; [reflexivity|].
      apply dict_get_set_other. congruence.
    + split; [exact Hnew|apply dict_get_set_same].
  - destruct Hrest as (n & Hn & Hclients & Hconn & Htrace).
    rewrite Hclients, Hconn. split.
    + intros other Hne.
      split; apply dict_get_set_other; congruence.
    + exists n. split; [exact Hn|].
      split; [apply dict_get_set_same|].
      split; [apply dict_get_set_same|exact Htrace].
Qed.

(** X15.  The agent's [connect_server] refuses without starting anything:
    for an id that is not configured, and for a configured id whose command
    is missing or empty, it returns [False] and only writes a log line; no
    client is started and no record is made.  For an id that already has a
    client it returns [True], again after a log line only. *)
Theorem agent_connect_refused (server_id : string)
    (r : strands_mcp_agent.client_run) (w : World) :
  (dict_get server_id (mcp_servers (agent w)) = None ->
   strands_mcp_agent.connect_server server_id r w
   = (Ok false,
      add_trace [Log "ERROR" ("Server " ++ server_id
                              ++ " not found in configuration")] w))
  /\ (forall cfg,
        dict_get server_id (mcp_servers (agent w)) = Some (PDict cfg) ->
        dict_get server_id (mcp_clients (agent w)) = None ->
        truthy (get_default "command" (PList []) cfg) = false ->
        strands_mcp_agent.connect_server server_id r w
        = (Ok false,
           add_trace [Log "ERROR" ("No command specified for server "
                                   ++ server_id)] w))
  /\ (forall config client,
        dict_get server_id (mcp_servers (agent w)) = Some config ->
        dict_get server_id (mcp_clients (agent w)) = Some client ->
        strands_mcp_agent.connect_server server_id r w
        = (Ok true,
           add_trace [Log "INFO" ("Server " ++ server_id
                                  ++ " already connected")] w)).
Proof.
  split; [|split].
  - intros Hnone. unfold strands_mcp_agent.connect_server, bind, get.
    cbv beta iota. now rewrite Hnone.
  - intros cfg Hcfg Hnew Hcmd.
    unfold strands_mcp_agent.connect_server, bind, get, dict_mem, try_except,
      as_dict, ret.
    cbv beta iota. rewrite Hcfg, Hnew. cbv beta iota. rewrite Hcmd. reflexivity.
  - intros config client Hcfg Hclient.
    unfold strands_mcp_agent.connect_server, bind, get, dict_mem.
    cbv beta iota. now rewrite Hcfg, Hclient.
Qed.

(** X16.  The agent's [disconnect_server] always returns [True].  For an
    id that has a client it removes the client and the status record of the
    id and leaves everything else; for an id without a client it changes
    nothing at all, so the "error" record of a failed connect stays.  After
    it the id has no client, and a second disconnect changes nothing. *)
Theorem agent_disconnect_forgets_client (server_id : string) (w : World) :
  exists w',
    strands_mcp_agent.disconnect_server server_id w = (Ok true, w')
    /\ dict_get server_id (mcp_clients (agent w')) = None
    /\ (dict_get server_id (mcp_clients (agent w)) = None -> w' = w)
    /\ (dict_get server_id (mcp_clients (agent w)) <> None ->
        dict_get server_id (connected_servers (agent w')) = None)
    /\ (forall other, other <> server_id ->
          dict_get other (mcp_clients (agent w'))
          = dict_get other (mcp_clients (agent w))
          /\ dict_get other (connected_servers (agent w'))
             = dict_get other (connected_servers (agent w)))
    /\ mcp_servers (agent w') = mcp_servers (agent w)
    /\ manager w' = manager w
    /\ strands_mcp_agent.disconnect_server server_id w' = (Ok true, w').
Proof.
  destruct w as [mg [ms mc cs] dk tk tr]. cbn [agent mcp_clients manager].
  destruct (dict_get server_id mc) as [client|] eqn:Hclient.
  - assert (Hrun : exists w',
      strands_mcp_agent.disconnect_server server_id
        (mkWorld mg (mkAgent ms mc cs) dk tk tr) = (Ok true, w')
      /\ manager w' = mg
      /\ mcp_servers (agent w') = ms
      /\ mcp_clients (agent w') = dict_del server_id mc
      /\ connected_servers (agent w') = dict_del server_id cs).
    { destruct (dict_get server_id cs) as [info|] eqn:Hinfo.
      all: eexists; split;
        [ apply post_result; unfold strands_mcp_agent.disconnect_server;
          wp_step; wp_step; cbn [agent mcp_clients]; unfold dict_mem at 1;
          rewrite Hclient; cbv beta iota;
          wp_step; wp_step; wp_step; wp_step; wp_step;
          cbn [agent with_agent connected_servers mcp_servers mcp_clients];
          unfold dict_mem; rewrite Hinfo; wp; split; reflexivity
        | cbn; repeat split; now rewrite ?dict_del_absent ]. }
    destruct Hrun as (w' & Hrun & Hm & Hs & Hc & Hcs).
    exists w'. split; [exact Hrun|]. rewrite Hm, Hs, Hc, Hcs.
    split; [apply dict_get_del_same|].
    split; [discriminate|].
    split; [intros _; apply dict_get_del_same|].
    split.
    { intros other Hne. split; apply dict_get_del_other; congruence. }
    split; [reflexivity|]. split; [reflexivity|].
    unfold strands_mcp_agent.disconnect_server, bind at 1, get.
    unfold dict_mem. cbv beta iota. rewrite Hc, dict_get_del_same. reflexivity.
  - assert (Hrun : strands_mcp_agent.disconnect_server server_id
                     (mkWorld mg (mkAgent ms mc cs) dk tk tr)
                   = (Ok true, mkWorld mg (mkAgent ms mc cs) dk tk tr)).
    { unfold strands_mcp_agent.disconnect_server, bind at 1, get.
      unfold dict_mem. cbv beta iota. cbn [agent mcp_clients].
      now rewrite Hclient. }
    eexists. split; [exact Hrun|]. cbn.
    repeat split; try exact Hclient; try contradiction. exact Hrun.
Qed.

(** The status endpoint on an id that has a status record. *)
Lemma status_route_with_record (all_servers : M pyval) (server_id : string)
    (w : World) (info : dict pyval) :
  server_id <> "" ->
  dict_get server_id (connected_servers (agent w)) = Some (PDict info) ->
  mcp_routes.get_server_status all_servers server_id w
  = (Ok (match dict_get "error" info with
         | Some err => (PDict [("success", PBool false); ("error", err)], 404)
         | None => (PDict [("success", PBool true); ("status", PDict info)], 200)
         end), w).
Proof.
  intros Hid Hinfo.
  unfold mcp_routes.get_server_status, strands_mcp_agent.get_server_status,
    try_except, bind, get.
  destruct (String.eqb_spec server_id "") as [E|_]; [contradiction|].
  rewrite Hinfo. unfold ret. now destruct (dict_get "error" info).
Qed.

(** X17.  What the status endpoint answers for a non-empty id.  After an
    agent-side connect that failed it answers 404 with the text of the
    failure, although the server is configured; after one that succeeded
    it answers 200 with the "connected" record and its tool count.  For a
    configured server without a record it answers 200 with the configured
    name and status "disconnected", and for an id that is neither recorded
    nor configured 404 "Server not found".  The endpoint changes nothing. *)
Theorem status_route_answers (all_servers : M pyval) (server_id : string)
    (r : strands_mcp_agent.client_run) (w : World)
    (Hid : server_id <> "") :
  (forall cfg,
      dict_get server_id (mcp_servers (agent w)) = Some (PDict cfg) ->
      dict_get server_id (mcp_clients (agent w)) = None ->
      truthy (get_default "command" (PList []) cfg) = true ->
      let w' := snd (strands_mcp_agent.connect_server server_id r w) in
      mcp_routes.get_server_status all_servers server_id w'
      = (Ok (match agent_failure r, strands_mcp_agent.tools_listed r with
             | Some e, _ =>
                 (PDict [("success", PBool false); ("error", PStr (exn_str e))],
                  404)
             | None, Ok n =>
                 (PDict [("success", PBool true);
                         ("status", connected_info server_id cfg n)], 200)
             | None, Raise e =>
                 (PDict [("success", PBool false); ("error", PStr (exn_str e))],
                  404)
             end), w'))
  /\ (forall cfg,
        dict_get server_id (connected_servers (agent w)) = None ->
        dict_get server_id (mcp_servers (agent w)) = Some (PDict cfg) ->
        mcp_routes.get_server_status all_servers server_id w
        = (Ok (PDict [("success", PBool true);
                      ("status",
                       PDict [("name", get_default "name" (PStr server_id) cfg);
                              ("status", PStr "disconnected")])], 200), w))
  /\ (dict_get server_id (connected_servers (agent w)) = None ->
      dict_get server_id (mcp_servers (agent w)) = None ->
      mcp_routes.get_server_status all_servers server_id w
      = (Ok (PDict [("success", PBool false);
                    ("error", PStr "Server not found")], 404), w)).
Proof.
  split; [|split].
  - intros cfg Hcfg Hnew Hcmd w'.
    destruct (agent_connect_run server_id r w cfg Hcfg Hnew Hcmd)
      as (w1 & Hrun & _ & _ & Hrest).
    subst w'. rewrite Hrun. cbn [snd].
    destruct (agent_failure r) as [e|].
    + destruct Hrest as (_ & Hconn).
      rewrite (status_route_with_record all_servers server_id w1
                 [("name", get_default "name" (PStr ("Server " ++ server_id)) cfg);
                  ("status", PStr "error");
                  ("error", PStr (exn_str e))] Hid)
        by (rewrite Hconn; apply dict_get_set_same).
      reflexivity.
    + destruct Hrest as (n & Hn & _ & Hconn & _). rewrite Hn.
      rewrite (status_route_with_record all_servers server_id w1
                 [("name", get_default "name" (PStr ("Server " ++ server_id)) cfg);
                  ("description", get_default "description" (PStr "") cfg);
                  ("status", PStr "connected");
                  ("tools_count", PInt (Z.of_nat n))] Hid)
        by (rewrite Hconn; apply dict_get_set_same).
      reflexivity.
  - intros cfg Hnone Hcfg.
    unfold mcp_routes.get_server_status, strands_mcp_agent.get_server_status,
      try_except, bind, get, as_dict.
    destruct (String.eqb_spec server_id "") as [E|_]; [contradiction|].
    now rewrite Hnone, Hcfg.
  - intros Hnone Hcfg.
    unfold mcp_routes.get_server_status, strands_mcp_agent.get_server_status,
      try_except, bind, get.
    destruct (String.eqb_spec server_id "") as [E|_]; [contradiction|].
    now rewrite Hnone, Hcfg.
Qed.
End AgentSessions.


Lemma dict_set_keeps_known {V} (k k' : string) (v : V) (d : dict V) :
  dict_get k' d <> None -> dict_get k' (dict_set k v d) <> None.
Proof.
  intros Hk. destruct (String.eqb_spec k k') as [->|Hne].
  - now rewrite dict_get_set_same.
  - now rewrite dict_get_set_other.
Qed.

Lemma dict_get_absent_key {V} (k : string) (d : dict V) :
  ~ In k (dict_keys d) -> dict_get k d = None.
Proof.
  intros Hnotin. destruct (dict_get k d) as [v|] eqn:E; [|reflexivity].
  exfalso. apply Hnotin. eapply dict_get_In_keys. exact E.
Qed.

Section AgentConfigurations.
Context {PF : PyFloat} {RT : Runtime}.
Import mcp_client.

Lemma log_run (level msg : string) (w : World) :
  log level msg w = (Ok tt, add_trace [Log level msg] w).
Proof. apply emit_run. Qed.

Lemma configs_extended_refl (w : World) : configs_extended w w.
Proof. unfold configs_extended. auto. Qed.

Lemma configs_extended_trans (w1 w2 w3 : World) :
  configs_extended w1 w2 -> configs_extended w2 w3 -> configs_extended w1 w3.
Proof.
  intros (Hm & Hd & Hc & Hs & Hk) (Hm' & Hd' & Hc' & Hs' & Hk').
  unfold configs_extended. rewrite Hm', Hd', Hc', Hs'.
  split; [exact Hm|]. split; [exact Hd|]. split; [exact Hc|].
  split; [exact Hs|]. intros server_id Hknown. apply Hk', Hk, Hknown.
Qed.

Lemma configs_extended_log (level msg : string) (w : World) :
  configs_extended w (add_trace [Log level msg] w).
Proof. unfold configs_extended. auto. Qed.

(** The body of the loading loop of the agent, for any list of entries. *)
Lemma agent_load_entries (items : dict pyval) (w : World) :
  exists r w',
    for_each items (fun entry =>
      server_config <- as_dict (snd entry) ;;
      if truthy (get_default "enabled" (PBool true) server_config) then
        modify (with_agent (fun a =>
          mkAgent (dict_set (fst entry) (snd entry) (mcp_servers a))
            (mcp_clients a) (connected_servers a))) ;;
        log "INFO" ("Loaded config for: "
                    ++ py_str (get_default "name" (PStr (fst entry)) server_config))
      else ret tt) w = (r, w')
    /\ configs_extended w w'
    /\ (Forall (fun kv => exists cfg, snd kv = PDict cfg) items ->
        r = Ok tt
        /\ mcp_servers (agent w') = fold_left load_step items (mcp_servers (agent w))).
Proof.
  revert w. induction items as [|[k v] rest IH]; intros w.
  - exists (Ok tt), w. split; [reflexivity|].
    split; [apply configs_extended_refl|]. intros _. split; reflexivity.
  - cbn [for_each fst snd]. unfold bind at 1.
    destruct v as [| | | | |l|cfg];
      try (eexists; eexists; split; [reflexivity|];
           split; [apply configs_extended_refl|];
           intros Hwf; inversion Hwf as [|? ? [cfg' Hcfg'] _]; discriminate).
    unfold bind at 1, as_dict, ret at 1.
    destruct (truthy (get_default "enabled" (PBool true) cfg)) eqn:Hen.
    + unfold bind at 1, modify, log. rewrite emit_run.
      destruct (IH (add_trace
                  [Log "INFO" ("Loaded config for: "
                               ++ py_str (get_default "name" (PStr k) cfg))]
                  (with_agent (fun a =>
                     mkAgent (dict_set k (PDict cfg) (mcp_servers a))
                       (mcp_clients a) (connected_servers a)) w)))
        as (r & w' & Hrun & Hext & Hwf).
      exists r, w'. split; [exact Hrun|]. split.
      * eapply configs_extended_trans; [|exact Hext].
        unfold configs_extended. cbn. repeat split.
        intros server_id. apply dict_set_keeps_known.
      * intros Hall. inversion Hall; subst.
        destruct (Hwf H2) as (-> & Hfold). split; [reflexivity|].
        rewrite Hfold. cbn [fold_left].
        replace (load_step (mcp_servers (agent w)) (k, PDict cfg))
          with (dict_set k (PDict cfg) (mcp_servers (agent w)))
          by (unfold load_step, enabled_config; cbn [fst snd]; now rewrite Hen).
        destruct w; reflexivity.
    + destruct (IH w) as (r & w' & Hrun & Hext & Hwf).
      exists r, w'. split; [exact Hrun|]. split; [exact Hext|].
      intros Hall. inversion Hall; subst.
      destruct (Hwf H2) as (-> & Hfold). split; [reflexivity|].
      rewrite Hfold. cbn [fold_left].
      replace (load_step (mcp_servers (agent w)) (k, PDict cfg))
        with (mcp_servers (agent w))
        by (unfold load_step, enabled_config; cbn [fst snd]; now rewrite Hen).
      reflexivity.
Qed.

(** The agent's reload, on any disk content. *)
Lemma agent_reload_run (w : World) :
  exists w',
    strands_mcp_agent.load_mcp_server_configs w = (Ok tt, w')
    /\ configs_extended w w'
    /\ forall file active,
         disk w = Some (PDict file) ->
         dict_get "active_servers" file = Some (PDict active) ->
         Forall (fun kv => exists cfg, snd kv = PDict cfg) active ->
         mcp_servers (agent w') = fold_left load_step active (mcp_servers (agent w)).
Proof.
  unfold strands_mcp_agent.load_mcp_server_configs, bind at 1, get.
  destruct (disk w) as [config|] eqn:Hdisk.
  2:{ eexists. split; [reflexivity|].
      split; [apply configs_extended_log|]. intros file active [=]. }
  unfold try_except, bind at 1, as_dict at 1.
  destruct config as [| | | | |l|file];
    try (eexists; split; [reflexivity|];
         split; [apply configs_extended_log|]; intros ? ? [=]).
  unfold ret at 1, bind at 1, as_dict at 1.
  destruct (get_default "active_servers" (PDict []) file) as [| | | | |l|active] eqn:Hactive;
    try (eexists; split; [reflexivity|];
         split; [apply configs_extended_log|];
         intros file' active' [= <-] Hget; unfold get_default in Hactive;
         rewrite Hget in Hactive; discriminate).
  unfold ret at 1, bind at 1. rewrite log_run.
  destruct (agent_load_entries active
              (add_trace [Log "INFO" ("Loaded " ++ str_nat (length active)
                                      ++ " MCP server configurations")] w))
    as (r & w' & Hrun & Hext & Hwf).
  rewrite Hrun.
  destruct r as [[]|e].
  - exists w'. split; [reflexivity|]. split.
    + eapply configs_extended_trans; [apply configs_extended_log|exact Hext].
    + intros file' active' [= <-] Hget Hall. unfold get_default in Hactive.
      rewrite Hget in Hactive. injection Hactive as <-.
      now destruct (Hwf Hall).
  - eexists. split; [unfold log; rewrite emit_run; reflexivity|]. split.
    + eapply configs_extended_trans;
        [eapply configs_extended_trans;
         [apply configs_extended_log|exact Hext]|apply configs_extended_log].
    + intros file' active' [= <-] Hget Hall. unfold get_default in Hactive.
      rewrite Hget in Hactive. injection Hactive as <-.
      destruct (Hwf Hall) as [[=] _].
Qed.

(** X18.  The agent's reload of the configuration file never raises,
    whatever the file holds, and only adds: the manager, the disk, the
    clients and the status records stay as they are, and every id the agent
    knew before it still knows afterwards, also when the file no longer
    lists it.  When the file lists dictionaries only, the configurations
    afterwards are the earlier ones with every entry whose [enabled] is
    true or absent written over them in file order; entries with a false
    [enabled] are skipped. *)
Theorem agent_reload_only_adds (w : World) :
  exists w',
    strands_mcp_agent.load_mcp_server_configs w = (Ok tt, w')
    /\ manager w' = manager w
    /\ disk w' = disk w
    /\ mcp_clients (agent w') = mcp_clients (agent w)
    /\ connected_servers (agent w') = connected_servers (agent w)
    /\ (forall server_id,
          dict_get server_id (mcp_servers (agent w)) <> None ->
          dict_get server_id (mcp_servers (agent w')) <> None)
    /\ forall file active,
         disk w = Some (PDict file) ->
         dict_get "active_servers" file = Some (PDict active) ->
         Forall (fun kv => exists cfg, snd kv = PDict cfg) active ->
         mcp_servers (agent w') = fold_left load_step active (mcp_servers (agent w)).
Proof.
  destruct (agent_reload_run w) as (w' & Hrun & (Hm & Hd & Hc & Hs & Hk) & Hwf).
  exists w'. auto 10.
Qed.
End AgentConfigurations.

Section RoutesAndAgent.
Context {PF : PyFloat} {RT : Runtime}.
Import mcp_client.

Lemma fold_load_step_lookup (items acc : dict pyval) (server_id : string) :
  NoDup (dict_keys items) ->
  dict_get server_id (fold_left load_step items acc)
  = match dict_get server_id items with
    | Some v => if enabled_config v then Some v else dict_get server_id acc
    | None => dict_get server_id acc
    end.
Proof.
  revert acc. induction items as [|[k v] rest IH]; intros acc Hnd; [reflexivity|].
  inversion Hnd as [|k0 ks Hnotin Hnd' E]; subst.
  cbn [fold_left dict_get]. rewrite IH by exact Hnd'.
  unfold load_step; cbn [fst snd].
  destruct (String.eqb_spec server_id k) as [->|Hne].
  - rewrite (dict_get_absent_key k rest Hnotin).
    destruct (enabled_config v); [apply dict_get_set_same|reflexivity].
  - destruct (enabled_config v); [|reflexivity].
    rewrite dict_get_set_other by congruence. reflexivity.
Qed.

Lemma stamped_lookup (items : dict MCPServer) (n : nat) (server_id : string) :
  match dict_get server_id items with
  | Some s => exists t, dict_get server_id (stamped items n) = Some (config_entry s t)
  | None => dict_get server_id (stamped items n) = None
  end.
Proof.
  revert n. induction items as [|[k s] rest IH]; intros n; [reflexivity|].
  cbn [stamped dict_get]. destruct (String.eqb server_id k).
  - now exists (now_at n).
  - apply IH.
Qed.

Lemma stamped_dictionaries (items : dict MCPServer) (n : nat) :
  Forall (fun kv => exists cfg, snd kv = PDict cfg) (stamped items n).
Proof.
  revert n. induction items as [|[k s] rest IH]; intros n; constructor.
  - cbn [snd]. unfold config_entry. eexists. reflexivity.
  - apply IH.
Qed.

Lemma enabled_config_entry (s : MCPServer) (t : DateTime) :
  enabled_config (config_entry s t) = truthy (enabled s).
Proof. reflexivity. Qed.

(** Saving the registry and reloading the agent: what the agent holds
    afterwards for each id. *)
Lemma agent_reload_after_save (w : World) :
  NoDup (dict_keys (servers (manager w))) ->
  exists w1 w2,
    save_config w = (Ok tt, w1)
    /\ strands_mcp_agent.load_mcp_server_configs w1 = (Ok tt, w2)
    /\ manager w2 = manager w
    /\ mcp_clients (agent w2) = mcp_clients (agent w)
    /\ connected_servers (agent w2) = connected_servers (agent w)
    /\ forall server_id,
         match server_of server_id w with
         | Some s =>
             if truthy (enabled s)
             then exists t, dict_get server_id (mcp_servers (agent w2))
                            = Some (config_entry s t)
             else dict_get server_id (mcp_servers (agent w2))
                  = dict_get server_id (mcp_servers (agent w))
         | None => dict_get server_id (mcp_servers (agent w2))
                   = dict_get server_id (mcp_servers (agent w))
         end.
Proof.
  intros Hnd. pose proof (save_config_run w Hnd) as Hsave.
  set (w1 := with_disk _ _) in Hsave.
  destruct (agent_reload_run w1) as (w2 & Hrun & (Hm & Hd & Hc & Hs & Hk) & Hwf).
  specialize (Hwf _ (stamped (servers (manager w)) (S (ticks w)))
                eq_refl eq_refl (stamped_dictionaries _ _)).
  exists w1, w2. split; [exact Hsave|]. split; [exact Hrun|].
  split; [exact Hm|]. split; [exact Hc|]. split; [exact Hs|].
  intros server_id. rewrite Hwf.
  rewrite fold_load_step_lookup by (rewrite stamped_keys; exact Hnd).
  change (mcp_servers (agent w1)) with (mcp_servers (agent w)).
  unfold server_of.
  pose proof (stamped_lookup (servers (manager w)) (S (ticks w)) server_id) as Hlook.
  destruct (dict_get server_id (servers (manager w))) as [s|].
  - destruct Hlook as (t & ->). rewrite enabled_config_entry.
    destruct (truthy (enabled s)); [now exists t|reflexivity].
  - now rewrite Hlook.
Qed.

Lemma required_fields_present (data : dict pyval) (name' command' : pyval) :
  dict_get "name" data = Some name' ->
  dict_get "command" data = Some command' ->
  mcp_routes.first_missing ["name"; "command"] data = None.
Proof.
  intros Hname Hcommand. unfold mcp_routes.first_missing, dict_mem.
  now rewrite Hname, Hcommand.
Qed.

(** X19.  A [POST /servers] whose body has a name and a command is
    answered with 200 and the generated id; the manager then holds the new
    entry.  The agent, reloaded from the file that was just written, holds
    the persisted form of the entry under the new id when the descriptor
    is enabled ([enabled] true or absent); when it is not, the agent holds
    for that id what it held before.  The agent's clients and status
    records are as before. *)
Theorem added_server_reaches_agent (data : dict pyval) (name' command' : pyval)
    (w : World)
    (Hname : dict_get "name" data = Some name')
    (Hcommand : dict_get "command" data = Some command')
    (Hregistry : NoDup (dict_keys (servers (manager w)))) :
  let server_id := uuid4_at (ticks w) in
  let server := added_server server_id data name' command' in
  exists w',
    mcp_routes.add_server data w
    = (Ok (PDict [("success", PBool true);
                  ("server_id", PStr server_id);
                  ("message", PStr ("Server '" ++ py_str name'
                                    ++ "' added successfully"))], 200), w')
    /\ server_of server_id w' = Some server
    /\ mcp_clients (agent w') = mcp_clients (agent w)
    /\ connected_servers (agent w') = connected_servers (agent w)
    /\ if truthy (get_default "enabled" (PBool true) data)
       then exists t, dict_get server_id (mcp_servers (agent w'))
                      = Some (config_entry server t)
       else dict_get server_id (mcp_servers (agent w'))
            = dict_get server_id (mcp_servers (agent w)).
Proof.
  intros server_id server.
  set (w0 := with_manager (with_servers (dict_set server_id server)) (tick w)).
  assert (Hnd : NoDup (dict_keys (servers (manager w0))))
    by (apply dict_set_keeps_NoDup; exact Hregistry).
  destruct (agent_reload_after_save w0 Hnd)
    as (w1 & w2 & Hsave & Hload & Hm & Hc & Hs & Hagent).
  exists w2. split.
  { unfold mcp_routes.add_server.
    rewrite (required_fields_present _ _ _ Hname Hcommand).
    unfold try_except, bind at 1.
    rewrite (add_server_run _ _ _ _ Hname Hcommand). cbv zeta.
    fold server_id. fold server. fold w0. rewrite Hsave.
    unfold bind at 1. rewrite Hload.
    unfold bind, subscript. rewrite Hname. reflexivity. }
  split.
  { unfold server_of. rewrite Hm. apply dict_get_set_same. }
  split; [exact Hc|]. split; [exact Hs|].
  specialize (Hagent server_id). unfold server_of in Hagent.
  replace (dict_get server_id (servers (manager w0))) with (Some server) in Hagent
    by (symmetry; apply dict_get_set_same).
  exact Hagent.
Qed.

(** X20.  A [PUT /servers/<id>] that is refused changes nothing.  When the
    body lacks a required field the answer is 400 and names the first
    missing one in the order name, command, whether or not the id is
    registered; when the body is complete and the id is not registered
    the answer is 404.  In both cases the registry, the agent and the
    configuration file are as before and nothing is logged. *)
Theorem update_route_refusals (server_id : string) (data : dict pyval) (w : World) :
  (forall field,
     mcp_routes.first_missing ["name"; "command"] data = Some field ->
     mcp_routes.update_server server_id data w
     = (Ok (PDict [("success", PBool false);
                   ("error", PStr ("Missing required field: " ++ field))], 400), w)
     /\ (field = "name" /\ dict_get "name" data = None
         \/ field = "command" /\ dict_get "name" data <> None
                              /\ dict_get "command" data = None))
  /\ (mcp_routes.first_missing ["name"; "command"] data = None ->
      server_of server_id w = None ->
      mcp_routes.update_server server_id data w
      = (Ok (PDict [("success", PBool false);
                    ("error", PStr "Server not found")], 404), w)).
Proof.
  split.
  - intros field Hmissing. split.
    + unfold mcp_routes.update_server. now rewrite Hmissing.
    + unfold mcp_routes.first_missing, dict_mem in Hmissing.
      destruct (dict_get "name" data); cbv [negb] in Hmissing.
      * destruct (dict_get "command" data); cbv [negb] in Hmissing;
          [discriminate|].
        injection Hmissing as <-. right. repeat split. discriminate.
      * injection Hmissing as <-. left. now split.
  - intros Hpresent Hunknown. unfold server_of in Hunknown.
    unfold mcp_routes.update_server. rewrite Hpresent.
    unfold try_except, bind at 1, update_server, bind at 1, get, dict_mem.
    now rewrite Hunknown.
Qed.

(** X21.  A [PUT /servers/<id>] with a complete body for a registered id
    is answered with 200; the entry takes the given fields and keeps its
    runtime fields.  The reloaded agent holds the persisted form of the
    updated entry when the entry is enabled after the update.  When the
    update disables the entry, the agent keeps whatever configuration it
    held for the id before: the reload only adds, so a server that was
    loaded earlier stays known to the agent after it is disabled. *)
Theorem updated_server_reaches_agent (server_id : string) (data : dict pyval)
    (name' command' : pyval) (s : MCPServer) (w : World)
    (Hname : dict_get "name" data = Some name')
    (Hcommand : dict_get "command" data = Some command')
    (Hserver : server_of server_id w = Some s)
    (Hregistry : NoDup (dict_keys (servers (manager w)))) :
  exists w',
    mcp_routes.update_server server_id data w
    = (Ok (PDict [("success", PBool true);
                  ("message", PStr ("Server '" ++ py_str name'
                                    ++ "' updated successfully"))], 200), w')
    /\ server_of server_id w' = Some (update_fields data s)
    /\ (forall other, other <> server_id -> server_of other w' = server_of other w)
    /\ mcp_clients (agent w') = mcp_clients (agent w)
    /\ connected_servers (agent w') = connected_servers (agent w)
    /\ if truthy (get_default "enabled" (enabled s) data)
       then exists t, dict_get server_id (mcp_servers (agent w'))
                      = Some (config_entry (update_fields data s) t)
       else dict_get server_id (mcp_servers (agent w'))
            = dict_get server_id (mcp_servers (agent w)).
Proof.
  set (w0 := with_manager (with_servers
               (dict_update server_id (update_fields data))) w).
  assert (Hnd : NoDup (dict_keys (servers (manager w0))))
    by (apply dict_update_keeps_NoDup; exact Hregistry).
  destruct (agent_reload_after_save w0 Hnd)
    as (w1 & w2 & Hsave & Hload & Hm & Hc & Hs & Hagent).
  unfold server_of in Hserver.
  assert (Hget : dict_get server_id (servers (manager w0))
                 = Some (update_fields data s)).
  { unfold w0; simpl. rewrite dict_get_update_same. now rewrite Hserver. }
  exists w2. split.
  { unfold mcp_routes.update_server.
    rewrite (required_fields_present _ _ _ Hname Hcommand).
    unfold try_except, bind at 1, update_server, bind at 1, get, dict_mem.
    rewrite Hserver. cbv [negb].
    unfold bind at 1, update_server_object, modify. fold w0.
    unfold bind at 1. rewrite Hsave. unfold ret at 1. cbv [negb].
    unfold bind at 1. rewrite Hload.
    unfold bind, subscript. rewrite Hname. reflexivity. }
  split; [unfold server_of; rewrite Hm; exact Hget|].
  split.
  { intros other Hne. unfold server_of. rewrite Hm. unfold w0; simpl.
    now apply dict_get_update_other. }
  split; [exact Hc|]. split; [exact Hs|].
  specialize (Hagent server_id). unfold server_of in Hagent.
  rewrite Hget in Hagent. exact Hagent.
Qed.
End RoutesAndAgent.

Section Conversation.
Context {PF : PyFloat} {RT : Runtime}.
Import strands_mcp_agent.



Lemma exchanges_even (h : list pyval) :
  exchanges h -> exists k, length h = 2 * k.
Proof.
  induction 1 as [|message response t1 t2 rest _ [k Hk]].
  - now exists 0.
  - exists (S k). cbn [length]. lia.
Qed.

Lemma exchanges_app (h : list pyval) (message response : string) (t1 t2 : DateTime) :
  exchanges h ->
  exchanges (h ++ [history_entry "user" message t1;
                   history_entry "assistant" response t2]).
Proof.
  induction 1 as [|m r u1 u2 rest _ IH]; cbn [app].
  - constructor. constructor.
  - constructor. exact IH.
Qed.

Lemma exchanges_skipn_even (k : nat) (h : list pyval) :
  exchanges h -> exchanges (skipn (2 * k) h).
Proof.
  revert h. induction k as [|k IH]; intros h Hh; [exact Hh|].
  replace (2 * S k) with (S (S (2 * k))) by lia.
  destruct Hh as [|m r u1 u2 rest Hrest]; [constructor|].
  cbn [skipn]. now apply IH.
Qed.

Lemma exchanges_lines (h : list pyval) :
  exchanges h -> Forall (fun entry => exists line, history_line entry = Ok line) h.
Proof.
  induction 1 as [|m r u1 u2 rest _ IH]; constructor; [|constructor].
  - eexists. reflexivity.
  - eexists. reflexivity.
  - exact IH.
Qed.

Lemma history_lines_total (entries : list pyval) :
  Forall (fun entry => exists line, history_line entry = Ok line) entries ->
  exists lines, history_lines entries = Ok lines /\ length lines = length entries.
Proof.
  induction 1 as [|entry rest [line Hline] _ (lines & Hlines & Hlen)].
  - now exists [].
  - exists (line :: lines). cbn [history_lines]. rewrite Hline, Hlines.
    cbn [length]. now rewrite Hlen.
Qed.

Lemma recent_history_suffix (h : list pyval) :
  exists dropped, h = (dropped ++ recent_history h)%list
                  /\ length (recent_history h) = Nat.min 10 (length h).
Proof.
  unfold recent_history. destruct (Nat.ltb_spec 10 (length h)).
  - exists (firstn (length h - 10) h). rewrite firstn_skipn, length_skipn.
    split; [reflexivity|lia].
  - exists []. split; [reflexivity|lia].
Qed.

Lemma count_role_exchanges (h : list pyval) :
  exchanges h ->
  count_role "user" h = Ok (Nat.div2 (length h))
  /\ count_role "assistant" h = Ok (Nat.div2 (length h)).
Proof.
  induction 1 as [|m r u1 u2 rest _ [IHu IHa]]; [split; reflexivity|].
  unfold history_entry. cbn [count_role dict_get length Nat.div2].
  change ("role" =? "role")%string with true. cbv iota.
  rewrite IHu, IHa. split; reflexivity.
Qed.

(** X23.  The history that [chat] and [clear_history] build is a sequence
    of whole exchanges of at most 50 entries, and both methods keep it so:
    the cut to the last 40 entries never splits an exchange.  On such a
    history the two counters of [get_conversation_stats] agree, each being
    half the number of entries; the prompt is always built, from the last
    ten entries at most; so [chat] answers with [success] true whenever the
    agent call itself does not raise. *)
Theorem chat_keeps_whole_exchanges (agent_call : string -> res (option string))
    (tool_guidance message : string) (system_prompt : option string)
    (st : ChatState)
    (Hinv : chat_invariant st) :
  let h := conversation_history st in
  chat_invariant (snd (chat agent_call tool_guidance message system_prompt st))
  /\ chat_invariant (clear_history st)
  /\ count_role "user" h = Ok (Nat.div2 (length h))
  /\ count_role "assistant" h = Ok (Nat.div2 (length h))
  /\ (exists lines, history_lines (recent_history h) = Ok lines
                    /\ length lines = Nat.min 10 (length h))
  /\ ((forall prompt, exists response, agent_call prompt = Ok response) ->
      exists text t,
        fst (chat agent_call tool_guidance message system_prompt st)
        = PDict [("success", PBool true);
                 ("content", PStr text);
                 ("timestamp", PStr (isoformat t))]).
Proof.
  destruct Hinv as [Hex Hlen]. cbv zeta.
  assert (Hlines : exists lines,
             history_lines (recent_history (conversation_history st)) = Ok lines
             /\ length lines = Nat.min 10 (length (conversation_history st))).
  { destruct (recent_history_suffix (conversation_history st))
      as (dropped & Hsplit & Hrecent).
    destruct (history_lines_total (recent_history (conversation_history st)))
      as (lines & Hrun & Hcount).
    - pose proof (exchanges_lines _ Hex) as Hall.
      rewrite Hsplit in Hall. now apply Forall_app in Hall.
    - exists lines. split; [exact Hrun|]. now rewrite Hcount. }
  split.
  { unfold chat. destruct Hlines as (lines & -> & _).
    destruct (agent_call _) as [response|e]; [|split; assumption].
    cbn [snd]. unfold chat_invariant. cbn [conversation_history].
    match goal with
    | |- context [trim_history (_ ++ [history_entry _ _ ?t1;
                                      history_entry _ ?text ?t2])] =>
        pose proof (exchanges_app _ message text t1 t2 Hex) as Happ
    end.
    destruct (exchanges_even _ Happ) as [k Hk].
    unfold trim_history.
    match goal with
    | |- context [Nat.ltb 50 (length ?l)] =>
        destruct (Nat.ltb_spec 50 (length l)) as [Hlong|Hshort]
    end.
    - rewrite length_app in *. cbn [length] in *.
      replace (length (conversation_history st) + 2 - 40) with (2 * 6) by lia.
      split; [now apply exchanges_skipn_even|].
      rewrite length_skipn, length_app. cbn [length]. lia.
    - split; [exact Happ|exact Hshort]. }
  split.
  { split; [constructor|cbn; lia]. }
  split; [now apply count_role_exchanges|].
  split; [now apply count_role_exchanges|].
  split; [exact Hlines|].
  intros Hagent. unfold chat. destruct Hlines as (lines & -> & _).
  match goal with
  | |- context [agent_call ?prompt] => destruct (Hagent prompt) as [response ->]
  end.
  eexists. eexists. reflexivity.
Qed.
End Conversation.

Section ToolHistory.
Context {PF : PyFloat} {RT : Runtime}.

(** X24.  [GET /history] answers with 200, changes nothing, reports the
    number of all recorded calls as [total_calls] and lists the most
    recent 50 of them, oldest first: the list is the end of the recorded
    history and has 50 entries, or all of them when fewer are recorded. *)
Theorem history_route_lists_latest (w : World) :
  exists older recent,
    mcp_routes.get_tool_history w
    = (Ok (PDict [("success", PBool true);
                  ("history", PList recent);
                  ("total_calls",
                   PInt (Z.of_nat (length (tool_call_history (manager w)))))],
           200), w)
    /\ tool_call_history (manager w) = (older ++ recent)%list
    /\ length recent = Nat.min 50 (length (tool_call_history (manager w))).
Proof.
  unfold mcp_routes.get_tool_history, try_except, bind, get, ret.
  destruct (Nat.ltb_spec 50 (length (tool_call_history (manager w)))).
  - exists (firstn (length (tool_call_history (manager w)) - 50)
              (tool_call_history (manager w))).
    eexists. split; [reflexivity|].
    rewrite firstn_skipn, length_skipn. split; [reflexivity|lia].
  - exists []. eexists. split; [reflexivity|]. split; [reflexivity|lia].
Qed.
End ToolHistory.

Section RemoveRoute.
Context {PF : PyFloat} {RT : Runtime}.
Import mcp_client.

Lemma agent_disconnect_run (server_id : string) (w : World) :
  exists w',
    strands_mcp_agent.disconnect_server server_id w = (Ok true, w')
    /\ manager w' = manager w
    /\ mcp_servers (agent w') = mcp_servers (agent w)
    /\ mcp_clients (agent w') = dict_del server_id (mcp_clients (agent w))
    /\ connected_servers (agent w')
       = if dict_mem server_id (mcp_clients (agent w))
         then dict_del server_id (connected_servers (agent w))
         else connected_servers (agent w).
Proof.
  destruct w as [mg [ms mc cs] dk tk tr].
  cbn [agent mcp_clients manager mcp_servers connected_servers].
  unfold dict_mem at 1.
  destruct (dict_get server_id mc) as [client|] eqn:Hclient.
  - destruct (dict_get server_id cs) as [info|] eqn:Hinfo.
    all: eexists; split;
      [ apply post_result; unfold strands_mcp_agent.disconnect_server;
        wp_step; wp_step; cbn [agent mcp_clients]; unfold dict_mem at 1;
        rewrite Hclient; cbv beta iota;
        wp_step; wp_step; wp_step; wp_step; wp_step;
        cbn [agent with_agent connected_servers mcp_servers mcp_clients];
        unfold dict_mem; rewrite Hinfo; wp; split; reflexivity
      | cbn; repeat split; now rewrite ?dict_del_absent ].
  - eexists. split.
    + unfold strands_mcp_agent.disconnect_server, bind at 1, get.
      unfold dict_mem. cbv beta iota. cbn [agent mcp_clients].
      rewrite Hclient. reflexivity.
    + cbn. rewrite dict_del_absent by exact Hclient. repeat split.
Qed.

Lemma remove_server_run (server_id : string) (create_task : option exn)
    (w : World) (s : MCPServer) :
  server_of server_id w = Some s ->
  dict_get server_id (active_connections (manager w)) = None \/ create_task = None ->
  remove_server server_id create_task w
  = match save_config (with_manager (with_servers (dict_del server_id)) w) with
    | (Ok _, w1) => (Ok (dict_mem server_id (active_connections (manager w))), w1)
    | (Raise e, w1) => (Raise e, w1)
    end.
Proof.
  intros Hserver Htask. unfold server_of in Hserver.
  unfold remove_server, bind at 1, get. unfold dict_mem at 1. rewrite Hserver.
  unfold dict_mem.
  destruct (dict_get server_id (active_connections (manager w))) as [stack|].
  - destruct Htask as [Hno| ->]; [discriminate|].
    unfold bind, run, ret, modify. reflexivity.
  - unfold bind, ret, modify. reflexivity.
Qed.

(** X25.  A [DELETE /servers/<id>] for a registered server, when the
    coroutine can be run and the manager's own disconnect, if needed, can
    be scheduled, is answered with 200.  Afterwards the id is not
    registered, the other entries are as before, and the agent has neither
    a client nor, if it had a client, a status record for the id.  The configuration that the
    agent loaded for the id is still there: the reload after the removal
    only adds, so the agent still knows a server that was removed. *)
Theorem removed_server_stays_configured (asyncio_run create_task : option exn)
    (server_id : string) (w : World) (s : MCPServer)
    (Hserver : server_of server_id w = Some s)
    (Hloop : asyncio_run = None)
    (Htask : dict_get server_id (active_connections (manager w)) = None
             \/ create_task = None)
    (Hregistry : NoDup (dict_keys (servers (manager w)))) :
  exists w',
    mcp_routes.remove_server asyncio_run create_task server_id w
    = (Ok (PDict [("success", PBool true);
                  ("message", PStr "Server removed successfully")], 200), w')
    /\ server_of server_id w' = None
    /\ (forall other, other <> server_id -> server_of other w' = server_of other w)
    /\ dict_get server_id (mcp_clients (agent w')) = None
    /\ (dict_get server_id (mcp_clients (agent w)) <> None ->
        dict_get server_id (connected_servers (agent w')) = None)
    /\ dict_get server_id (mcp_servers (agent w'))
       = dict_get server_id (mcp_servers (agent w)).
Proof.
  subst asyncio_run.
  destruct (agent_disconnect_run server_id w)
    as (wa & Hdisc & Hma & Hsa & Hca & Hcsa).
  (* the world after the optional disconnect *)
  assert (Hfirst : exists wb,
    (if dict_mem server_id (mcp_clients (agent w)) then
       mcp_routes.run_async_safely None "30.0"
         (strands_mcp_agent.disconnect_server server_id) ;;
       ret tt
     else ret tt) w = (Ok tt, wb)
    /\ manager wb = manager w
    /\ mcp_servers (agent wb) = mcp_servers (agent w)
    /\ mcp_clients (agent wb) = dict_del server_id (mcp_clients (agent w))
    /\ connected_servers (agent wb)
       = if dict_mem server_id (mcp_clients (agent w))
         then dict_del server_id (connected_servers (agent w))
         else connected_servers (agent w)).
  { destruct (dict_mem server_id (mcp_clients (agent w))) eqn:Hmem.
    - exists wa. split; [|auto].
      unfold mcp_routes.run_async_safely, try_except, bind, run, ret.
      now rewrite Hdisc.
    - exists w. split; [reflexivity|]. split; [reflexivity|].
      split; [reflexivity|]. split; [|reflexivity].
      unfold dict_mem in Hmem. rewrite dict_del_absent; [reflexivity|].
      now destruct (dict_get server_id (mcp_clients (agent w))). }
  destruct Hfirst as (wb & Hfirst & Hmb & Hsb & Hcb & Hcsb).
  set (w0 := with_manager (with_servers (dict_del server_id)) wb).
  assert (Hmgr0 : servers (manager w0) = dict_del server_id (servers (manager w)))
    by (unfold w0; destruct wb as [[] ? ? ? ?]; cbn in *; now rewrite <- Hmb).
  assert (Hnd : NoDup (dict_keys (servers (manager w0))))
    by (rewrite Hmgr0; apply dict_del_keeps_NoDup; exact Hregistry).
  destruct (agent_reload_after_save w0 Hnd)
    as (w1 & w2 & Hsave & Hload & Hm & Hc & Hs & Hagent).
  assert (Hagent0 : agent w0 = agent wb) by (unfold w0; now destruct wb).
  exists w2. split.
  { unfold mcp_routes.remove_server, try_except, bind at 1, get.
    unfold bind at 1. rewrite Hfirst.
    unfold bind at 1.
    rewrite (remove_server_run server_id create_task wb s).
    - fold w0. rewrite Hsave. unfold bind at 1. rewrite Hload. reflexivity.
    - unfold server_of. rewrite Hmb. exact Hserver.
    - rewrite Hmb. exact Htask. }
  split.
  { unfold server_of. rewrite Hm, Hmgr0. apply dict_get_del_same. }
  split.
  { intros other Hne. unfold server_of. rewrite Hm, Hmgr0.
    now apply dict_get_del_other. }
  split.
  { rewrite Hc, Hagent0, Hcb. apply dict_get_del_same. }
  split.
  { intros Hclient. rewrite Hs, Hagent0, Hcsb. unfold dict_mem.
    destruct (dict_get server_id (mcp_clients (agent w))); [|contradiction].
    apply dict_get_del_same. }
  specialize (Hagent server_id). unfold server_of in Hagent.
  rewrite Hmgr0, dict_get_del_same in Hagent.
  rewrite Hagent, Hagent0, Hsb. reflexivity.
Qed.
End RemoveRoute.

(** ** The further properties on the sample inputs *)

Section FurtherConcrete.
#[local] Existing Instance sample_float.
#[local] Existing Instance sample_runtime.
Import mcp_client Samples MoreSamples.

Lemma entries_stay_consistent_witness :
  every_entry entry_consistent world0
  /\ every_entry entry_consistent
       (snd (connect_server "s1" (secs 30) run_list_tools_timeout world0)).
Proof.
  assert (Hw : every_entry entry_consistent world0).
  { constructor; [|constructor]. right; left. repeat split. }
  split; [exact Hw|].
  destruct (entries_stay_consistent world0 Hw) as [Hconnect _]. apply Hconnect.
Defined.

Lemma world_connected_tools : every_entry tools_well_formed world_connected.
Proof.
  unfold every_entry. vm_compute.
  constructor; [|constructor]. constructor; [|constructor].
  do 3 eexists. repeat split.
Defined.

Lemma get_all_tools_lists_connected_only_witness :
  every_entry tools_well_formed world_connected
  /\ get_all_tools world_connected
     = (Ok (offered_tools (dict_values (servers (manager world_connected)))),
        world_connected).
Proof.
  split; [exact world_connected_tools|].
  apply (get_all_tools_lists_connected_only world_connected world_connected_tools).
Defined.

Lemma tools_stay_well_formed_witness :
  every_entry tools_well_formed world_connected
  /\ every_entry tools_well_formed
       (snd (disconnect_server "s1" None world_connected)).
Proof.
  split; [exact world_connected_tools|].
  destruct (tools_stay_well_formed world_connected world_connected_tools)
    as (_ & Hdisconnect & _).
  apply Hdisconnect.
Defined.

Lemma update_server_merges_fields_witness :
  server_of "s1" world0 = Some demo_server
  /\ NoDup (dict_keys (servers (manager world0)))
  /\ exists w1 w2 s',
       update_server "s1" full_descriptor world0 = (Ok true, w1)
       /\ server_of "s1" w1 = Some s'
       /\ load_config (restart w1) = (Ok tt, w2).
Proof.
  assert (Hnd : NoDup (dict_keys (servers (manager world0))))
    by (repeat constructor; intros []).
  split; [reflexivity|]. split; [exact Hnd|].
  destruct (update_server_merges_fields "s1" full_descriptor world0 demo_server
              eq_refl Hnd)
    as (w1 & w2 & s' & Hrun & Hentry & _ & _ & _ & _ & Hload & _).
  exists w1, w2, s'. repeat split; assumption.
Defined.

Lemma remove_server_removes_witness :
  server_of "s1" world0 = Some demo_server
  /\ (dict_get "s1" (active_connections (manager world0)) = None
      \/ @None exn = None)
  /\ NoDup (dict_keys (servers (manager world0)))
  /\ exists w1,
       remove_server "s1" None world0 = (Ok false, w1)
       /\ server_of "s1" w1 = None.
Proof.
  assert (Hnd : NoDup (dict_keys (servers (manager world0))))
    by (repeat constructor; intros []).
  split; [reflexivity|]. split; [now left|]. split; [exact Hnd|].
  destruct (remove_server_removes "s1" None world0 demo_server eq_refl
              (or_introl eq_refl) Hnd)
    as (w1 & w2 & Hrun & Hgone & _).
  exists w1. split; [exact Hrun|exact Hgone].
Defined.

Lemma get_all_servers_lists_registry_witness :
  NoDup (dict_keys (servers (manager world0)))
  /\ get_all_servers (manager world0) = [server_status_dict demo_server].
Proof.
  assert (Hnd : NoDup (dict_keys (servers (manager world0))))
    by (repeat constructor; intros []).
  split; [exact Hnd|].
  destruct (get_all_servers_lists_registry (manager world0) Hnd) as [Hlist _].
  rewrite Hlist. reflexivity.
Defined.

Lemma restart_forgets_runtime_state_witness :
  NoDup (dict_keys (servers (manager world_connected)))
  /\ exists w1 w2,
       save_config world_connected = (Ok tt, w1)
       /\ load_config (restart w1) = (Ok tt, w2)
       /\ active_connections (manager w2) = [].
Proof.
  assert (Hnd : NoDup (dict_keys (servers (manager world_connected))))
    by (vm_compute; repeat constructor; intros []).
  split; [exact Hnd|].
  destruct (restart_forgets_runtime_state world_connected Hnd)
    as (w1 & w2 & Hsave & Hload & _ & _ & Hactive & _).
  exists w1, w2. repeat split; assumption.
Defined.

Lemma call_tool_leaves_terminal_record_witness :
  server_of "s1" world_connected = Some connected_server
  /\ status connected_server = "connected"
  /\ session connected_server = Some 0
  /\ exists fields record w',
       call_tool "s1" "echo" (PDict []) (secs 60) (Fails "boom") world_connected
       = (Ok (PDict fields), w')
       /\ dict_get "success" fields = Some (PBool false)
       /\ tool_call_history (manager w')
          = (tool_call_history (manager world_connected) ++ [PDict record])%list
       /\ dict_get "status" record = Some (PStr "failed").
Proof.
  assert (H : server_of "s1" world_connected = Some connected_server)
    by (vm_compute; reflexivity).
  split; [exact H|]. split; [reflexivity|]. split; [reflexivity|].
  destruct (call_tool_leaves_terminal_record "s1" "echo" (PDict []) (secs 60)
              (Fails "boom") world_connected connected_server 0 H eq_refl eq_refl)
    as (fields & record & w' & Hrun & Hsuccess & Hhistory & Hstatus & _).
  exists fields, record, w'. repeat split; assumption.
Defined.

Lemma connect_server_success_state_witness :
  server_of "s1" world0 = Some demo_server
  /\ connect_failure_message (secs 30) run_ok = None
  /\ list_tools run_ok = Done [echo_tool]
  /\ exists w' s',
       connect_server "s1" (secs 30) run_ok world0 = (Ok true, w')
       /\ server_of "s1" w' = Some s'
       /\ (status s', session s', connected_at s', available_tools s')
          = ("connected", Some 0, Some 1, [tool_dict echo_tool]).
Proof.
  split; [reflexivity|]. split; [reflexivity|]. split; [reflexivity|].
  destruct (connect_server_success_state "s1" (secs 30) run_ok world0 demo_server
              [echo_tool] eq_refl eq_refl eq_refl)
    as (w' & s' & Hrun & Hentry & Hstate & _).
  exists w', s'. repeat split; assumption.
Defined.


Lemma agent_connect_outcomes_witness :
  dict_get "s1" (mcp_servers (agent world_agent)) = Some (PDict agent_config)
  /\ dict_get "s1" (mcp_clients (agent world_agent)) = None
  /\ truthy (get_default "command" (PList []) agent_config) = true
  /\ exists w',
       strands_mcp_agent.connect_server "s1" client_ok world_agent = (Ok true, w')
       /\ manager w' = manager world_agent
       /\ dict_get "s1" (connected_servers (agent w'))
          = Some (connected_info "s1" agent_config 2).
Proof.
  split; [reflexivity|]. split; [reflexivity|]. split; [reflexivity|].
  destruct (agent_connect_outcomes "s1" client_ok world_agent agent_config
              eq_refl eq_refl eq_refl)
    as (w' & Hrun & Hmanager & _ & _ & n & Hlisted & _ & Hinfo & _).
  exists w'. split; [exact Hrun|]. split; [exact Hmanager|].
  injection Hlisted as <-. exact Hinfo.
Defined.

Lemma status_route_answers_witness :
  "s1" <> ""
  /\ mcp_routes.get_server_status (ret PNone) "s1" world_agent
     = (Ok (PDict [("success", PBool true);
                   ("status", PDict [("name", PStr "demo");
                                     ("status", PStr "disconnected")])], 200),
        world_agent).
Proof.
  assert (Hid : "s1" <> "") by discriminate.
  split; [exact Hid|].
  destruct (status_route_answers (ret PNone) "s1" client_ok world_agent Hid)
    as (_ & Hidle & _).
  apply (Hidle agent_config); reflexivity.
Defined.

Lemma added_server_reaches_agent_witness :
  dict_get "name" full_descriptor = Some (PStr "files")
  /\ dict_get "command" full_descriptor = Some (PList [PStr "npx"])
  /\ NoDup (dict_keys (servers (manager world0)))
  /\ exists w' t,
       mcp_routes.add_server full_descriptor world0
       = (Ok (PDict [("success", PBool true);
                     ("server_id", PStr "uuid-0");
                     ("message", PStr "Server 'files' added successfully")], 200),
          w')
       /\ dict_get "uuid-0" (mcp_servers (agent w'))
          = Some (config_entry
                    (added_server "uuid-0" full_descriptor (PStr "files")
                       (PList [PStr "npx"])) t).
Proof.
  assert (Hnd : NoDup (dict_keys (servers (manager world0))))
    by (repeat constructor; intros []).
  split; [reflexivity|]. split; [reflexivity|]. split; [exact Hnd|].
  destruct (added_server_reaches_agent full_descriptor (PStr "files")
              (PList [PStr "npx"]) world0 eq_refl eq_refl Hnd)
    as (w' & Hrun & _ & _ & _ & t & Hagent).
  exists w', t. split; [exact Hrun|exact Hagent].
Defined.

Lemma updated_server_reaches_agent_witness :
  dict_get "name" disabling_update = Some (PStr "demo")
  /\ dict_get "command" disabling_update = Some (PList [PStr "node"])
  /\ server_of "s1" world_agent = Some demo_server
  /\ NoDup (dict_keys (servers (manager world_agent)))
  /\ exists w',
       mcp_routes.update_server "s1" disabling_update world_agent
       = (Ok (PDict [("success", PBool true);
                     ("message", PStr "Server 'demo' updated successfully")], 200),
          w')
       /\ option_map enabled (server_of "s1" w') = Some (PBool false)
       /\ dict_get "s1" (mcp_servers (agent w')) = Some (PDict agent_config).
Proof.
  assert (Hnd : NoDup (dict_keys (servers (manager world_agent))))
    by (repeat constructor; intros []).
  split; [reflexivity|]. split; [reflexivity|]. split; [reflexivity|].
  split; [exact Hnd|].
  destruct (updated_server_reaches_agent "s1" disabling_update (PStr "demo")
              (PList [PStr "node"]) demo_server world_agent
              eq_refl eq_refl eq_refl Hnd)
    as (w' & Hrun & Hentry & _ & _ & _ & Hagent).
  exists w'. split; [exact Hrun|]. split; [now rewrite Hentry|exact Hagent].
Defined.

Lemma chat_keeps_whole_exchanges_witness :
  chat_invariant chat_start
  /\ chat_invariant
       (snd (strands_mcp_agent.chat greeting_agent "guidance" "hi" None chat_start))
  /\ strands_mcp_agent.count_role "user"
       (strands_mcp_agent.conversation_history chat_start) = Ok 0.
Proof.
  assert (Hinv : chat_invariant chat_start).
  { split; [constructor|]. apply Nat.le_0_l. }
  split; [exact Hinv|].
  destruct (chat_keeps_whole_exchanges greeting_agent "guidance" "hi" None
              chat_start Hinv)
    as (Hnext & _ & Huser & _).
  split; [exact Hnext|exact Huser].
Defined.

Lemma removed_server_stays_configured_witness :
  server_of "s1" world_agent = Some demo_server
  /\ @None exn = None
  /\ (dict_get "s1" (active_connections (manager world_agent)) = None
      \/ @None exn = None)
  /\ NoDup (dict_keys (servers (manager world_agent)))
  /\ exists w',
       mcp_routes.remove_server None None "s1" world_agent
       = (Ok (PDict [("success", PBool true);
                     ("message", PStr "Server removed successfully")], 200), w')
       /\ server_of "s1" w' = None
       /\ dict_get "s1" (mcp_servers (agent w')) = Some (PDict agent_config).
Proof.
  assert (Hnd : NoDup (dict_keys (servers (manager world_agent))))
    by (repeat constructor; intros []).
  split; [reflexivity|]. split; [reflexivity|]. split; [now left|].
  split; [exact Hnd|].
  destruct (removed_server_stays_configured None None "s1" world_agent demo_server
              eq_refl eq_refl (or_introl eq_refl) Hnd)
    as (w' & Hrun & Hgone & _ & _ & _ & Hagent).
  exists w'. split; [exact Hrun|]. split; [exact Hgone|exact Hagent].
Defined.
End FurtherConcrete.
